(** * Source identification and normalization pipeline

    A shallow embedding of [router.js] (source identification) and
    [processor.js] (normalization, classification, value normalizers, HTML
    repair, export), together with the earlier revision of the row-wise
    normalizer.

    Conventions of the embedding:
    - a JavaScript string is the list of its UTF-16 code units ([jstring]);
      literals are written in UTF-8 and decoded by [js];
    - a JavaScript number is an IEEE 754 binary64 value, taken from the
      specification of floating-point arithmetic of the standard library
      ([spec_float] at precision 53 and exponent bound 1024), with its
      signed zeros, infinities and NaN;
    - a [Date] is its time value in milliseconds, or invalid;
    - an array is a list whose elements may be missing: [None] is a hole
      of a sparse array, as [sheet_to_json] leaves one for a blank cell;
    - a [Uint8Array] is a list of bytes;
    - an exception is the result [TypeError] of a fallible computation;
    - host facilities that are not spelled out here (number and date
      printing, Unicode lower-casing, [Date.parse], the local time-zone
      offset) are the fields of a [Host] record. *)

From Stdlib Require Import ZArith NArith List Bool String Ascii DecimalString Lia.
From Stdlib Require Import SpecFloat.
From Stdlib.Strings Require Import Byte.
From Equations Require Import Equations.
Import ListNotations.

Local Open Scope Z_scope.

(* ===================================================================== *)
(** ** JavaScript strings                                                 *)
(* ===================================================================== *)

Module JS.

Definition jstring := list N.

(** Continuation byte payload of a UTF-8 sequence. *)
Definition cont (a : ascii) : N := N.land (N_of_ascii a) 63.

(** UTF-16 code units of a code point. *)
Definition units (cp : N) : list N :=
  if (cp <? 65536)%N then [cp]
  else let v := (cp - 65536)%N in
       [(55296 + N.shiftr v 10)%N; (56320 + N.land v 1023)%N].

(** Decoding of a UTF-8 literal into code units. *)
Fixpoint js (s : string) : jstring :=
  match s with
  | EmptyString => []
  | String a r =>
    let b := N_of_ascii a in
    if (b <? 128)%N then b :: js r
    else if (b <? 224)%N then
      match r with
      | String a1 r1 => units (N.land b 31 * 64 + cont a1)%N ++ js r1
      | _ => [65533%N]
      end
    else if (b <? 240)%N then
      match r with
      | String a1 (String a2 r2) =>
        units (N.land b 15 * 4096 + cont a1 * 64 + cont a2)%N ++ js r2
      | _ => [65533%N]
      end
    else
      match r with
      | String a1 (String a2 (String a3 r3)) =>
        units (N.land b 7 * 262144 + cont a1 * 4096 + cont a2 * 64 + cont a3)%N
          ++ js r3
      | _ => [65533%N]
      end
  end.

Definition jeqb (s t : jstring) : bool :=
  if list_eq_dec N.eq_dec s t then true else false.

Lemma jeqb_eq s t : jeqb s t = true <-> s = t.
Proof. unfold jeqb. destruct (list_eq_dec N.eq_dec s t); split; congruence. Qed.

Lemma jeqb_refl s : jeqb s s = true.
Proof. apply jeqb_eq. reflexivity. Qed.

(** The class [\s]: WhiteSpace and LineTerminator code units. *)
Definition isSpace (c : N) : bool :=
  ((9 <=? c) && (c <=? 13) || (c =? 32) || (c =? 160) || (c =? 5760)
   || (8192 <=? c) && (c <=? 8202) || (c =? 8232) || (c =? 8233)
   || (c =? 8239) || (c =? 8287) || (c =? 12288) || (c =? 65279))%N.

(** The class [\d]. *)
Definition isDigit (c : N) : bool := ((48 <=? c) && (c <=? 57))%N.

Fixpoint dropWhile {A} (p : A -> bool) (l : list A) : list A :=
  match l with
  | [] => []
  | x :: r => if p x then dropWhile p r else l
  end.

Fixpoint takeWhile {A} (p : A -> bool) (l : list A) : list A :=
  match l with
  | [] => []
  | x :: r => if p x then x :: takeWhile p r else []
  end.

(** [String.prototype.trim]. *)
Definition trim (s : jstring) : jstring :=
  rev (dropWhile isSpace (rev (dropWhile isSpace s))).

(** [s.replace(/\s+/g, '')]. *)
Definition stripSpaces (s : jstring) : jstring :=
  filter (fun c => negb (isSpace c)) s.

Fixpoint startsWith (s t : jstring) : bool :=
  match t, s with
  | [], _ => true
  | _ :: _, [] => false
  | b :: t', a :: s' => (a =? b)%N && startsWith s' t'
  end.

(** [s.includes(t)]. *)
Fixpoint includes (s t : jstring) : bool :=
  startsWith s t ||
  match s with
  | [] => false
  | _ :: s' => includes s' t
  end.

(** [a.join(sep)] on already printed elements. *)
Fixpoint join (sep : jstring) (l : list jstring) : jstring :=
  match l with
  | [] => []
  | [x] => x
  | x :: r => x ++ sep ++ join sep r
  end.

(* --------------------------------------------------------------------- *)
(** ** Exceptions                                                         *)
(* --------------------------------------------------------------------- *)

(** The outcome of code that can throw.  The one exception the modelled
    code raises is the [TypeError] of a method call on [undefined]. *)
Inductive result (A : Type) : Type :=
| Ok (a : A)
| TypeError.

Arguments Ok {A} a.
Arguments TypeError {A}.

Definition bind {A B} (r : result A) (k : A -> result B) : result B :=
  match r with
  | Ok a => k a
  | TypeError => TypeError
  end.

Notation "x <- e ;; k" := (bind e (fun x => k))
  (at level 61, e at next level, right associativity).

Definition rmap {A B} (f : A -> B) (r : result A) : result B :=
  match r with
  | Ok a => Ok (f a)
  | TypeError => TypeError
  end.

(* --------------------------------------------------------------------- *)
(** ** Arrays                                                             *)
(* --------------------------------------------------------------------- *)

(** An array with its holes: the element at an index is present or
    missing, and the length counts both. *)
Definition array (A : Type) := list (option A).

(** [Array.prototype.map]: the callback is not called on a hole, and the
    hole stays one. *)
Definition amap {A B} (f : A -> B) (a : array A) : array B := map (option_map f) a.

(** [Array.prototype.some]: holes are passed over. *)
Definition some {A} (p : A -> bool) (a : array A) : bool :=
  existsb (fun c => match c with Some x => p x | None => false end) a.

(** [Array.prototype.indexOf] on an array of strings: strict equality with
    the elements that are present. *)
Fixpoint indexOfFrom (a : array jstring) (x : jstring) (i : Z) : Z :=
  match a with
  | [] => -1
  | Some y :: r => if jeqb y x then i else indexOfFrom r x (i + 1)
  | None :: r => indexOfFrom r x (i + 1)
  end.

Definition indexOf (a : array jstring) (x : jstring) : Z := indexOfFrom a x 0.

(** [a.findIndex(h => ... h.method(...) ...)]: [findIndex] visits every
    index below the length and reads [undefined] at a hole, on which the
    method call of the callback throws. *)
Fixpoint findIndexFrom {A} (p : A -> bool) (a : array A) (i : Z) : result Z :=
  match a with
  | [] => Ok (-1)
  | Some x :: r => if p x then Ok i else findIndexFrom p r (i + 1)
  | None :: _ => TypeError
  end.

Definition findIndex {A} (p : A -> bool) (a : array A) : result Z :=
  findIndexFrom p a 0.

(* --------------------------------------------------------------------- *)
(** ** Numbers                                                            *)
(* --------------------------------------------------------------------- *)

Definition number := spec_float.

Definition prec : Z := 53.
Definition emax : Z := 1024.

(** The binary [+], [-], [*] and [/] on numbers. *)
Definition nadd : number -> number -> number := SFadd prec emax.
Definition nsub : number -> number -> number := SFsub prec emax.
Definition nmul : number -> number -> number := SFmul prec emax.
Definition ndiv : number -> number -> number := SFdiv prec emax.

(** The number nearest to the non-negative rational [n / d], ties to even:
    the quotient is formed with enough bits for the remainder to tell on
    which side of a tie it lies, then rounded. *)
Definition ofQ (n : N) (d : positive) : number :=
  match n with
  | N0 => S754_zero false
  | Npos p =>
    let '(mz, ez, lz) := SFdiv_core_binary prec emax (Zpos p) 0 (Zpos d) 0 in
    binary_round_aux prec emax false mz ez lz
  end.

(** The number value of an integer literal. *)
Definition ofZ (z : Z) : number :=
  match z with
  | Z0 => S754_zero false
  | Zpos p => ofQ (Npos p) 1
  | Zneg p => SFopp (ofQ (Npos p) 1)
  end.

(** ToBoolean on a number: NaN and both zeros are falsy. *)
Definition numTruthy (n : number) : bool :=
  match n with
  | S754_nan | S754_zero _ => false
  | _ => true
  end.

(** [n || 0]. *)
Definition orZero (n : number) : number := if numTruthy n then n else ofZ 0.

Definition digitsToN (ds : jstring) : N :=
  fold_left (fun acc c => (acc * 10 + (c - 48))%N) ds 0%N.

(** An optional sign in front of a decimal literal. *)
Definition splitSign (s : jstring) : bool * jstring :=
  match s with
  | c :: r => if (c =? 45)%N then (true, r)
              else if (c =? 43)%N then (false, r)
              else (false, s)
  | [] => (false, s)
  end.

(** The longest prefix of the form digits? (. digits?)? with at least one
    digit, as the number nearest to the decimal it spells. *)
Definition parseUnsigned (s : jstring) : option number :=
  let ip := takeWhile isDigit s in
  let fp := match dropWhile isDigit s with
            | c :: r => if (c =? 46)%N then takeWhile isDigit r else []
            | [] => []
            end in
  match ip, fp with
  | [], [] => None
  | _, _ =>
    Some (ofQ (digitsToN (ip ++ fp)) (Z.to_pos (10 ^ Z.of_nat (List.length fp))))
  end.

(** [parseFloat] on the decimal grammar sign? digits? (. digits?)?  Every
    call site passes a string over the alphabet [0-9 . -], on which the
    exponent and [Infinity] productions of StrDecimalLiteral cannot fire. *)
Definition parseFloat (s : jstring) : number :=
  let (neg, s1) := splitSign (dropWhile isSpace s) in
  match parseUnsigned s1 with
  | None => S754_nan
  | Some x => if neg then SFopp x else x
  end.

(** [Math.round] of a number, as the integer it denotes: the nearest
    integer, ties towards plus infinity; [None] for NaN and the
    infinities, which [Math.round] returns unchanged. *)
Definition mathRound (x : number) : option Z :=
  match x with
  | S754_zero _ => Some 0
  | S754_finite s m e =>
    let v := if s then Zneg m else Zpos m in
    Some (if 0 <=? e then v * 2 ^ e
          else (2 * v + 2 ^ (- e)) / 2 ^ (- e + 1))
  | _ => None
  end.

(* --------------------------------------------------------------------- *)
(** ** Values, truthiness and printing                                    *)
(* --------------------------------------------------------------------- *)

(** The cell values a sheet can hold.  [VDate None] is an invalid date. *)
Inductive value :=
| VUndef
| VNull
| VBool (b : bool)
| VNum (n : number)
| VStr (s : jstring)
| VDate (t : option Z).

Definition truthy (v : value) : bool :=
  match v with
  | VUndef | VNull => false
  | VBool b => b
  | VNum n => numTruthy n
  | VStr [] => false
  | VStr _ => true
  | VDate _ => true
  end.

(** Host facilities taken as given. *)
Record Host := {
  numToString : number -> jstring;        (* Number::toString *)
  dateToString : option Z -> jstring;     (* Date.prototype.toString *)
  toLowerCase : jstring -> jstring;       (* String.prototype.toLowerCase *)
  Date_parse : jstring -> option Z;       (* Date.parse, None for NaN *)
  localTZA : Z -> Z                       (* local offset in ms at a UTC time *)
}.

(** [String(v)]. *)
Definition toString (h : Host) (v : value) : jstring :=
  match v with
  | VUndef => js "undefined"
  | VNull => js "null"
  | VBool true => js "true"
  | VBool false => js "false"
  | VNum n => numToString h n
  | VStr s => s
  | VDate t => dateToString h t
  end.

(** Printing of an array element by [join]: a hole, undefined and null are
    empty. *)
Definition joinString (h : Host) (c : option value) : jstring :=
  match c with
  | None | Some VUndef | Some VNull => []
  | Some v => toString h v
  end.

(** [row[i]]: undefined at a hole and outside the array. *)
Definition at_ (row : array value) (i : Z) : value :=
  if i <? 0 then VUndef
  else match nth_error row (Z.to_nat i) with
       | Some (Some v) => v
       | _ => VUndef
       end.

(** Decimal printing of an integer. *)
Definition intString (z : Z) : jstring :=
  js (NilZero.string_of_int (Z.to_int z)).

(** [s.padStart(2, '0')]. *)
Definition padStart2 (s : jstring) : jstring :=
  repeat 48%N (2 - List.length s) ++ s.

(* --------------------------------------------------------------------- *)
(** ** Dates                                                              *)
(* --------------------------------------------------------------------- *)

Definition msPerDay : Z := 86400000.

(** TimeClip: a time value is valid within 8.64e15 ms of the epoch. *)
Definition timeClip (t : Z) : option Z :=
  if Z.abs t <=? 8640000000000000 then Some t else None.

(** [new Date(x)] for a number [x] that holds an integer or is not finite. *)
Definition dateOfNumber (x : option Z) : option Z :=
  match x with
  | Some t => timeClip t
  | None => None
  end.

(** Year, month (1..12) and day of month of a day number counted from
    1970-01-01 in the proleptic Gregorian calendar. *)
Definition civil (days : Z) : Z * Z * Z :=
  let z := days + 719468 in
  let era := z / 146097 in
  let doe := z - era * 146097 in
  let yoe := (doe - doe / 1460 + doe / 36524 - doe / 146096) / 365 in
  let doy := doe - (365 * yoe + yoe / 4 - yoe / 100) in
  let mp := (5 * doy + 2) / 153 in
  let d := doy - (153 * mp + 2) / 5 + 1 in
  let m := if mp <? 10 then mp + 3 else mp - 9 in
  let y := yoe + era * 400 + (if m <=? 2 then 1 else 0) in
  (y, m, d).

(** The template [`${year}-${month}-${day}`] built from the local calendar
    fields of a date; every field of an invalid date prints as NaN. *)
Definition ymd (h : Host) (d : option Z) : jstring :=
  match d with
  | None => js "NaN-NaN-NaN"
  | Some t =>
    let '(y, m, dd) := civil ((t + localTZA h t) / msPerDay) in
    intString y ++ js "-" ++ padStart2 (intString m) ++ js "-"
      ++ padStart2 (intString dd)
  end.

(** A host for worked examples: whole numbers print in decimal,
    lower-casing covers ASCII, [Date.parse] rejects every text, local time
    is UTC+9. *)
Definition asciiLower (s : jstring) : jstring :=
  map (fun c => if ((65 <=? c) && (c <=? 90))%N then (c + 32)%N else c) s.

Definition sampleHost : Host :=
  {| numToString := fun n => match n with
                             | S754_nan => js "NaN"
                             | S754_infinity false => js "Infinity"
                             | S754_infinity true => js "-Infinity"
                             | _ => match mathRound n with
                                    | Some z => intString z
                                    | None => []
                                    end
                             end;
     dateToString := fun _ => js "Invalid Date";
     toLowerCase := asciiLower;
     Date_parse := fun _ => None;
     localTZA := fun _ => 32400000 |}.

End JS.
Import JS.

(* ===================================================================== *)
(** ** router.js                                                          *)
(* ===================================================================== *)

(** A mapping entry: absent, one header name, or an ordered array of
    acceptable header names. *)
Inductive field :=
| FUndef
| FOne (name : jstring)
| FMany (names : list jstring).

(** The [mapping] object of a source definition.  The keys read through the
    row-wise column helper accept a name or an array of names; the keys read
    by the payroll-summary helper are plain names. *)
Record Mapping := {
  date : field;
  time : field;
  raw_description : field;
  amount : field;
  amount_alt : field;
  net_payment : option jstring;
  total_deduction : option jstring;
  employee_name : option jstring
}.

Record SourceDefinition := {
  type : jstring;
  name : jstring;
  signatures : list jstring;
  mapping : Mapping
}.

(** A row of a sheet as [sheet_to_json(sheet, {header: 1})] yields it: a
    blank cell in front of a filled one is a hole. *)
Definition Row := array value.

(** A workbook: the sheet names in declared order, and for each name the
    array of rows that [XLSX.utils.sheet_to_json(sheet, {header: 1})]
    yields for [workbook.Sheets[name]] (empty for a missing sheet). *)
Record Workbook := {
  SheetNames : list jstring;
  Sheets : jstring -> list Row
}.

(** The object returned by [identifySource]. *)
Inductive SourceInfo :=
| Identified (def : SourceDefinition) (headerRow : array jstring)
             (headerIndex : nat) (sheetName : jstring)
             (jsonData : list Row)
| Unidentified (debugHeader : jstring).

Module Router.

Definition cardMapping (d t r a alt : field) : Mapping :=
  {| date := d; time := t; raw_description := r; amount := a;
     amount_alt := alt; net_payment := None; total_deduction := None;
     employee_name := None |}.

Definition F (s : string) : field := FOne (js s).

Definition SOURCE_DEFINITIONS : list SourceDefinition :=
  [ {| type := js "kb_card"; name := js "KB국민카드";
       signatures := [js "이용일"; js "이용하신곳"; js "이용금액"];
       mapping := cardMapping (F "이용일") (F "이용시간") (F "이용하신곳")
                              (F "이용금액(원)") (F "이용금액") |};
    {| type := js "bc_card"; name := js "비씨카드";
       signatures := [js "승인일시"; js "가맹점명"; js "승인금액"];
       mapping := cardMapping (F "승인일시") FUndef (F "가맹점명")
                              (F "승인금액") (F "거래금액") |};
    {| type := js "shinhan_card"; name := js "신한카드";
       signatures := [js "거래일"; js "가맹점명"; js "금액"];
       mapping := cardMapping (F "거래일") FUndef (F "가맹점명")
                              (F "금액") FUndef |};
    {| type := js "samsung_card"; name := js "삼성카드";
       signatures := [js "카드번호"; js "승인일자"; js "승인시각"; js "승인금액(원)"];
       mapping := cardMapping (F "승인일자") (F "승인시각") (F "가맹점명")
                              (F "승인금액(원)") FUndef |};
    {| type := js "citi_account"; name := js "씨티계좌";
       signatures := [js "거래일시"; js "적요"; js "찾으신금액"; js "맡기신금액"];
       mapping := cardMapping (F "거래일시") (F "거래시간") (F "적요")
                              (F "찾으신금액") (F "맡기신금액") |};
    {| type := js "citi_card"; name := js "씨티카드";
       signatures := [js "이용일시"; js "이용카드"; js "가맹점명"; js "거래금액"];
       mapping := cardMapping (F "이용일시") FUndef (F "가맹점명")
                              (F "거래금액") FUndef |} ].

Definition MAX_SEARCH_ROWS : nat := 500.

Section Identify.

Variable h : Host.
(** [Router.definitions]: the catalog in force. *)
Variable definitions : list SourceDefinition.

(** [jsonData[i].map(c => c ? String(c).trim() : '')]. *)
Definition trimmedRow (r : Row) : array jstring :=
  amap (fun c => if truthy c then trim (toString h c) else []) r.

(** [signatures.every(sig => cleanRow.some(cell => cell.includes(cleanSig)))]. *)
Definition isMatch (cleanRow : array jstring) (def : SourceDefinition) : bool :=
  forallb (fun sig =>
             let cleanSig := stripSpaces sig in
             some (fun cell => includes cell cleanSig) cleanRow)
          (signatures def).

(** The loop over the definitions for one row; a match on a row shorter
    than the signature list continues with the next definition. *)
Fixpoint scanDefs (defs : list SourceDefinition) (row cleanRow : array jstring)
  : option SourceDefinition :=
  match defs with
  | [] => None
  | def :: rest =>
    if isMatch cleanRow def then
      if (List.length row <? List.length (signatures def))%nat
      then scanDefs rest row cleanRow
      else Some def
    else scanDefs rest row cleanRow
  end.

(** The loop over the rows [i, i+1, ...] of a sheet, [rows] being the rows
    from index [i] on; it stops at [MAX_SEARCH_ROWS]. *)
Fixpoint scanRows (rows : list Row) (i : nat)
  : option (SourceDefinition * array jstring * nat) :=
  match rows with
  | [] => None
  | r :: rest =>
    if (i <? MAX_SEARCH_ROWS)%nat then
      let row := trimmedRow r in
      let cleanRow := amap stripSpaces row in
      match scanDefs definitions row cleanRow with
      | Some def => Some (def, row, i)
      | None => scanRows rest (S i)
      end
    else None
  end.

(** The loop over the sheets. *)
Fixpoint scanSheets (wb : Workbook) (names : list jstring) : option SourceInfo :=
  match names with
  | [] => None
  | sheetName :: rest =>
    let jsonData := Sheets wb sheetName in
    match jsonData with
    | [] => scanSheets wb rest
    | _ =>
      match scanRows jsonData 0 with
      | Some (def, row, i) => Some (Identified def row i sheetName jsonData)
      | None => scanSheets wb rest
      end
    end
  end.

(** The header probe of a failed identification. *)
Definition debugProbe (wb : Workbook) : jstring :=
  let firstJson := match SheetNames wb with
                   | n :: _ => Sheets wb n
                   | [] => []
                   end in
  match firstJson with
  | firstRow :: _ => join (js ",") (map (joinString h) (firstn 10 firstRow))
  | [] => js "EMPTY"
  end.

Definition identifySource (filename : jstring) (wb : Workbook) : SourceInfo :=
  match scanSheets wb (SheetNames wb) with
  | Some info => info
  | None => Unidentified (debugProbe wb)
  end.

End Identify.

End Router.
(* ===================================================================== *)
(** ** processor.js                                                       *)
(* ===================================================================== *)

(** A transaction record.  The five channel columns and [display_date] are
    added by the classifier and are [VUndef] before it runs. *)
Record Entry := {
  id : jstring;
  e_date : jstring;
  e_time : value;
  e_amount : value;
  e_raw_description : jstring;
  item : jstring;
  category_detail : jstring;
  category_main : jstring;
  category_mso : jstring;
  raw_source : jstring;
  raw_filename : jstring;
  display_date : value;
  col_transfer : value;
  col_account : value;
  col_cash : value;
  col_card : value;
  col_card_detail : value
}.

(** The [updates] object of a classification rule; [None] is an absent key. *)
Record Updates := {
  u_item : option jstring;
  u_description_out : option jstring;
  u_category_detail : option jstring;
  u_category_main : option jstring;
  u_category_mso : option jstring
}.

Record Rule := {
  keywords : list jstring;
  updates : option Updates
}.

Module Processor.

Section Processor.

Variable h : Host.

(* --------------------------------------------------------------------- *)
(** *** extractKRW                                                        *)
(* --------------------------------------------------------------------- *)

Definition isDigitOrComma (c : N) : bool := isDigit c || (c =? 44)%N.

(** [str.match(/￦\s*([\d,]+)/)]: the capture of the leftmost match.  After
    the sign the greedy [\s*] takes every space, and giving some back
    cannot help since [[\d,]] rejects a space; the capture is the longest
    run of digits and commas. *)
Fixpoint wonMatch (str : jstring) : option jstring :=
  match str with
  | [] => None
  | c :: r =>
    if (c =? 65510)%N then
      match takeWhile isDigitOrComma (dropWhile isSpace r) with
      | [] => wonMatch r
      | cap => Some cap
      end
    else wonMatch r
  end.

Definition lower (c : N) : N :=
  if ((65 <=? c) && (c <=? 90))%N then (c + 32)%N else c.

(** Whether [/<br\s*\/?>/i] matches at the head of [s]. *)
Definition brAt (s : jstring) : bool :=
  match s with
  | c :: b :: r :: rest =>
    (c =? 60)%N && (lower b =? 98)%N && (lower r =? 114)%N &&
    match dropWhile isSpace rest with
    | x :: t => (x =? 62)%N
                || (x =? 47)%N && match t with
                                  | y :: _ => (y =? 62)%N
                                  | [] => false
                                  end
    | [] => false
    end
  | _ => false
  end.

(** [str.split(/<br\s*\/?>/i)[0]]: the text before the first match. *)
Fixpoint beforeBr (str : jstring) : jstring :=
  match str with
  | [] => []
  | c :: r => if brAt str then [] else c :: beforeBr r
  end.

(** The class [[0-9.-]]. *)
Definition isNumeric (c : N) : bool := isDigit c || (c =? 46)%N || (c =? 45)%N.

Definition extractKRW (v : value) : number :=
  match v with
  | VNum n => n
  | _ =>
    if negb (truthy v) then ofZ 0
    else
      let str := toString h v in
      match wonMatch str with
      | Some cap => orZero (parseFloat (filter (fun c => negb (c =? 44)%N) cap))
      | None =>
        let cleaned := filter isNumeric (beforeBr str) in
        orZero (parseFloat cleaned)
      end
  end.

(* --------------------------------------------------------------------- *)
(** *** formatDate                                                        *)
(* --------------------------------------------------------------------- *)

(** [/^\d{8}$/.test(str)]. *)
Definition isYYYYMMDD (str : jstring) : bool :=
  (List.length str =? 8)%nat && forallb isDigit str.

(** [/^\d{4}-\d{2}-\d{2}$/.test(str)]. *)
Definition isIsoDate (str : jstring) : bool :=
  match str with
  | [y1; y2; y3; y4; d1; m1; m2; d2; a1; a2] =>
    forallb isDigit [y1; y2; y3; y4; m1; m2; a1; a2]
    && (d1 =? 45)%N && (d2 =? 45)%N
  | _ => false
  end.

(** Steps 1 and 2 of the string branch: the first piece of
    [split(/[\sT]+/)] of the trimmed text, with [.] and [/] turned into [-]. *)
Definition cleanDate (s : jstring) : jstring :=
  let str := trim s in
  let str := takeWhile (fun c => negb (isSpace c || (c =? 84)%N)) str in
  map (fun c => if ((c =? 46) || (c =? 47))%N then 45%N else c) str.

Definition formatDate (d : value) : jstring :=
  if negb (truthy d) then []
  else
    match d with
    | VDate t => ymd h t
    | VNum x =>
      ymd h (dateOfNumber
               (mathRound (nmul (nmul (nsub x (ofZ 25569)) (ofZ 86400)) (ofZ 1000))))
    | _ =>
      let str := cleanDate (toString h d) in
      if isYYYYMMDD str then
        firstn 4 str ++ js "-" ++ firstn 2 (skipn 4 str) ++ js "-"
          ++ firstn 2 (skipn 6 str)
      else if isIsoDate str then str
      else
        match Date_parse h str with
        | Some parsed => ymd h (timeClip parsed)
        | None => str
        end
    end.

(* --------------------------------------------------------------------- *)
(** *** The column helper of normalizeData                                *)
(* --------------------------------------------------------------------- *)

(** The body of the loop over the candidate names.  The exact search
    passes over holes; the two searches with a callback throw on the first
    hole they reach. *)
Fixpoint getColIdxLoop (headerRow : array jstring) (targetCols : list jstring)
  : result Z :=
  match targetCols with
  | [] => Ok (-1)
  | target :: rest =>
    let cleanTarget := stripSpaces target in
    let idx := indexOf headerRow target in
    if negb (idx =? -1) then Ok idx
    else
      idx <- findIndex (fun hd => jeqb (stripSpaces hd) cleanTarget) headerRow ;;
      if negb (idx =? -1) then Ok idx
      else
        idx <- findIndex (fun hd => includes hd target) headerRow ;;
        if negb (idx =? -1) then Ok idx
        else getColIdxLoop headerRow rest
  end.

Definition getColIdx (headerRow : array jstring) (fieldName : field) : result Z :=
  let targetCols := match fieldName with
                    | FUndef => []
                    | FOne [] => []
                    | FOne n => [n]
                    | FMany l => l
                    end in
  match targetCols with
  | [] => Ok (-1)
  | _ => getColIdxLoop headerRow targetCols
  end.

(* --------------------------------------------------------------------- *)
(** *** normalizeData                                                     *)
(* --------------------------------------------------------------------- *)

(** [crypto.randomUUID()]: the [k]-th identifier drawn during a run. *)
Variable randomUUID : nat -> jstring.

Definition mkEntry (uuid date : jstring) (time_ : value) (amount_ : value)
    (desc item_ detail main mso source filename : jstring) : Entry :=
  {| id := uuid; e_date := date; e_time := time_; e_amount := amount_;
     e_raw_description := desc; item := item_; category_detail := detail;
     category_main := main; category_mso := mso; raw_source := source;
     raw_filename := filename; display_date := VUndef; col_transfer := VUndef;
     col_account := VUndef; col_cash := VUndef; col_card := VUndef;
     col_card_detail := VUndef |}.

(** The amount cell chosen for a row: the primary column when it holds a
    truthy value, else the alternate one, else the number 0. *)
Definition pickAmount (row : Row) (idxAmtMain idxAmtAlt : Z) : value :=
  if negb (idxAmtMain =? -1) && truthy (at_ row idxAmtMain) then at_ row idxAmtMain
  else if negb (idxAmtAlt =? -1) && truthy (at_ row idxAmtAlt) then at_ row idxAmtAlt
  else VNum (ofZ 0).

Section Rows.

Variables (filename : jstring) (def : SourceDefinition).
Variables (idxDate idxTime idxDesc idxAmtMain idxAmtAlt : Z).
(** How the chosen amount cell is turned into the stored amount. *)
Variable cleanAmount : value -> value.

(** The loop over the rows below the header; [k] identifiers have been
    drawn so far. *)
Fixpoint normalizeRows (rows : list Row) (k : nat) : list Entry :=
  match rows with
  | [] => []
  | row :: rest =>
    match row with
    | [] => normalizeRows rest k
    | _ =>
      let valDate := at_ row idxDate in
      if negb (truthy valDate) then normalizeRows rest k
      else
        let valAmount := cleanAmount (pickAmount row idxAmtMain idxAmtAlt) in
        let valDesc :=
          if negb (idxDesc =? -1) && truthy (at_ row idxDesc)
          then trim (toString h (at_ row idxDesc)) else [] in
        let stdDate := formatDate valDate in
        mkEntry (randomUUID k) stdDate
                (if negb (idxTime =? -1) && truthy (at_ row idxTime)
                 then at_ row idxTime else VStr [])
                valAmount valDesc [] [] [] [] (name def) filename
        :: normalizeRows rest (S k)
    end
  end.

End Rows.

(** The frame shared by both revisions of [normalizeData]: the column
    indices are resolved once, in the order of the source, then the rows
    after the header are walked.  A helper that throws ends the call. *)
Definition normalizeWith (cleanAmount : value -> value) (k : nat)
    (filename : jstring) (jsonData : list Row)
    (def : SourceDefinition) (headerRow : array jstring) (headerIndex : nat)
  : result (list Entry) :=
  let map_ := mapping def in
  idxDate <- getColIdx headerRow (date map_) ;;
  idxTime <- getColIdx headerRow (time map_) ;;
  idxDesc <- getColIdx headerRow (raw_description map_) ;;
  idxAmtMain <- getColIdx headerRow (amount map_) ;;
  idxAmtAlt <- getColIdx headerRow (amount_alt map_) ;;
  Ok (normalizeRows filename def idxDate idxTime idxDesc idxAmtMain idxAmtAlt
                    cleanAmount (skipn (headerIndex + 1) jsonData) k).

(** [normalizeData] of processor.js: the amount goes through [extractKRW]. *)
Definition normalizeData :=
  normalizeWith (fun v => VNum (extractKRW v)).

(* --------------------------------------------------------------------- *)
(** *** normalizeSalarySummary                                            *)
(* --------------------------------------------------------------------- *)

(** The column helper of the payroll-summary normalizer (one name only). *)
Definition getColIdxSalary (headerRow : array jstring) (fieldName : option jstring)
  : result Z :=
  match fieldName with
  | None | Some [] => Ok (-1)
  | Some fieldName =>
    let cleanTarget := stripSpaces fieldName in
    let idx := indexOf headerRow fieldName in
    if negb (idx =? -1) then Ok idx
    else
      idx <- findIndex (fun hd => jeqb (stripSpaces hd) cleanTarget) headerRow ;;
      if negb (idx =? -1) then Ok idx
      else
        idx <- findIndex (fun hd => includes hd fieldName) headerRow ;;
        if negb (idx =? -1) then Ok idx
        else Ok (-1)
  end.

(** The callback of [row.some]: a truthy cell whose trimmed, space-free
    text contains the totals marker. *)
Definition cellHasTotal (cell : value) : bool :=
  if negb (truthy cell) then false
  else
    let cellValue := trim (toString h cell) in
    let cleanValue := stripSpaces cellValue in
    includes cleanValue (js "합계") || jeqb cleanValue (js "합계").

(** The search loop: the first non-empty row with a totals cell. *)
Fixpoint findTotalRow (rows : list Row) : option Row :=
  match rows with
  | [] => None
  | row :: rest =>
    match row with
    | [] => findTotalRow rest
    | _ => if some cellHasTotal row then Some row else findTotalRow rest
    end
  end.

(** [x || 0]. *)
Definition orNumZero (v : value) : value := if truthy v then v else VNum (ofZ 0).

(** [now] is the time value of [new Date()]. *)
Definition normalizeSalarySummary (now : Z) (k : nat)
    (filename : jstring) (jsonData : list Row)
    (def : SourceDefinition) (headerRow : array jstring) (headerIndex : nat)
  : result (list Entry) :=
  let map_ := mapping def in
  idxNetPayment <- getColIdxSalary headerRow (net_payment map_) ;;
  idxTotalDeduction <- getColIdxSalary headerRow (total_deduction map_) ;;
  (* resolved like the others, then only logged *)
  idxEmployeeName <- getColIdxSalary headerRow (employee_name map_) ;;
  match findTotalRow (skipn (headerIndex + 1) jsonData) with
  | None => Ok []
  | Some totalRow =>
    let netPaymentValue := extractKRW (orNumZero (at_ totalRow idxNetPayment)) in
    let totalDeductionValue := extractKRW (orNumZero (at_ totalRow idxTotalDeduction)) in
    let stdDate := formatDate (VDate (Some now)) in
    let retirementPension :=
      ndiv (nadd netPaymentValue totalDeductionValue) (ofZ 12) in
    Ok [ mkEntry (randomUUID k) stdDate (VStr []) (VNum netPaymentValue)
                 (js "직원 인건비") (js "직원인건비") [] (js "직원인건비")
                 (js "MSO인정경비") (name def) filename;
         mkEntry (randomUUID (S k)) stdDate (VStr []) (VNum totalDeductionValue)
                 (js "직원소득세") (js "직원소득세") [] (js "직원인건비")
                 (js "MSO인정경비") (name def) filename;
         mkEntry (randomUUID (S (S k))) stdDate (VStr []) (VNum retirementPension)
                 (js "직원 퇴직연금") (js "직원 퇴직연금") [] (js "직원인건비")
                 (js "MSO인정경비") (name def) filename ]
  end.
(* --------------------------------------------------------------------- *)
(** *** classifyData                                                      *)
(* --------------------------------------------------------------------- *)

Definition setItem (e : Entry) (v : jstring) : Entry :=
  {| id := id e; e_date := e_date e; e_time := e_time e; e_amount := e_amount e;
     e_raw_description := e_raw_description e; item := v;
     category_detail := category_detail e; category_main := category_main e;
     category_mso := category_mso e; raw_source := raw_source e;
     raw_filename := raw_filename e; display_date := display_date e;
     col_transfer := col_transfer e; col_account := col_account e;
     col_cash := col_cash e; col_card := col_card e;
     col_card_detail := col_card_detail e |}.

Definition setDetail (e : Entry) (v : jstring) : Entry :=
  {| id := id e; e_date := e_date e; e_time := e_time e; e_amount := e_amount e;
     e_raw_description := e_raw_description e; item := item e;
     category_detail := v; category_main := category_main e;
     category_mso := category_mso e; raw_source := raw_source e;
     raw_filename := raw_filename e; display_date := display_date e;
     col_transfer := col_transfer e; col_account := col_account e;
     col_cash := col_cash e; col_card := col_card e;
     col_card_detail := col_card_detail e |}.

Definition setMain (e : Entry) (v : jstring) : Entry :=
  {| id := id e; e_date := e_date e; e_time := e_time e; e_amount := e_amount e;
     e_raw_description := e_raw_description e; item := item e;
     category_detail := category_detail e; category_main := v;
     category_mso := category_mso e; raw_source := raw_source e;
     raw_filename := raw_filename e; display_date := display_date e;
     col_transfer := col_transfer e; col_account := col_account e;
     col_cash := col_cash e; col_card := col_card e;
     col_card_detail := col_card_detail e |}.

Definition setMso (e : Entry) (v : jstring) : Entry :=
  {| id := id e; e_date := e_date e; e_time := e_time e; e_amount := e_amount e;
     e_raw_description := e_raw_description e; item := item e;
     category_detail := category_detail e; category_main := category_main e;
     category_mso := v; raw_source := raw_source e;
     raw_filename := raw_filename e; display_date := display_date e;
     col_transfer := col_transfer e; col_account := col_account e;
     col_cash := col_cash e; col_card := col_card e;
     col_card_detail := col_card_detail e |}.

Definition when {A} (o : option A) (f : Entry -> A -> Entry) (e : Entry) : Entry :=
  match o with
  | Some v => f e v
  | None => e
  end.

(** The assignments guarded by [rule.updates.<key> !== undefined], in order. *)
Definition applyUpdates (u : Updates) (e : Entry) : Entry :=
  let e := when (u_item u) setItem e in
  let e := match u_description_out u, item e with
           | Some v, [] => setItem e v
           | _, _ => e
           end in
  let e := when (u_category_detail u) setDetail e in
  let e := when (u_category_main u) setMain e in
  when (u_category_mso u) setMso e.

(** [keywords.some(k => desc.includes(k.toLowerCase()))]. *)
Definition ruleMatches (rule : Rule) (e : Entry) : bool :=
  let desc := toLowerCase h (e_raw_description e) in
  existsb (fun k => includes desc (toLowerCase h k)) (keywords rule).

(** The loop over the rules for one entry, left by [break] on a match. *)
Fixpoint applyRules (rules : list Rule) (e : Entry) : Entry :=
  match rules with
  | [] => e
  | rule :: rest =>
    if ruleMatches rule e then
      match updates rule with
      | Some u => applyUpdates u e
      | None => e
      end
    else applyRules rest e
  end.

(** The body of the second loop: the derived columns. *)
Definition deriveColumns (e : Entry) : Entry :=
  let isCard := includes (raw_source e) (js "카드") in
  let isAccount := includes (raw_source e) (js "계좌") in
  let mk transfer account cash card detail :=
    {| id := id e; e_date := e_date e; e_time := e_time e; e_amount := e_amount e;
       e_raw_description := e_raw_description e; item := item e;
       category_detail := category_detail e; category_main := category_main e;
       category_mso := category_mso e; raw_source := raw_source e;
       raw_filename := raw_filename e; display_date := VStr (e_date e);
       col_transfer := transfer; col_account := account; col_cash := cash;
       col_card := card; col_card_detail := detail |} in
  if isCard then
    mk (VStr []) (VStr []) (VStr []) (e_amount e) (VStr (raw_source e))
  else if isAccount then
    mk (e_amount e) (VStr (raw_source e)) (VStr []) (VStr []) (VStr [])
  else
    mk (VStr []) (VStr []) (e_amount e) (VStr []) (VStr []).

(** [rules] is [window.CLASSIFICATION_RULES], [None] when it is not set. *)
Definition classifyData (rules : option (list Rule)) (data : list Entry) : list Entry :=
  let data := match rules with
              | Some rs => map (applyRules rs) data
              | None => data
              end in
  map deriveColumns data.

(* --------------------------------------------------------------------- *)
(** *** processFile, from the parsed workbook on                          *)
(* --------------------------------------------------------------------- *)

(** How the promise settles: resolved with the single failure entry
    [{error, filename, msg}] or with the classified records, or rejected
    with the exception caught around the pipeline. *)
Inductive Outcome :=
| Failed (filename msg : jstring)
| Processed (records : list Entry)
| Rejected.

Definition processFile (definitions : list SourceDefinition)
    (rules : option (list Rule)) (now : Z) (filename : jstring) (wb : Workbook)
  : Outcome :=
  match Router.identifySource h definitions filename wb with
  | Unidentified debugHeader =>
    Failed filename (js "식별 실패. 헤더: [" ++ debugHeader ++ js "]")
  | Identified def headerRow headerIndex sheetName jsonData =>
    let normalizedData :=
      if jeqb (type def) (js "salary_summary")
      then normalizeSalarySummary now 0 filename jsonData def headerRow headerIndex
      else normalizeData 0 filename jsonData def headerRow headerIndex in
    match normalizedData with
    | Ok data => Processed (classifyData rules data)
    | TypeError => Rejected
    end
  end.

End Processor.

End Processor.

(** The earlier revision of processor.js: its [normalizeData] cleans a string
    amount in place and leaves every other value as it is.  The column
    helper, the row loop and [formatDate] are the same text in both
    revisions. *)
Module ProcessorV1.

Definition cleanAmount (valAmount : value) : value :=
  match valAmount with
  | VStr s => VNum (orZero (parseFloat (filter Processor.isNumeric s)))
  | _ => valAmount
  end.

Definition normalizeData (h : Host) (randomUUID : nat -> jstring) :=
  Processor.normalizeWith h randomUUID cleanAmount.

End ProcessorV1.

(* ===================================================================== *)
(** ** The HTML repair filter of processor.js                             *)
(* ===================================================================== *)

Module Html.

(* --------------------------------------------------------------------- *)
(** *** TextDecoder('utf-8') and TextEncoder                              *)
(* --------------------------------------------------------------------- *)

(** The state of the UTF-8 decoder between two bytes: the code point under
    construction, the number of continuation bytes still due, and the
    range the next one must lie in. *)
Record Decoder := { point : N; due : nat; lower : N; upper : N }.

Definition idle : Decoder := {| point := 0; due := 0; lower := 128; upper := 191 |}.

Local Open Scope N_scope.

(** A byte met with no sequence under way: an ASCII code point, the lead
    byte of a sequence, or an error, which yields U+FFFD. *)
Definition lead (b : N) : list N * Decoder :=
  if b <=? 127 then ([b], idle)
  else if (194 <=? b) && (b <=? 223) then
    ([], {| point := N.land b 31; due := 1; lower := 128; upper := 191 |})
  else if (224 <=? b) && (b <=? 239) then
    ([], {| point := N.land b 15; due := 2;
            lower := if b =? 224 then 160 else 128;
            upper := if b =? 237 then 159 else 191 |})
  else if (240 <=? b) && (b <=? 244) then
    ([], {| point := N.land b 7; due := 3;
            lower := if b =? 240 then 144 else 128;
            upper := if b =? 244 then 143 else 191 |})
  else ([65533], idle).

(** One step of the decoder.  A byte outside the expected range ends the
    sequence with U+FFFD and is then read again as a first byte. *)
Definition feed (st : Decoder) (b : N) : list N * Decoder :=
  match due st with
  | O => lead b
  | S n =>
    if (lower st <=? b) && (b <=? upper st) then
      let c := N.lor (N.shiftl (point st) 6) (N.land b 63) in
      match n with
      | O => ([c], idle)
      | _ => ([], {| point := c; due := n; lower := 128; upper := 191 |})
      end
    else let '(out, st') := lead b in (65533 :: out, st')
  end.

(** The code points decoded from a byte sequence; a sequence cut short by
    the end of the input yields U+FFFD. *)
Fixpoint decodeFrom (st : Decoder) (bs : list byte) : list N :=
  match bs with
  | [] => match due st with O => [] | _ => [65533] end
  | b :: r => let '(out, st') := feed st (Byte.to_N b) in out ++ decodeFrom st' r
  end.

(** [new TextDecoder('utf-8').decode(bytes)]: a leading byte order mark is
    dropped, and the code points become UTF-16 code units. *)
Definition utf8Decode (bs : list byte) : jstring :=
  let points := decodeFrom idle bs in
  flat_map units match points with
                 | 65279 :: r => r
                 | _ => points
                 end.

(** The scalar values of a string: a surrogate pair is one code point, a
    lone surrogate is replaced by U+FFFD. *)
Fixpoint scalars (s : jstring) : list N :=
  match s with
  | [] => []
  | c :: r =>
    if (55296 <=? c) && (c <=? 56319) then
      match r with
      | d :: r' =>
        if (56320 <=? d) && (d <=? 57343)
        then (65536 + (c - 55296) * 1024 + (d - 56320)) :: scalars r'
        else 65533 :: scalars r
      | [] => [65533]
      end
    else if (56320 <=? c) && (c <=? 57343) then 65533 :: scalars r
    else c :: scalars r
  end.

(** The UTF-8 bytes of a scalar value. *)
Definition utf8Bytes (c : N) : list N :=
  if c <? 128 then [c]
  else if c <? 2048 then [192 + c / 64; 128 + c mod 64]
  else if c <? 65536 then [224 + c / 4096; 128 + (c / 64) mod 64; 128 + c mod 64]
  else [240 + c / 262144; 128 + (c / 4096) mod 64; 128 + (c / 64) mod 64;
        128 + c mod 64].

Definition toByte (n : N) : byte :=
  match Byte.of_N n with
  | Some b => b
  | None => x00
  end.

(** [new TextEncoder().encode(text)]. *)
Definition utf8Encode (s : jstring) : list byte :=
  map toByte (flat_map utf8Bytes (scalars s)).

Local Close Scope N_scope.

(* --------------------------------------------------------------------- *)
(** *** The rewriting passes                                              *)
(* --------------------------------------------------------------------- *)
(** Canonicalisation of a code unit under the [i] flag, as far as the
    ASCII patterns used here can tell. *)
Definition canon (c : N) : N :=
  if ((97 <=? c) && (c <=? 122))%N then (c - 32)%N else c.

Fixpoint startsWithCI (s pat : jstring) : bool :=
  match pat, s with
  | [], _ => true
  | _ :: _, [] => false
  | p :: pat', c :: s' => (canon c =? canon p)%N && startsWithCI s' pat'
  end.

(** Offset of the first code unit satisfying [p]. *)
Fixpoint indexWhere (p : N -> bool) (s : jstring) : option nat :=
  match s with
  | [] => None
  | c :: r => if p c then Some O else option_map S (indexWhere p r)
  end.

Definition isGt (c : N) : bool := (c =? 62)%N.
Definition isLt (c : N) : bool := (c =? 60)%N.

(** Whether [/(<td[^>]*>)([^<]*?)(STOP)/i] matches at the head of [s], and
    if so the offset at which its third group starts.  Group 1 runs to the
    first [>] (a shorter [[^>]*] would leave a non-[>] in front of the
    literal [>]); the lazy group 2 can only stop in front of a [<], and it
    cannot run over one, so it stops at the first [<], where STOP must
    match. *)
Definition matchAt (stop s : jstring) : option nat :=
  if startsWithCI s (js "<td") then
    match indexWhere isGt (skipn 3 s) with
    | None => None
    | Some a =>
      let g := (3 + a + 1)%nat in
      match indexWhere isLt (skipn g s) with
      | None => None
      | Some b =>
        if startsWithCI (skipn (g + b) s) stop then Some (g + b)%nat else None
      end
    end
  else None.

Definition inspect {A} (a : A) : {b : A | a = b} := exist _ a eq_refl.

Lemma matchAt_pos stop s n : matchAt stop s = Some n -> (4 <= n)%nat.
Proof.
  unfold matchAt. destruct (startsWithCI s (js "<td")); [|discriminate].
  destruct (indexWhere isGt (skipn 3 s)) as [a|]; [|discriminate].
  destruct (indexWhere isLt (skipn (3 + a + 1) s)) as [b|]; [|discriminate].
  destruct (startsWithCI _ stop); [|discriminate].
  intros H. injection H as <-. lia.
Qed.

(** [s.replace(/(<td[^>]*>)([^<]*?)(STOP)/gi, '$1$2</td>$3')]: the scan
    resumes after each match. *)
Equations? replaceAll (stop : jstring) (s : jstring) : jstring
  by wf (List.length s) lt :=
  replaceAll stop [] := [];
  replaceAll stop (c :: r) with inspect (matchAt stop (c :: r)) => {
    | exist _ (Some n) _ :=
        firstn n (c :: r) ++ js "</td>"
          ++ firstn (List.length stop) (skipn n (c :: r))
          ++ replaceAll stop (skipn (n + List.length stop) (c :: r));
    | exist _ None _ := c :: replaceAll stop r }.
Proof.
  apply matchAt_pos in e.
  destruct n as [|n]; [lia|]. cbn [Nat.add skipn].
  rewrite length_skipn. lia.
Qed.

Definition tdPass : jstring -> jstring := replaceAll (js "<td").
Definition trPass : jstring -> jstring := replaceAll (js "</tr>").

(** The loop [while (fullText.length !== prevLength)]; [None] when the
    fuel runs out before the loop is left. *)
Fixpoint tdLoop (fuel : nat) (prevLength : nat) (fullText : jstring) : option jstring :=
  match fuel with
  | O => None
  | S f =>
    if (List.length fullText =? prevLength)%nat then Some fullText
    else tdLoop f (List.length fullText) (tdPass fullText)
  end.

(** [data] is the content of the file; the result is [None] when the fuel
    runs out inside the loop. *)
Definition preprocessHtmlIfNeeded (fuel : nat) (data : list byte) (filename : jstring)
  : option (list byte) :=
  let text := utf8Decode (firstn 500 data) in
  if negb (includes text (js "<html")) && negb (includes text (js "<table"))
  then Some data
  else
    let fullText := utf8Decode data in
    match tdLoop fuel 0 fullText with
    | None => None
    | Some fixed => Some (utf8Encode (trPass fixed))
    end.

End Html.

Import Html.

(* ===================================================================== *)
(** ** exportToExcel                                                      *)
(* ===================================================================== *)

Module Exporter.

(** What is handed to the workbook writer: the file name, the sheet name,
    the array of arrays given to [aoa_to_sheet], and the column widths. *)
Record Written := {
  file : jstring;
  sheet : jstring;
  wsData : list (list value);
  cols : list Z
}.

Definition headerCells : list value :=
  [ VStr (js "발생일시"); VStr (js "항목"); VStr (js "지출처"); VStr (js "총액");
    VStr (js "계좌이체"); VStr (js "지출계좌"); VStr (js "현금(인출)");
    VStr (js "신용카드"); VStr (js "신용카드상세"); VStr (js "중분류");
    VStr (js "대분류") ].

(** The array pushed for one record. *)
Definition rowCells (row : Entry) : list value :=
  [ display_date row; VStr (item row); VStr (e_raw_description row);
    e_amount row; col_transfer row; col_account row; col_cash row;
    col_card row; col_card_detail row; VStr (category_main row);
    VStr (category_mso row) ].

(** [filename] is [None] when the caller leaves the default in force;
    the result is [None] when the function returns without writing. *)
Definition exportToExcel (data : list Entry) (filename : option jstring)
  : option Written :=
  match data with
  | [] => None
  | _ =>
    Some {| file := match filename with
                    | Some f => f
                    | None => js "지출내역_완료.xlsx"
                    end;
            sheet := js "지출내역_통합";
            wsData := headerCells :: map rowCells data;
            cols := [18; 15; 25; 12; 12; 15; 12; 12; 15; 15; 15] |}
  end.

End Exporter.

(* ===================================================================== *)
(** * Properties                                                          *)
(* ===================================================================== *)

(* --------------------------------------------------------------------- *)
(** ** Numbers                                                            *)
(* --------------------------------------------------------------------- *)

(** A number that carries the sign [s]: everything but NaN. *)
Definition signedBy (s : bool) (x : number) : Prop :=
  match x with
  | S754_zero s' | S754_infinity s' | S754_finite s' _ _ => s' = s
  | S754_nan => False
  end.

Lemma iter_pos_invariant {A} (f : A -> A) (P : A -> Prop) :
  (forall x, P x -> P (f x)) -> forall n x, P x -> P (iter_pos f n x).
Proof.
  intros Hf. induction n as [n IH|n IH|]; intros x Hx; cbn [iter_pos]; auto.
Qed.

Lemma shr_1_nonneg mrs : 0 <= shr_m mrs -> 0 <= shr_m (shr_1 mrs).
Proof.
  destruct mrs as [m r s]. cbn [shr_m]. intros H.
  destruct m as [|p|p]; [cbn; lia | | lia].
  destruct p; cbn; lia.
Qed.

Lemma shr_nonneg mrs e n : 0 <= shr_m mrs -> 0 <= shr_m (fst (shr mrs e n)).
Proof.
  intros H. unfold shr. destruct n as [|p|p]; cbn [fst]; try exact H.
  apply (iter_pos_invariant shr_1 (fun x => 0 <= shr_m x)); [apply shr_1_nonneg | exact H].
Qed.

Lemma shr_fexp_nonneg m e l : 0 <= m -> 0 <= shr_m (fst (shr_fexp prec emax m e l)).
Proof.
  intros H. unfold shr_fexp. apply shr_nonneg.
  destruct l as [|[| |]]; exact H.
Qed.

Lemma round_nearest_even_nonneg m l : 0 <= m -> 0 <= round_nearest_even m l.
Proof.
  intros H. unfold round_nearest_even.
  destruct l as [|[| |]]; try exact H; [destruct (Z.even m)|]; lia.
Qed.

(** Rounding a non-negative significand never yields NaN, and keeps the
    sign it is given. *)
Lemma binary_round_aux_signed s mx ex lx :
  0 <= mx -> signedBy s (binary_round_aux prec emax s mx ex lx).
Proof.
  intros H. unfold binary_round_aux.
  pose proof (shr_fexp_nonneg mx ex lx H) as H1.
  destruct (shr_fexp prec emax mx ex lx) as [mrs' e']. cbn [fst] in H1.
  pose proof (shr_fexp_nonneg _ e' loc_Exact
                (round_nearest_even_nonneg _ (loc_of_shr_record mrs') H1)) as H2.
  destruct (shr_fexp prec emax _ e' loc_Exact) as [mrs'' e'']. cbn [fst] in H2.
  destruct (shr_m mrs'') as [|p|p]; [reflexivity | | lia].
  destruct (e'' <=? emax - prec); reflexivity.
Qed.

Lemma ofQ_signed n d : signedBy false (ofQ n d).
Proof.
  unfold ofQ. destruct n as [|p]; [reflexivity|].
  unfold SFdiv_core_binary.
  match goal with
  | |- context [Z.div_eucl ?a ?b] =>
    pose proof (Z_div_mod a b eq_refl) as D; destruct (Z.div_eucl a b) as [q r];
    assert (Ha : 0 <= a)
  end.
  { destruct (0 - 0 - _) as [|s|s]; [lia | apply Z.shiftl_nonneg; lia | lia]. }
  apply binary_round_aux_signed.
  destruct D as [D1 D2]. nia.
Qed.

Lemma ofQ_not_nan n d : ofQ n d <> S754_nan.
Proof.
  pose proof (ofQ_signed n d) as H. intros E. rewrite E in H. exact H.
Qed.

(** [x || 0] leaves a rounded non-negative rational as it is. *)
Lemma orZero_ofQ n d : orZero (ofQ n d) = ofQ n d.
Proof.
  pose proof (ofQ_signed n d) as H. unfold orZero.
  destruct (ofQ n d) as [s|s| |s m e]; cbn in H |- *; subst; try reflexivity.
  destruct H.
Qed.

Lemma orZero_not_nan x : orZero x <> S754_nan.
Proof.
  unfold orZero. destruct x as [s|s| |s m e]; cbn; discriminate.
Qed.

Lemma binary_normalize_not_nan m e :
  binary_normalize prec emax m e false <> S754_nan.
Proof.
  unfold binary_normalize, binary_round.
  destruct m as [|p|p]; [discriminate | |];
    destruct (shl_align _ _ _) as [mz ez];
    match goal with
    | |- binary_round_aux _ _ ?s ?m ?e ?l <> _ =>
      pose proof (binary_round_aux_signed s m e l ltac:(lia)) as H;
      intros E; rewrite E in H; exact H
    end.
Qed.

(** A sum is NaN only for a NaN operand or for infinities of opposite
    sign. *)
Lemma nadd_nan x y :
  nadd x y = S754_nan <->
  x = S754_nan \/ y = S754_nan
  \/ exists s, x = S754_infinity s /\ y = S754_infinity (negb s).
Proof.
  unfold nadd, SFadd.
  destruct x as [sx|sx| |sx mx ex]; destruct y as [sy|sy| |sy my ey];
    try (split; [discriminate | intros [E|[E|(s & E1 & E2)]]; discriminate]);
    try (split; [intros _; auto | reflexivity]).
  - destruct sx, sy; split; try discriminate;
      intros [E|[E|(s & E1 & E2)]]; discriminate.
  - destruct sx, sy; split; try discriminate; try reflexivity;
      try (intros _; right; right; eexists; split; reflexivity);
      intros [E|[E|(s & E1 & E2)]]; try discriminate;
      injection E1 as <-; discriminate.
  - split; [intros E; exfalso; eapply binary_normalize_not_nan; exact E|].
    intros [E|[E|(s & E1 & E2)]]; discriminate.
Qed.

(** Dividing by a finite number other than zero gives NaN only for NaN. *)
Lemma ndiv_finite_nan x s m e :
  ndiv x (S754_finite s m e) = S754_nan <-> x = S754_nan.
Proof.
  unfold ndiv, SFdiv.
  destruct x as [sx|sx| |sx mx ex]; split; try discriminate; try reflexivity.
  unfold SFdiv_core_binary.
  match goal with
  | |- context [Z.div_eucl ?a ?b] =>
    pose proof (Z_div_mod a b eq_refl) as D; destruct (Z.div_eucl a b) as [q r];
    assert (Ha : 0 <= a)
  end.
  { destruct (ex - e - _) as [|k|k]; [lia | apply Z.shiftl_nonneg; lia | lia]. }
  intros E.
  pose proof (binary_round_aux_signed (xorb sx s) q
                (Z.min (fexp prec emax (Zdigits2 (Z.pos mx) + ex - (Zdigits2 (Z.pos m) + e)))
                       (ex - e))
                (new_location (Z.pos m) r)) as H.
  rewrite E in H. exfalso. apply H. destruct D as [D1 D2]. nia.
Qed.

(* --------------------------------------------------------------------- *)
(** ** The currency extractor                                             *)
(* --------------------------------------------------------------------- *)

(** Whether a text starts, after white space and an optional sign, with a
    digit, or with a point and a digit: the texts in which a decimal number
    can be read. *)
Definition startsNumber (s : jstring) : bool :=
  let unsigned t :=
    match t with
    | c :: r => isDigit c
                || (c =? 46)%N && match r with
                                  | d :: _ => isDigit d
                                  | [] => false
                                  end
    | [] => false
    end in
  match dropWhile isSpace s with
  | c :: t => if ((c =? 45) || (c =? 43))%N then unsigned t else unsigned (c :: t)
  | [] => false
  end.

Lemma parseUnsigned_none t :
  match t with
  | c :: r => isDigit c
              || (c =? 46)%N && match r with
                                | d :: _ => isDigit d
                                | [] => false
                                end
  | [] => false
  end = false ->
  parseUnsigned t = None.
Proof.
  destruct t as [|c r]; [reflexivity|]. intros H.
  apply orb_false_iff in H as [Hc Hp].
  unfold parseUnsigned. cbn [takeWhile dropWhile]. rewrite Hc.
  destruct (c =? 46)%N; [|reflexivity].
  destruct r as [|d r']; [reflexivity|]. cbn in Hp. cbn [takeWhile]. rewrite Hp.
  reflexivity.
Qed.

(** Where no number starts, [parseFloat] answers NaN. *)
Lemma parseFloat_unparseable s : startsNumber s = false -> parseFloat s = S754_nan.
Proof.
  unfold startsNumber, parseFloat, splitSign.
  destruct (dropWhile isSpace s) as [|c t]; [reflexivity|].
  destruct (c =? 45)%N eqn:E1; cbn [orb].
  - intros H. rewrite (parseUnsigned_none t H). reflexivity.
  - destruct (c =? 43)%N eqn:E2; intros H.
    + rewrite (parseUnsigned_none t H). reflexivity.
    + rewrite (parseUnsigned_none (c :: t) H). reflexivity.
Qed.

(** The text handed to [parseFloat] for a value that is not a number: the
    capture after the won sign without its commas, or else what is left
    of the text before the first line-break tag when everything but digits,
    points and minus signs is removed. *)
Definition scanned (h : Host) (v : value) : jstring :=
  match Processor.wonMatch (toString h v) with
  | Some cap => filter (fun c => negb (c =? 44)%N) cap
  | None => filter Processor.isNumeric (Processor.beforeBr (toString h v))
  end.

Lemma extractKRW_text h v :
  (forall n, v <> VNum n) ->
  Processor.extractKRW h v
  = if truthy v then orZero (parseFloat (scanned h v)) else ofZ 0.
Proof.
  intros Hv. unfold Processor.extractKRW, scanned.
  destruct v as [| |b|n|s|t]; try (exfalso; eapply Hv; reflexivity);
    destruct (truthy _); cbn [negb]; try reflexivity;
    destruct (Processor.wonMatch _); reflexivity.
Qed.

(** C6: [extractKRW] is idempotent and takes the documented sample values;
    a value that is not a number never comes out as NaN, and comes out as
    zero whenever it is falsy or no decimal number starts in the text that
    is scanned: no digit at all, digits only behind a line-break tag, or
    digits behind a second sign. *)
Theorem extractKRW_idempotent (h : Host) :
  (forall x, Processor.extractKRW h (VNum (Processor.extractKRW h x))
             = Processor.extractKRW h x)
  /\ Processor.extractKRW h (VStr (js "₩36,411<br/>[USD]25.72"))
     = S754_finite false 5004289734868992 (-37)
  /\ Processor.extractKRW h (VStr (js "￦36,411<br/>[USD]25.72"))
     = S754_finite false 5004289734868992 (-37)
  /\ ofZ 36411 = S754_finite false 5004289734868992 (-37)
  /\ Processor.extractKRW h (VNum (ofZ 1500)) = ofZ 1500
  /\ Processor.extractKRW h (VStr []) = S754_zero false
  /\ (forall v, (forall n, v <> VNum n) -> Processor.extractKRW h v <> S754_nan)
  /\ (forall v, (forall n, v <> VNum n) ->
        truthy v = false \/ startsNumber (scanned h v) = false ->
        Processor.extractKRW h v = S754_zero false)
  /\ Processor.extractKRW h (VStr (js "abc<br>12")) = S754_zero false
  /\ Processor.extractKRW h (VStr (js "--5")) = S754_zero false
  /\ Processor.extractKRW h (VStr (js "N/A<br/>[USD]25.72")) = S754_zero false
  /\ Processor.extractKRW h (VStr (js "-0")) = S754_zero false.
Proof.
  split; [reflexivity|]. split; [reflexivity|]. split; [reflexivity|].
  split; [reflexivity|]. split; [reflexivity|]. split; [reflexivity|].
  split; [|split; [|repeat split; reflexivity]].
  - intros v Hv. rewrite (extractKRW_text h v Hv).
    destruct (truthy v); [apply orZero_not_nan | discriminate].
  - intros v Hv [Hf|Hs]; rewrite (extractKRW_text h v Hv).
    + rewrite Hf. reflexivity.
    + rewrite (parseFloat_unparseable _ Hs). destruct (truthy v); reflexivity.
Qed.

Lemma extractKRW_idempotent_witness :
  Processor.extractKRW sampleHost (VStr (js "원 <br>1,200")) = S754_zero false
  /\ Processor.extractKRW sampleHost (VBool false) = S754_zero false.
Proof.
  pose proof (extractKRW_idempotent sampleHost)
    as (_ & _ & _ & _ & _ & _ & _ & Hz & _).
  split; apply Hz.
  - intros n. discriminate.
  - right. reflexivity.
  - intros n. discriminate.
  - left. reflexivity.
Defined.

(* --------------------------------------------------------------------- *)
(** ** The calendar                                                       *)
(* --------------------------------------------------------------------- *)

(** The day number of the first day of a year, the leap-year rule and the
    month table, as the language standard defines the calendar fields of a
    time value. *)
Definition dayFromYear (y : Z) : Z :=
  365 * (y - 1970) + (y - 1969) / 4 - (y - 1901) / 100 + (y - 1601) / 400.

Definition leap (y : Z) : bool :=
  (y mod 4 =? 0) && (negb (y mod 100 =? 0) || (y mod 400 =? 0)).

(** The days of a year that lie before month [m] (1..12). *)
Definition daysBefore (l : bool) (m : Z) : Z :=
  let L := if l then 1 else 0 in
  if m <=? 1 then 0 else if m <=? 2 then 31 else
  if m <=? 3 then 59 + L else if m <=? 4 then 90 + L else
  if m <=? 5 then 120 + L else if m <=? 6 then 151 + L else
  if m <=? 7 then 181 + L else if m <=? 8 then 212 + L else
  if m <=? 9 then 243 + L else if m <=? 10 then 273 + L else
  if m <=? 11 then 304 + L else 334 + L.

Definition monthLength (l : bool) (m : Z) : Z :=
  if m =? 2 then (if l then 29 else 28)
  else if (m =? 4) || (m =? 6) || (m =? 9) || (m =? 11) then 30 else 31.

(** The day number, counted from 1970-01-01, of a calendar date. *)
Definition dayNumber (y m d : Z) : Z :=
  dayFromYear y + daysBefore (leap y) m + d - 1.

Lemma leap_spec y :
  (leap y = true /\ y mod 4 = 0 /\ (y mod 100 <> 0 \/ y mod 400 = 0))
  \/ (leap y = false /\ (y mod 4 <> 0 \/ (y mod 100 = 0 /\ y mod 400 <> 0))).
Proof.
  unfold leap.
  destruct (Z.eqb_spec (y mod 4) 0); destruct (Z.eqb_spec (y mod 100) 0);
    destruct (Z.eqb_spec (y mod 400) 0); cbn; intuition lia.
Qed.

(** The months of a year that starts in March. *)
Lemma months_from_march l mp :
  0 <= mp <= 9 ->
  daysBefore l (mp + 3) = 59 + (if l then 1 else 0) + (153 * mp + 2) / 5
  /\ monthLength l (mp + 3) = (153 * (mp + 1) + 2) / 5 - (153 * mp + 2) / 5.
Proof.
  intros H.
  assert (E : mp = 0 \/ mp = 1 \/ mp = 2 \/ mp = 3 \/ mp = 4 \/ mp = 5 \/ mp = 6
              \/ mp = 7 \/ mp = 8 \/ mp = 9) by lia.
  repeat (destruct E as [->|E]; [destruct l; split; reflexivity|]).
  subst mp. destruct l; split; reflexivity.
Qed.

(** [civil] computes the calendar date of a day number: a month from 1 to
    12, a day that exists in that month of that year, and the date whose
    day number is the one given. *)
Lemma civil_correct z :
  let '(y, m, d) := civil z in
  1 <= m <= 12 /\ 1 <= d <= monthLength (leap y) m /\ dayNumber y m d = z.
Proof.
  unfold civil. cbv zeta.
  set (zz := z + 719468).
  set (era := zz / 146097).
  set (doe := zz - era * 146097).
  assert (Hdoe : 0 <= doe <= 146096) by (subst doe era; Z.div_mod_to_equations; lia).
  assert (Hz : z = era * 146097 + doe - 719468) by (subst doe zz; lia).
  clearbody doe era. clear zz. subst z.
  set (yoe := (doe - doe / 1460 + doe / 36524 - doe / 146096) / 365).
  set (doy := doe - (365 * yoe + yoe / 4 - yoe / 100)).
  assert (Hyoe : 0 <= yoe <= 399) by (subst yoe; Z.div_mod_to_equations; lia).
  assert (Hdoy : 0 <= doy <= 365) by (subst doy yoe; Z.div_mod_to_equations; lia).
  assert (Hleap : doy = 365 ->
            (yoe + 1) mod 4 = 0 /\ ((yoe + 1) mod 100 <> 0 \/ (yoe + 1) mod 400 = 0)).
  { subst doy yoe. intros H. Z.div_mod_to_equations. lia. }
  assert (Hdoe2 : doe = 365 * yoe + yoe / 4 - yoe / 100 + doy) by (subst doy; lia).
  clearbody doy yoe. subst doe. clear Hdoe.
  set (mp := (5 * doy + 2) / 153).
  assert (Hmp : 0 <= mp <= 11) by (subst mp; Z.div_mod_to_equations; lia).
  assert (Hmpdoy : 153 * mp <= 5 * doy + 2 < 153 * mp + 153)
    by (subst mp; Z.div_mod_to_equations; lia).
  clearbody mp.
  destruct (Z.ltb_spec mp 10) as [Hlt|Hge].
  - (* March to December *)
    destruct (Z.leb_spec (mp + 3) 2) as [C|_]; [lia|].
    replace (yoe + era * 400 + 0) with (yoe + era * 400) by lia.
    destruct (months_from_march (leap (yoe + era * 400)) mp ltac:(lia)) as [B M].
    unfold dayNumber. rewrite B, M.
    split; [lia|]. split.
    + Z.div_mod_to_equations; lia.
    + destruct (leap_spec (yoe + era * 400)) as [[-> [L1 L2]]|[-> L1]];
        unfold dayFromYear; Z.div_mod_to_equations; lia.
  - (* January and February, of the following year *)
    destruct (Z.leb_spec (mp - 9) 2) as [_|C]; [|lia].
    assert (E : mp = 10 \/ mp = 11) by lia.
    unfold dayNumber.
    destruct E as [-> | ->].
    + change (10 - 9) with 1. change (monthLength _ 1) with 31.
      change (daysBefore _ 1) with 0.
      split; [lia|]. split; [Z.div_mod_to_equations; lia|].
      unfold dayFromYear. Z.div_mod_to_equations; lia.
    + change (11 - 9) with 2.
      change (daysBefore (leap (yoe + era * 400 + 1)) 2) with 31.
      split; [lia|].
      destruct (leap_spec (yoe + era * 400 + 1)) as [[-> [L1 L2]]|[-> L1]];
        change (monthLength true 2) with 29; change (monthLength false 2) with 28;
        (split; [|unfold dayFromYear; Z.div_mod_to_equations; lia]).
      * Z.div_mod_to_equations; lia.
      * assert (doy <> 365).
        { intros E. destruct (Hleap E) as [H1 H2]. Z.div_mod_to_equations. lia. }
        Z.div_mod_to_equations; lia.
Qed.

(* --------------------------------------------------------------------- *)
(** ** The date normalizer                                                *)
(* --------------------------------------------------------------------- *)

(** The time value the serial branch builds for serial 45672. *)
Lemma serial_45672 :
  mathRound (nmul (nmul (nsub (ofZ 45672) (ofZ 25569)) (ofZ 86400)) (ofZ 1000))
  = Some ((45672 - 25569) * msPerDay).
Proof. vm_compute. reflexivity. Qed.

(** A host five hours west of UTC, otherwise like the sample host. *)
Definition westHost : Host :=
  {| numToString := numToString sampleHost;
     dateToString := dateToString sampleHost;
     toLowerCase := toLowerCase sampleHost;
     Date_parse := Date_parse sampleHost;
     localTZA := fun _ => -18000000 |}.

(** C7 at serial 45672 on a host west of UTC: counted from serial day 0 =
    1899-12-30, the serial is 2025-01-15, which a host east of UTC prints;
    west of UTC the same call prints the day before, since the time value
    is built as midnight UTC and read back through the local calendar
    fields. *)
Theorem serial_west_of_utc :
  dayNumber 1899 12 30 = 0 - 25569
  /\ dayNumber 2025 1 15 = 45672 - 25569
  /\ Processor.formatDate sampleHost (VNum (ofZ 45672)) = js "2025-01-15"
  /\ Processor.formatDate westHost (VNum (ofZ 45672)) = js "2025-01-14".
Proof. repeat split; vm_compute; reflexivity. Qed.

(** The documented text samples; serial 45672 on every host whose local
    time at that instant is at or ahead of UTC by less than a day; and the
    fallback: a text that is neither of the two digit patterns and that
    [Date.parse] rejects comes back as cleaned. *)
Theorem formatDate_texts (h : Host) :
  Processor.formatDate h (VStr (js "20250115")) = js "2025-01-15"
  /\ Processor.formatDate h (VStr (js "2025-01-15")) = js "2025-01-15"
  /\ Processor.formatDate h (VStr (js "2025.01.15 13:20")) = js "2025-01-15"
  /\ (0 <= localTZA h ((45672 - 25569) * msPerDay) < msPerDay ->
        Processor.formatDate h (VNum (ofZ 45672)) = js "2025-01-15")
  /\ (forall s, let str := Processor.cleanDate s in
        Processor.isYYYYMMDD str = false ->
        Processor.isIsoDate str = false ->
        Date_parse h str = None ->
        Processor.formatDate h (VStr s) = str).
Proof.
  split; [reflexivity|]. split; [reflexivity|]. split; [reflexivity|]. split.
  - intros Htz. unfold Processor.formatDate.
    change (truthy (VNum (ofZ 45672))) with true. cbn [negb].
    rewrite serial_45672.
    change (dateOfNumber (Some ((45672 - 25569) * msPerDay))) with (Some 1736899200000).
    change ((45672 - 25569) * msPerDay) with 1736899200000 in Htz.
    unfold ymd, msPerDay in *.
    assert (E : (1736899200000 + localTZA h 1736899200000) / 86400000 = 20103).
    { symmetry. apply Z.div_unique with (r := localTZA h 1736899200000); lia. }
    rewrite E. reflexivity.
  - intros s str H8 Hiso Hp. unfold Processor.formatDate.
    destruct s as [|c r]; [reflexivity|].
    cbn [truthy negb toString]. fold str. rewrite H8, Hiso, Hp. reflexivity.
Qed.

Lemma formatDate_texts_witness :
  Processor.formatDate sampleHost (VNum (ofZ 45672)) = js "2025-01-15"
  /\ Processor.formatDate sampleHost (VStr (js " next week ")) = js "next".
Proof.
  pose proof (formatDate_texts sampleHost) as (_ & _ & _ & Hs & Hf).
  split.
  - apply Hs. simpl. unfold msPerDay. lia.
  - apply (Hf (js " next week ")); reflexivity.
Defined.

(** A code unit that can occur in a canonical date. *)
Definition dateUnit (c : N) : bool := isDigit c || (c =? 45)%N.

Lemma dateUnit_plain c :
  dateUnit c = true ->
  isSpace c = false /\ (c =? 84)%N = false /\ (c =? 46)%N = false
  /\ (c =? 47)%N = false.
Proof.
  unfold dateUnit, isDigit. intros H.
  assert (R : (c = 45 \/ 48 <= c <= 57)%N).
  { apply orb_true_iff in H as [H|H].
    - apply andb_true_iff in H as [H1 H2]. apply N.leb_le in H1, H2. lia.
    - apply N.eqb_eq in H. lia. }
  assert (E : (c = 45 \/ c = 48 \/ c = 49 \/ c = 50 \/ c = 51 \/ c = 52 \/ c = 53
               \/ c = 54 \/ c = 55 \/ c = 56 \/ c = 57)%N) by lia.
  repeat (destruct E as [->|E]; [repeat split; reflexivity|]).
  subst c. repeat split; reflexivity.
Qed.

Lemma dropWhile_keep {A} (p : A -> bool) l :
  Forall (fun x => p x = false) l -> dropWhile p l = l.
Proof. destruct 1 as [|x r Hx _]; [reflexivity|]. cbn. rewrite Hx. reflexivity. Qed.

Lemma takeWhile_all {A} (p : A -> bool) l :
  Forall (fun x => p x = true) l -> takeWhile p l = l.
Proof.
  induction 1 as [|x r Hx _ IH]; [reflexivity|]. cbn. rewrite Hx, IH. reflexivity.
Qed.

Lemma cleanDate_plain s :
  Forall (fun c => dateUnit c = true) s -> Processor.cleanDate s = s.
Proof.
  intros H. unfold Processor.cleanDate, trim.
  assert (Hs : Forall (fun c => isSpace c = false) s).
  { eapply Forall_impl; [|exact H]. intros c Hc. apply dateUnit_plain, Hc. }
  rewrite (dropWhile_keep isSpace s Hs).
  rewrite (dropWhile_keep isSpace (rev s)) by (apply Forall_rev, Hs).
  rewrite rev_involutive, takeWhile_all.
  - clear Hs. induction H as [|c r Hc _ IH]; [reflexivity|]. cbn [map].
    destruct (dateUnit_plain c Hc) as (_ & _ & H46 & H47).
    rewrite H46, H47. cbn [orb]. rewrite IH. reflexivity.
  - eapply Forall_impl; [|exact H]. intros c Hc.
    destruct (dateUnit_plain c Hc) as (H1 & H2 & _). rewrite H1, H2. reflexivity.
Qed.

Lemma isIsoDate_units s :
  Processor.isIsoDate s = true ->
  Forall (fun c => dateUnit c = true) s /\ List.length s = 10%nat.
Proof.
  destruct s as [|y1 [|y2 [|y3 [|y4 [|d1 [|m1 [|m2 [|d2 [|a1 [|a2 [|x r]]]]]]]]]]];
    try discriminate.
  unfold Processor.isIsoDate. cbn [forallb]. intros H.
  apply andb_true_iff in H as [H Hd2]. apply andb_true_iff in H as [H Hd1].
  apply andb_true_iff in H as [E1 H]. apply andb_true_iff in H as [E2 H].
  apply andb_true_iff in H as [E3 H]. apply andb_true_iff in H as [E4 H].
  apply andb_true_iff in H as [E5 H]. apply andb_true_iff in H as [E6 H].
  apply andb_true_iff in H as [E7 H]. apply andb_true_iff in H as [E8 _].
  unfold dateUnit. split; [|reflexivity].
  repeat (apply Forall_cons; [|]); try apply Forall_nil;
    rewrite ?E1, ?E2, ?E3, ?E4, ?E5, ?E6, ?E7, ?E8, ?Hd1, ?Hd2, ?orb_true_r;
    reflexivity.
Qed.

Lemma formatDate_iso h s :
  Processor.isIsoDate s = true -> Processor.formatDate h (VStr s) = s.
Proof.
  intros H. destruct (isIsoDate_units s H) as [Hu Hl].
  unfold Processor.formatDate. destruct s as [|c r]; [discriminate|].
  cbn [truthy negb toString]. rewrite (cleanDate_plain _ Hu), H.
  unfold Processor.isYYYYMMDD. rewrite Hl. reflexivity.
Qed.

Lemma formatDate_compact h s :
  Processor.isYYYYMMDD (Processor.cleanDate s) = true ->
  Processor.isIsoDate (Processor.formatDate h (VStr s)) = true.
Proof.
  intros H. unfold Processor.formatDate. destruct s as [|c r]; [discriminate|].
  cbn [truthy negb toString]. rewrite H.
  unfold Processor.isYYYYMMDD in H. apply andb_true_iff in H as [Hl Hd].
  apply Nat.eqb_eq in Hl.
  destruct (Processor.cleanDate (c :: r))
    as [|y1 [|y2 [|y3 [|y4 [|m1 [|m2 [|a1 [|a2 [|x t]]]]]]]]]; try discriminate.
  cbn [forallb] in Hd.
  apply andb_true_iff in Hd as [E1 Hd]. apply andb_true_iff in Hd as [E2 Hd].
  apply andb_true_iff in Hd as [E3 Hd]. apply andb_true_iff in Hd as [E4 Hd].
  apply andb_true_iff in Hd as [E5 Hd]. apply andb_true_iff in Hd as [E6 Hd].
  apply andb_true_iff in Hd as [E7 Hd]. apply andb_true_iff in Hd as [E8 _].
  change (js "-") with [45%N].
  cbn [firstn skipn app Processor.isIsoDate forallb].
  rewrite E1, E2, E3, E4, E5, E6, E7, E8. reflexivity.
Qed.

(** A text that either date pattern recognises normalizes to a canonical
    date, and normalizing that date again returns it unchanged. *)
Theorem formatDate_canonical_fixed (h : Host) (s : jstring) :
  Processor.isYYYYMMDD (Processor.cleanDate s) = true
  \/ Processor.isIsoDate (Processor.cleanDate s) = true ->
  Processor.isIsoDate (Processor.formatDate h (VStr s)) = true
  /\ Processor.formatDate h (VStr (Processor.formatDate h (VStr s)))
     = Processor.formatDate h (VStr s).
Proof.
  intros H.
  assert (I : Processor.isIsoDate (Processor.formatDate h (VStr s)) = true).
  { destruct H as [H|H]; [apply formatDate_compact, H|].
    unfold Processor.formatDate. destruct s as [|c r]; [discriminate|].
    cbn [truthy negb toString]. rewrite H.
    destruct (isIsoDate_units _ H) as [_ Hl].
    unfold Processor.isYYYYMMDD. rewrite Hl. exact H. }
  split; [exact I | apply formatDate_iso, I].
Qed.

Lemma formatDate_canonical_fixed_witness :
  Processor.isIsoDate (Processor.formatDate sampleHost (VStr (js " 2025/01/15T13:20 ")))
    = true
  /\ Processor.formatDate sampleHost
       (VStr (Processor.formatDate sampleHost (VStr (js " 2025/01/15T13:20 "))))
     = Processor.formatDate sampleHost (VStr (js " 2025/01/15T13:20 ")).
Proof.
  apply formatDate_canonical_fixed. right. reflexivity.
Defined.

(** [check] holds on the [n] integers from [z] on. *)
Fixpoint allFrom (check : Z -> bool) (n : nat) (z : Z) : bool :=
  match n with
  | O => true
  | S m => check z && allFrom check m (z + 1)
  end.

Lemma allFrom_spec check n : forall z k,
  allFrom check n z = true -> z <= k < z + Z.of_nat n -> check k = true.
Proof.
  induction n as [|n IH]; intros z k H Hk; [lia|].
  cbn [allFrom] in H. apply andb_true_iff in H as [H0 H1].
  destruct (Z.eq_dec k z) as [->|Hne]; [exact H0|].
  apply (IH (z + 1) k H1). lia.
Qed.

Definition twoDigits (z : Z) : bool :=
  match padStart2 (intString z) with
  | [a; b] => isDigit a && isDigit b
  | _ => false
  end.

Definition fourDigits (z : Z) : bool :=
  match intString z with
  | [a; b; c; d] => isDigit a && isDigit b && isDigit c && isDigit d
  | _ => false
  end.

Lemma twoDigits_ok z : 1 <= z <= 31 -> twoDigits z = true.
Proof.
  intros H. apply (allFrom_spec twoDigits 31 1 z); [vm_compute; reflexivity | lia].
Qed.

Lemma fourDigits_ok z : 1000 <= z <= 9999 -> fourDigits z = true.
Proof.
  intros H. apply (allFrom_spec fourDigits (Z.to_nat 9000) 1000 z);
    [vm_compute; reflexivity | lia].
Qed.

(** The local day number and year the host shows for a time value. *)
Definition localDay (h : Host) (t : Z) : Z := (t + localTZA h t) / msPerDay.

Definition localYear (h : Host) (t : Z) : Z := fst (fst (civil (localDay h t))).

Lemma monthLength_le l m : monthLength l m <= 31.
Proof.
  unfold monthLength. destruct (m =? 2); [destruct l; lia|].
  destruct ((m =? 4) || (m =? 6) || (m =? 9) || (m =? 11)); lia.
Qed.

(** A native date whose local year has four digits is printed as the
    calendar date of its local day: year, month from 01 to 12 and a day
    that exists in that month, each field with its number of digits; the
    normalizer returns that text unchanged when it meets it again. *)
Theorem formatDate_native_canonical (h : Host) (t : Z) :
  1000 <= localYear h t <= 9999 ->
  exists y m d,
    Processor.formatDate h (VDate (Some t))
      = intString y ++ js "-" ++ padStart2 (intString m) ++ js "-"
          ++ padStart2 (intString d)
    /\ 1000 <= y <= 9999 /\ 1 <= m <= 12 /\ 1 <= d <= monthLength (leap y) m
    /\ dayNumber y m d = localDay h t
    /\ Processor.isIsoDate (Processor.formatDate h (VDate (Some t))) = true
    /\ Processor.formatDate h (VStr (Processor.formatDate h (VDate (Some t))))
       = Processor.formatDate h (VDate (Some t)).
Proof.
  intros Hy.
  assert (E : Processor.formatDate h (VDate (Some t)) = ymd h (Some t)) by reflexivity.
  rewrite E. unfold localYear in Hy. unfold ymd. fold (localDay h t).
  pose proof (civil_correct (localDay h t)) as C.
  destruct (civil (localDay h t)) as [[y m] d]. cbn [fst] in Hy.
  destruct C as (Hm & Hd & Hn).
  exists y, m, d. split; [reflexivity|].
  split; [exact Hy|]. split; [exact Hm|]. split; [exact Hd|]. split; [exact Hn|].
  assert (I : Processor.isIsoDate
                (intString y ++ js "-" ++ padStart2 (intString m) ++ js "-"
                   ++ padStart2 (intString d)) = true).
  { pose proof (monthLength_le (leap y) m) as Hle.
    pose proof (fourDigits_ok y Hy) as Fy.
    pose proof (twoDigits_ok m ltac:(lia)) as Fm.
    pose proof (twoDigits_ok d ltac:(lia)) as Fd.
    unfold fourDigits in Fy. unfold twoDigits in Fm, Fd.
    destruct (intString y) as [|y1 [|y2 [|y3 [|y4 [|? ?]]]]]; try discriminate.
    destruct (padStart2 (intString m)) as [|m1 [|m2 [|? ?]]]; try discriminate.
    destruct (padStart2 (intString d)) as [|d1 [|d2 [|? ?]]]; try discriminate.
    apply andb_true_iff in Fy as [Fy Y4]. apply andb_true_iff in Fy as [Fy Y3].
    apply andb_true_iff in Fy as [Y1 Y2].
    apply andb_true_iff in Fm as [M1 M2]. apply andb_true_iff in Fd as [D1 D2].
    change (js "-") with [45%N].
    cbn [app Processor.isIsoDate forallb].
    rewrite Y1, Y2, Y3, Y4, M1, M2, D1, D2. reflexivity. }
  split; [exact I | apply formatDate_iso, I].
Qed.

Lemma formatDate_native_canonical_witness :
  exists y m d,
    Processor.formatDate sampleHost (VDate (Some 1709218800000))
      = intString y ++ js "-" ++ padStart2 (intString m) ++ js "-"
          ++ padStart2 (intString d)
    /\ 1000 <= y <= 9999 /\ 1 <= m <= 12 /\ 1 <= d <= monthLength (leap y) m
    /\ dayNumber y m d = localDay sampleHost 1709218800000
    /\ Processor.isIsoDate (Processor.formatDate sampleHost (VDate (Some 1709218800000)))
       = true
    /\ Processor.formatDate sampleHost
         (VStr (Processor.formatDate sampleHost (VDate (Some 1709218800000))))
       = Processor.formatDate sampleHost (VDate (Some 1709218800000)).
Proof.
  apply formatDate_native_canonical. vm_compute. split; discriminate.
Defined.

(** Midnight of the leap day 2024-02-29 in the sample host's zone, the
    midnight after it, and that second instant read five hours west of
    UTC. *)
Example leap_day_sample :
  Processor.formatDate sampleHost (VDate (Some 1709132400000)) = js "2024-02-29"
  /\ Processor.formatDate sampleHost (VDate (Some 1709218800000)) = js "2024-03-01"
  /\ Processor.formatDate westHost (VDate (Some 1709218800000)) = js "2024-02-29".
Proof. repeat split; vm_compute; reflexivity. Qed.

(* --------------------------------------------------------------------- *)
(** ** The field mapper                                                   *)
(* --------------------------------------------------------------------- *)

(** A card statement whose header has a blank cell and no time column. *)
Definition blankHeaderCell : Workbook :=
  {| SheetNames := [js "Sheet1"];
     Sheets := fun _ =>
       [ [Some (VStr (js "이용일")); None; Some (VStr (js "이용하신곳"));
          Some (VStr (js "이용금액"))];
         [Some (VStr (js "2025-01-10")); None; Some (VStr (js "스타벅스"));
          Some (VNum (ofZ 4500))] ] |}.

Definition sampleUUID (k : nat) : jstring := js "uuid-" ++ intString (Z.of_nat k).

(** The first definition of the catalog. *)
Definition kbDef : SourceDefinition :=
  {| type := js "kb_card"; name := js "KB국민카드";
     signatures := [js "이용일"; js "이용하신곳"; js "이용금액"];
     mapping := Router.cardMapping (Router.F "이용일") (Router.F "이용시간")
                                   (Router.F "이용하신곳") (Router.F "이용금액(원)")
                                   (Router.F "이용금액") |}.

Example kbDef_first : nth_error Router.SOURCE_DEFINITIONS 0 = Some kbDef.
Proof. reflexivity. Qed.

(** C5 at a header row with a blank cell: the row reaches the helper with
    a hole; the name of the time column matches no header under any
    strategy, and where the specification has the index -1 the helper throws, so
    that the run is rejected; with an empty string in place of the hole
    the same lookup gives -1. *)
Theorem getColIdx_blank_header_cell :
  Router.identifySource sampleHost Router.SOURCE_DEFINITIONS (js "kb.xls")
                        blankHeaderCell
    = Identified kbDef
                 [Some (js "이용일"); None; Some (js "이용하신곳"); Some (js "이용금액")]
                 0 (js "Sheet1") (Sheets blankHeaderCell (js "Sheet1"))
  /\ Processor.getColIdx
       [Some (js "이용일"); None; Some (js "이용하신곳"); Some (js "이용금액")]
       (FOne (js "이용시간")) = TypeError
  /\ Processor.getColIdx
       [Some (js "이용일"); Some []; Some (js "이용하신곳"); Some (js "이용금액")]
       (FOne (js "이용시간")) = Ok (-1)
  /\ Processor.processFile sampleHost sampleUUID Router.SOURCE_DEFINITIONS None 0
                           (js "kb.xls") blankHeaderCell
     = Processor.Rejected.
Proof. repeat split; vm_compute; reflexivity. Qed.

(** [findIndex] on a list without holes, with -1 when nothing is found. *)
Fixpoint firstIndexFrom {A} (p : A -> bool) (l : list A) (i : Z) : Z :=
  match l with
  | [] => -1
  | x :: r => if p x then i else firstIndexFrom p r (i + 1)
  end.

Definition firstIndex {A} (p : A -> bool) (l : list A) : Z := firstIndexFrom p l 0.

(** The first index of a list of search results that is not -1. *)
Fixpoint firstHit (l : list Z) : Z :=
  match l with
  | [] => -1
  | i :: r => if i =? -1 then firstHit r else i
  end.

(** The three strategies tried for one candidate name on a header without
    holes, loosest last. *)
Definition strategies (headers : list jstring) (target : jstring) : list Z :=
  [ firstIndex (fun hd => jeqb hd target) headers;
    firstIndex (fun hd => jeqb (stripSpaces hd) (stripSpaces target)) headers;
    firstIndex (fun hd => includes hd target) headers ].

(** The candidate names a mapping entry configures. *)
Definition candidates (f : field) : list jstring :=
  match f with
  | FUndef => []
  | FOne [] => []
  | FOne n => [n]
  | FMany l => l
  end.

Lemma firstIndexFrom_range {A} (p : A -> bool) l i :
  firstIndexFrom p l i = -1 \/
  i <= firstIndexFrom p l i < i + Z.of_nat (List.length l).
Proof.
  revert i. induction l as [|x r IH]; intros i; [left; reflexivity|].
  cbn [firstIndexFrom List.length]. destruct (p x).
  - right. lia.
  - destruct (IH (i + 1)) as [E|E]; [left; exact E | right; lia].
Qed.

Lemma firstIndexFrom_none {A} (p : A -> bool) l i :
  (forall x, In x l -> p x = false) -> firstIndexFrom p l i = -1.
Proof.
  revert i. induction l as [|x r IH]; intros i H; [reflexivity|].
  cbn [firstIndexFrom]. rewrite (H x (or_introl eq_refl)).
  apply IH. intros y Hy. apply H. right. exact Hy.
Qed.

Lemma firstIndex_range {A} (p : A -> bool) l :
  -1 <= firstIndex p l < Z.of_nat (List.length l).
Proof.
  unfold firstIndex. destruct (firstIndexFrom_range p l 0) as [E|E]; lia.
Qed.

(** On an array without holes the searches of the helper are plain
    searches, and none throws. *)
Lemma indexOfFrom_dense hs x i :
  indexOfFrom (map Some hs) x i = firstIndexFrom (fun hd => jeqb hd x) hs i.
Proof.
  revert i. induction hs as [|y r IH]; intros i; [reflexivity|].
  cbn [map indexOfFrom firstIndexFrom]. rewrite IH. reflexivity.
Qed.

Lemma findIndexFrom_dense {A} (p : A -> bool) hs i :
  findIndexFrom p (map Some hs) i = Ok (firstIndexFrom p hs i).
Proof.
  revert i. induction hs as [|y r IH]; intros i; [reflexivity|].
  cbn [map findIndexFrom firstIndexFrom]. rewrite IH.
  destruct (p y); reflexivity.
Qed.

Lemma getColIdxLoop_dense hs targets :
  Processor.getColIdxLoop (map Some hs) targets
  = Ok (firstHit (flat_map (strategies hs) targets)).
Proof.
  induction targets as [|t rest IH]; [reflexivity|].
  cbn [Processor.getColIdxLoop flat_map strategies app firstHit].
  unfold indexOf, findIndex, firstIndex.
  rewrite indexOfFrom_dense, !findIndexFrom_dense. cbn [bind].
  destruct (firstIndexFrom (fun hd => jeqb hd t) hs 0 =? -1); cbn [negb];
    [|reflexivity].
  destruct (firstIndexFrom _ hs 0 =? -1); cbn [negb]; [|reflexivity].
  destruct (firstIndexFrom _ hs 0 =? -1); cbn [negb]; [|reflexivity].
  exact IH.
Qed.

Lemma firstHit_range (bound : Z) l :
  Forall (fun i => -1 <= i < bound) l -> 0 <= bound -> -1 <= firstHit l < bound.
Proof.
  induction 1 as [|i r Hi _ IH]; intros Hb; cbn [firstHit]; [lia|].
  destruct (i =? -1); [auto | lia].
Qed.

Lemma firstHit_all_none l : Forall (fun i => i = -1) l -> firstHit l = -1.
Proof.
  induction 1 as [|i r Hi _ IH]; [reflexivity|]. cbn [firstHit].
  rewrite Hi. exact IH.
Qed.

Lemma getColIdx_candidates headerRow fieldName :
  Processor.getColIdx headerRow fieldName
  = match candidates fieldName with
    | [] => Ok (-1)
    | ts => Processor.getColIdxLoop headerRow ts
    end.
Proof. destruct fieldName as [|[|c n]|[|t l]]; reflexivity. Qed.

(** Up to the first hole the searches with a callback go as on a list;
    they throw when they reach the hole. *)
Lemma findIndexFrom_hole {A} (p : A -> bool) pre post i :
  0 <= i ->
  findIndexFrom p (map Some pre ++ None :: post) i
  = if firstIndexFrom p pre i =? -1 then TypeError
    else Ok (firstIndexFrom p pre i).
Proof.
  revert i. induction pre as [|y r IH]; intros i Hi; [reflexivity|].
  cbn [map app findIndexFrom firstIndexFrom]. destruct (p y).
  - destruct (Z.eqb_spec i (-1)) as [E|_]; [lia | reflexivity].
  - apply IH. lia.
Qed.

(** The column helper on the header rows on which it returns.  For a header
    without holes the column index is the first hit in the order candidate
    by candidate, and for each candidate exact, space-free, substring; an
    exact hit of the leading candidate wins over looser hits in earlier
    columns; without a candidate or without any hit the result is -1.  For
    a header with a hole only the leading candidate counts: its exact hit
    anywhere, else its space-free hit in front of the first hole, else the
    helper throws; without a candidate it still returns -1. *)
Theorem getColIdx_by_strategy (headers : list jstring) (fieldName : field) :
  let found := firstHit (flat_map (strategies headers) (candidates fieldName)) in
  Processor.getColIdx (map Some headers) fieldName = Ok found
  /\ -1 <= found < Z.of_nat (List.length headers)
  /\ (candidates fieldName = [] -> found = -1)
  /\ ((forall t hd, In t (candidates fieldName) -> In hd headers ->
          stripSpaces hd <> stripSpaces t /\ includes hd t = false) ->
      found = -1)
  /\ (forall t rest, candidates fieldName = t :: rest ->
        firstIndex (fun hd => jeqb hd t) headers <> -1 ->
        found = firstIndex (fun hd => jeqb hd t) headers)
  /\ (forall post,
        Processor.getColIdx (map Some headers ++ None :: post) fieldName
        = match candidates fieldName with
          | [] => Ok (-1)
          | t :: _ =>
            let row := map Some headers ++ None :: post in
            if negb (indexOf row t =? -1) then Ok (indexOf row t)
            else
              let fuzzy := firstIndex (fun hd => jeqb (stripSpaces hd) (stripSpaces t))
                                      headers in
              if fuzzy =? -1 then TypeError else Ok fuzzy
          end)
  /\ Processor.getColIdx (map Some [js "이용금액(원)"; js "이용 금액"; js "이용금액"])
                         (FOne (js "이용금액")) = Ok 2.
Proof.
  intros found.
  assert (E : Processor.getColIdx (map Some headers) fieldName = Ok found).
  { rewrite getColIdx_candidates. subst found.
    destruct (candidates fieldName) as [|t rest]; [reflexivity|].
    apply getColIdxLoop_dense. }
  split; [exact E|]. subst found. split; [|split; [|split; [|split; [|split]]]].
  - apply firstHit_range; [|lia].
    apply Forall_flat_map, Forall_forall. intros t _.
    unfold strategies.
    repeat (apply Forall_cons; [apply firstIndex_range|]). apply Forall_nil.
  - intros ->. reflexivity.
  - intros H. apply firstHit_all_none.
    apply Forall_flat_map, Forall_forall. intros t Ht.
    unfold strategies, firstIndex.
    repeat (apply Forall_cons; [apply firstIndexFrom_none; intros hd Hhd;
                                destruct (H t hd Ht Hhd) as [H1 H2] |]).
    + destruct (jeqb hd t) eqn:J; [|reflexivity].
      apply jeqb_eq in J. subst hd. congruence.
    + destruct (jeqb (stripSpaces hd) (stripSpaces t)) eqn:J; [|reflexivity].
      apply jeqb_eq in J. congruence.
    + exact H2.
    + apply Forall_nil.
  - intros t rest -> Hx. cbn [flat_map strategies app firstHit].
    destruct (firstIndex (fun hd => jeqb hd t) headers =? -1) eqn:B; [|reflexivity].
    apply Z.eqb_eq in B. contradiction.
  - intros post. rewrite getColIdx_candidates.
    destruct (candidates fieldName) as [|t rest]; [reflexivity|].
    cbn [Processor.getColIdxLoop]. cbv zeta.
    destruct (negb (indexOf _ t =? -1)); [reflexivity|].
    unfold findIndex, firstIndex. rewrite findIndexFrom_hole by lia.
    destruct (firstIndexFrom _ headers 0 =? -1) eqn:B; cbn [bind]; [reflexivity|].
    rewrite B. reflexivity.
  - reflexivity.
Qed.

Lemma getColIdx_by_strategy_witness :
  firstHit (flat_map (strategies [js "거래일"; js "가맹점명"])
                     (candidates (FOne (js "금액")))) = -1
  /\ firstHit (flat_map (strategies [js "이용금액(원)"; js "이용금액"])
                        (candidates (FMany [js "이용금액"; js "금액"]))) = 1
  /\ Processor.getColIdx (map Some [js "이용 일"] ++ None :: [Some (js "이용시간")])
                         (FOne (js "이용일")) = Ok 0.
Proof.
  pose proof (getColIdx_by_strategy [js "거래일"; js "가맹점명"] (FOne (js "금액")))
    as (_ & _ & _ & Hnone & _).
  pose proof (getColIdx_by_strategy [js "이용금액(원)"; js "이용금액"]
                (FMany [js "이용금액"; js "금액"])) as (_ & _ & _ & _ & Hexact & _).
  pose proof (getColIdx_by_strategy [js "이용 일"] (FOne (js "이용일")))
    as (_ & _ & _ & _ & _ & Hhole & _).
  split; [|split].
  - apply Hnone.
    intros t hd [<-|[]] [<-|[<-|[]]]; split; (discriminate || reflexivity).
  - apply (Hexact (js "이용금액") [js "금액"] eq_refl). discriminate.
  - rewrite Hhole. reflexivity.
Defined.

Lemma findIndexFrom_sound {A} (p : A -> bool) a : forall i r,
  0 <= i -> findIndexFrom p a i = Ok r -> r <> -1 ->
  exists x, nth_error a (Z.to_nat (r - i)) = Some (Some x) /\ p x = true.
Proof.
  induction a as [|c rest IH]; intros i r Hi E Hr; [cbn in E; congruence|].
  cbn [findIndexFrom] in E. destruct c as [x|]; [|discriminate].
  destruct (p x) eqn:Px.
  - injection E as <-. rewrite Z.sub_diag. exists x. split; [reflexivity | exact Px].
  - assert (R : i + 1 <= r).
    { clear IH. revert E Hr. generalize (i + 1). clear.
      induction rest as [|c rest IH]; intros j E Hr; [cbn in E; congruence|].
      cbn [findIndexFrom] in E. destruct c as [y|]; [|discriminate].
      destruct (p y); [injection E as <-; lia|].
      specialize (IH (j + 1) E Hr). lia. }
    destruct (IH (i + 1) r ltac:(lia) E Hr) as (y & Hy & Py).
    exists y. replace (Z.to_nat (r - i)) with (S (Z.to_nat (r - (i + 1)))) by lia.
    split; [exact Hy | exact Py].
Qed.

Lemma indexOfFrom_sound a x : forall i r,
  0 <= i -> indexOfFrom a x i = r -> r <> -1 ->
  nth_error a (Z.to_nat (r - i)) = Some (Some x).
Proof.
  induction a as [|c rest IH]; intros i r Hi E Hr; [cbn in E; congruence|].
  cbn [indexOfFrom] in E.
  assert (R : forall j, 0 <= j -> indexOfFrom rest x j = r -> j <= r).
  { clear IH E. intros j Hj. revert j Hj.
    induction rest as [|c' rest' IH]; intros j Hj E; [cbn in E; congruence|].
    cbn [indexOfFrom] in E. destruct c' as [y|].
    - destruct (jeqb y x); [lia|]. specialize (IH (j + 1) ltac:(lia) E). lia.
    - specialize (IH (j + 1) ltac:(lia) E). lia. }
  destruct c as [y|].
  - destruct (jeqb y x) eqn:J.
    + subst r. rewrite Z.sub_diag. apply jeqb_eq in J. subst y. reflexivity.
    + pose proof (R (i + 1) ltac:(lia) E).
      replace (Z.to_nat (r - i)) with (S (Z.to_nat (r - (i + 1)))) by lia.
      apply IH; [lia | exact E | exact Hr].
  - pose proof (R (i + 1) ltac:(lia) E).
    replace (Z.to_nat (r - i)) with (S (Z.to_nat (r - (i + 1)))) by lia.
    apply IH; [lia | exact E | exact Hr].
Qed.

(** A resolved column is a real column whose header fits the candidate:
    the header at the returned index is present and equals one of the
    configured names, or equals it once both are freed of white space, or
    contains it. *)
Theorem getColIdx_sound (headerRow : array jstring) (fieldName : field) (i : Z) :
  Processor.getColIdx headerRow fieldName = Ok i -> i <> -1 ->
  exists target header,
    In target (candidates fieldName)
    /\ nth_error headerRow (Z.to_nat i) = Some (Some header)
    /\ (header = target
        \/ stripSpaces header = stripSpaces target
        \/ includes header target = true).
Proof.
  rewrite getColIdx_candidates.
  assert (H : forall ts, Processor.getColIdxLoop headerRow ts = Ok i -> i <> -1 ->
            exists target header,
              In target ts /\ nth_error headerRow (Z.to_nat i) = Some (Some header)
              /\ (header = target \/ stripSpaces header = stripSpaces target
                  \/ includes header target = true)).
  { induction ts as [|t rest IH]; intros E Hi; [cbn in E; congruence|].
    cbn [Processor.getColIdxLoop] in E. cbv zeta in E.
    destruct (indexOf headerRow t =? -1) eqn:B1; cbn [negb] in E.
    - destruct (findIndex (fun hd => jeqb (stripSpaces hd) (stripSpaces t)) headerRow)
        as [i2|] eqn:F2; cbn [bind] in E; [|discriminate].
      destruct (i2 =? -1) eqn:B2; cbn [negb] in E.
      + destruct (findIndex (fun hd => includes hd t) headerRow)
          as [i3|] eqn:F3; cbn [bind] in E; [|discriminate].
        destruct (i3 =? -1) eqn:B3; cbn [negb] in E.
        * destruct (IH E Hi) as (tg & hd & Hin & Hn & Hm).
          exists tg, hd. split; [right; exact Hin | auto].
        * injection E as ->.
          destruct (findIndexFrom_sound _ _ 0 i ltac:(lia) F3 Hi) as (hd & Hn & Hp).
          rewrite Z.sub_0_r in Hn.
          exists t, hd. split; [left; reflexivity | auto].
      + injection E as ->.
        destruct (findIndexFrom_sound _ _ 0 i ltac:(lia) F2 Hi) as (hd & Hn & Hp).
        rewrite Z.sub_0_r in Hn. apply jeqb_eq in Hp.
        exists t, hd. split; [left; reflexivity | auto].
    - injection E as E.
      pose proof (indexOfFrom_sound headerRow t 0 i ltac:(lia) E Hi) as Hn.
      rewrite Z.sub_0_r in Hn.
      exists t, t. split; [left; reflexivity | auto]. }
  destruct (candidates fieldName) as [|t rest] eqn:C.
  - intros E Hi. injection E as <-. congruence.
  - apply H.
Qed.

Lemma getColIdx_sound_witness :
  exists target header,
    In target (candidates (FOne (js "이용금액")))
    /\ nth_error [Some (js "이용일"); None; Some (js "이용금액")] (Z.to_nat 2)
       = Some (Some header)
    /\ (header = target
        \/ stripSpaces header = stripSpaces target
        \/ includes header target = true).
Proof.
  apply (getColIdx_sound [Some (js "이용일"); None; Some (js "이용금액")]
                         (FOne (js "이용금액")) 2).
  - reflexivity.
  - discriminate.
Defined.

(** The column helper of the payroll-summary normalizer resolves a name to
    the same index as the helper of the row-wise normalizer, throws where
    that one throws, and resolves an absent name to -1 like an absent
    mapping entry. *)
Theorem getColIdxSalary_agrees (headerRow : array jstring) (fieldName : option jstring) :
  Processor.getColIdxSalary headerRow fieldName
  = Processor.getColIdx headerRow match fieldName with
                                  | Some n => FOne n
                                  | None => FUndef
                                  end.
Proof.
  destruct fieldName as [[|c n]|]; [reflexivity| |reflexivity].
  unfold Processor.getColIdxSalary, Processor.getColIdx.
  cbn [Processor.getColIdxLoop].
  destruct (indexOf headerRow (c :: n) =? -1); cbn [negb]; [|reflexivity].
  destruct (findIndex _ headerRow) as [i2|]; cbn [bind]; [|reflexivity].
  destruct (i2 =? -1); cbn [negb]; [|reflexivity].
  destruct (findIndex _ headerRow) as [i3|]; cbn [bind]; [|reflexivity].
  destruct (i3 =? -1); reflexivity.
Qed.
(* --------------------------------------------------------------------- *)
(** ** The classifier                                                     *)
(* --------------------------------------------------------------------- *)

(** What a matching rule does to an entry. *)
Definition applyRule (r : Rule) (e : Entry) : Entry :=
  match updates r with
  | Some u => Processor.applyUpdates u e
  | None => e
  end.

(** The fields no classification rule may write. *)
Definition ownFields (e : Entry) :=
  (id e, e_date e, e_time e, e_amount e, e_raw_description e, raw_source e,
   raw_filename e).

(** The fields the rules write. *)
Definition classFields (e : Entry) :=
  (item e, category_detail e, category_main e, category_mso e).

Lemma applyUpdates_own u e : ownFields (Processor.applyUpdates u e) = ownFields e.
Proof.
  unfold Processor.applyUpdates, Processor.when.
  destruct u as [[i|] [d|] [cd|] [cm|] [cs|]]; cbn;
    try destruct i; try destruct (item e); reflexivity.
Qed.

Lemma applyRules_find h rules e :
  Processor.applyRules h rules e
  = match find (fun r => Processor.ruleMatches h r e) rules with
    | Some r => applyRule r e
    | None => e
    end.
Proof.
  induction rules as [|r rest IH]; [reflexivity|].
  cbn [Processor.applyRules find].
  destruct (Processor.ruleMatches h r e); [reflexivity | exact IH].
Qed.

Lemma applyRules_own h rules e : ownFields (Processor.applyRules h rules e) = ownFields e.
Proof.
  rewrite applyRules_find.
  destruct (find _ rules) as [r|]; [|reflexivity].
  unfold applyRule. destruct (updates r); [apply applyUpdates_own | reflexivity].
Qed.

Lemma deriveColumns_own e : ownFields (Processor.deriveColumns e) = ownFields e.
Proof.
  unfold Processor.deriveColumns.
  destruct (includes (raw_source e) (js "카드"));
    [|destruct (includes (raw_source e) (js "계좌"))]; reflexivity.
Qed.

Lemma deriveColumns_class e : classFields (Processor.deriveColumns e) = classFields e.
Proof.
  unfold Processor.deriveColumns.
  destruct (includes (raw_source e) (js "카드"));
    [|destruct (includes (raw_source e) (js "계좌"))]; reflexivity.
Qed.

Lemma applyUpdates_item u e :
  item (Processor.applyUpdates u e)
  = let i := match u_item u with Some v => v | None => item e end in
    match u_description_out u, i with
    | Some d, [] => d
    | _, _ => i
    end.
Proof.
  unfold Processor.applyUpdates, Processor.when.
  destruct e as [? ? ? ? ? it ? ? ? ? ? ? ? ? ? ? ?].
  destruct u as [[i|] [d|] [cd|] [cm|] [cs|]]; cbn;
    try destruct i; try destruct it; reflexivity.
Qed.

Lemma applyUpdates_categories u e :
  category_detail (Processor.applyUpdates u e)
    = match u_category_detail u with Some v => v | None => category_detail e end
  /\ category_main (Processor.applyUpdates u e)
    = match u_category_main u with Some v => v | None => category_main e end
  /\ category_mso (Processor.applyUpdates u e)
    = match u_category_mso u with Some v => v | None => category_mso e end.
Proof.
  unfold Processor.applyUpdates, Processor.when.
  destruct e as [? ? ? ? ? it ? ? ? ? ? ? ? ? ? ? ?].
  destruct u as [[i|] [d|] [cd|] [cm|] [cs|]]; cbn;
    try destruct i; try destruct it; repeat split; reflexivity.
Qed.

(** C3: per record the first rule, in list order, one of whose keywords
    occurs in the lower-cased description is the only rule applied; it
    writes exactly the fields its update set names; a record no rule
    matches keeps its classification fields; the description and the other
    fields of the normalizer are never written. *)
Theorem classify_first_match (h : Host) (rules : list Rule) (data : list Entry) :
  Processor.classifyData h (Some rules) data
    = map (fun e => Processor.deriveColumns
                      match find (fun r => Processor.ruleMatches h r e) rules with
                      | Some r => applyRule r e
                      | None => e
                      end) data
  /\ (forall r e, Processor.ruleMatches h r e
        = existsb (fun k => includes (toLowerCase h (e_raw_description e))
                                     (toLowerCase h k)) (keywords r))
  /\ (forall u e,
        let e' := Processor.applyUpdates u e in
        (u_item u = None -> u_description_out u = None -> item e' = item e)
        /\ (forall v, u_item u = Some v -> v <> [] -> item e' = v)
        /\ (forall v, u_item u = None -> u_description_out u = Some v ->
              item e' = match item e with [] => v | _ => item e end)
        /\ category_detail e' = match u_category_detail u with
                                | Some v => v
                                | None => category_detail e
                                end
        /\ category_main e' = match u_category_main u with
                              | Some v => v
                              | None => category_main e
                              end
        /\ category_mso e' = match u_category_mso u with
                             | Some v => v
                             | None => category_mso e
                             end)
  /\ (forall e, find (fun r => Processor.ruleMatches h r e) rules = None ->
        classFields (Processor.deriveColumns (Processor.applyRules h rules e))
        = classFields e)
  /\ (forall rs, map ownFields (Processor.classifyData h rs data) = map ownFields data).
Proof.
  split; [|split; [|split; [|split]]].
  - unfold Processor.classifyData. rewrite map_map. apply map_ext.
    intros e. rewrite applyRules_find. reflexivity.
  - reflexivity.
  - intros u e e'. subst e'.
    pose proof (applyUpdates_item u e) as Hi.
    pose proof (applyUpdates_categories u e) as (Hd & Hm & Hs).
    cbv zeta in Hi. repeat split; try assumption.
    + intros E1 E2. rewrite Hi, E1, E2. reflexivity.
    + intros v E Hv. rewrite Hi, E.
      destruct v; [congruence|]. destruct (u_description_out u); reflexivity.
    + intros v E1 E2. rewrite Hi, E1, E2. destruct (item e); reflexivity.
  - intros e Hf. rewrite deriveColumns_class, applyRules_find, Hf. reflexivity.
  - intros rs. unfold Processor.classifyData. rewrite map_map.
    destruct rs as [rs|].
    + rewrite map_map. apply map_ext. intros e.
      rewrite deriveColumns_own. apply applyRules_own.
    + apply map_ext. intros e. apply deriveColumns_own.
Qed.

(** Two rules the first of which has a keyword inside the keyword of the
    second, and a rule that cannot match the sample entries. *)
Definition ruleCafe : Rule :=
  {| keywords := [js "스타"];
     updates := Some {| u_item := Some (js "커피"); u_description_out := None;
                        u_category_detail := None;
                        u_category_main := Some (js "복리후생비");
                        u_category_mso := None |} |}.

Definition ruleStarbucks : Rule :=
  {| keywords := [js "스타벅스"];
     updates := Some {| u_item := Some (js "회의비"); u_description_out := None;
                        u_category_detail := Some (js "외부");
                        u_category_main := Some (js "접대비");
                        u_category_mso := Some (js "MSO") |} |}.

Definition ruleParking : Rule :=
  {| keywords := [js "parking"];
     updates := Some {| u_item := Some (js "주차료"); u_description_out := None;
                        u_category_detail := None; u_category_main := None;
                        u_category_mso := None |} |}.

Definition sampleEntry (desc source : string) (amt : Z) : Entry :=
  Processor.mkEntry (js "id-0") (js "2025-01-10") (VStr (js "13:00"))
                    (VNum (ofZ amt)) (js desc) [] [] [] [] (js source)
                    (js "a.xls").

Example first_rule_only :
  map classFields
      (Processor.classifyData sampleHost (Some [ruleCafe; ruleStarbucks])
                              [sampleEntry "스타벅스 강남점" "KB국민카드" 4500])
  = [(js "커피", [], js "복리후생비", [])].
Proof. reflexivity. Qed.

Lemma classify_first_match_witness :
  classFields (Processor.deriveColumns
                 (Processor.applyRules sampleHost [ruleParking]
                    (sampleEntry "스타벅스" "KB국민카드" 4500)))
  = classFields (sampleEntry "스타벅스" "KB국민카드" 4500)
  /\ item (Processor.applyUpdates
             {| u_item := Some (js "커피"); u_description_out := None;
                u_category_detail := None; u_category_main := None;
                u_category_mso := None |}
             (sampleEntry "스타벅스" "KB국민카드" 4500)) = js "커피".
Proof.
  pose proof (classify_first_match sampleHost [ruleParking] [])
    as (_ & _ & Hu & Hn & _).
  split.
  - apply Hn. reflexivity.
  - apply Hu; [reflexivity | discriminate].
Defined.

(* --------------------------------------------------------------------- *)
(** ** Classification is stable                                           *)
(* --------------------------------------------------------------------- *)

Lemma find_pointwise {A} (p q : A -> bool) l :
  (forall x, p x = q x) -> find p l = find q l.
Proof.
  intros H. induction l as [|x r IH]; [reflexivity|]. simpl. rewrite H, IH. reflexivity.
Qed.

Lemma ruleMatches_own h r e e' :
  ownFields e' = ownFields e ->
  Processor.ruleMatches h r e' = Processor.ruleMatches h r e.
Proof.
  intros H. unfold Processor.ruleMatches.
  assert (E : e_raw_description e' = e_raw_description e)
    by (unfold ownFields in H; congruence).
  rewrite E. reflexivity.
Qed.

Lemma applyUpdates_twice u e :
  Processor.applyUpdates u (Processor.applyUpdates u e) = Processor.applyUpdates u e.
Proof.
  unfold Processor.applyUpdates, Processor.when.
  destruct e as [? ? ? ? ? it ? ? ? ? ? ? ? ? ? ? ?].
  destruct u as [[i|] [d|] [cd|] [cm|] [cs|]]; cbn;
    try destruct i; try destruct it; try destruct d; reflexivity.
Qed.

Lemma applyRules_twice h rules e :
  Processor.applyRules h rules (Processor.applyRules h rules e)
  = Processor.applyRules h rules e.
Proof.
  rewrite (applyRules_find h rules (Processor.applyRules h rules e)).
  assert (F : find (fun r => Processor.ruleMatches h r (Processor.applyRules h rules e)) rules
              = find (fun r => Processor.ruleMatches h r e) rules).
  { apply find_pointwise. intros r. apply ruleMatches_own, applyRules_own. }
  rewrite F, applyRules_find.
  destruct (find (fun r => Processor.ruleMatches h r e) rules) as [r|]; [|reflexivity].
  unfold applyRule. destruct (updates r); [apply applyUpdates_twice | reflexivity].
Qed.

Lemma deriveColumns_applyUpdates u e :
  Processor.applyUpdates u (Processor.deriveColumns e)
  = Processor.deriveColumns (Processor.applyUpdates u e).
Proof.
  assert (S : raw_source (Processor.applyUpdates u e) = raw_source e).
  { pose proof (applyUpdates_own u e) as H. unfold ownFields in H. congruence. }
  unfold Processor.deriveColumns. rewrite S.
  destruct (includes (raw_source e) (js "카드"));
    [|destruct (includes (raw_source e) (js "계좌"))];
    unfold Processor.applyUpdates, Processor.when;
    destruct e as [? ? ? ? ? it ? ? ? ? ? ? ? ? ? ? ?];
    destruct u as [[i|] [d|] [cd|] [cm|] [cs|]]; cbn;
    try destruct i; try destruct it; reflexivity.
Qed.

Lemma deriveColumns_applyRules h rules e :
  Processor.applyRules h rules (Processor.deriveColumns e)
  = Processor.deriveColumns (Processor.applyRules h rules e).
Proof.
  rewrite !applyRules_find.
  assert (F : find (fun r => Processor.ruleMatches h r (Processor.deriveColumns e)) rules
              = find (fun r => Processor.ruleMatches h r e) rules).
  { apply find_pointwise. intros r. apply ruleMatches_own, deriveColumns_own. }
  rewrite F.
  destruct (find (fun r => Processor.ruleMatches h r e) rules) as [r|]; [|reflexivity].
  unfold applyRule. destruct (updates r) as [u|]; [|reflexivity].
  apply deriveColumns_applyUpdates.
Qed.

Lemma deriveColumns_twice e :
  Processor.deriveColumns (Processor.deriveColumns e) = Processor.deriveColumns e.
Proof.
  unfold Processor.deriveColumns.
  destruct (includes (raw_source e) (js "카드")) eqn:C;
    [|destruct (includes (raw_source e) (js "계좌")) eqn:A];
    cbn [raw_source e_amount e_date id e_time e_raw_description item
         category_detail category_main category_mso raw_filename];
    rewrite ?C, ?A; reflexivity.
Qed.

(** Classifying classified records again, with the same rules, changes
    nothing: the same first rule matches, since the description is kept, and
    its updates and the derived columns are assignments of the same values. *)
Theorem classifyData_idempotent (h : Host) (rules : option (list Rule))
    (data : list Entry) :
  Processor.classifyData h rules (Processor.classifyData h rules data)
  = Processor.classifyData h rules data.
Proof.
  unfold Processor.classifyData. destruct rules as [rs|].
  - rewrite !map_map. apply map_ext. intros e.
    rewrite deriveColumns_applyRules, applyRules_twice, deriveColumns_twice.
    reflexivity.
  - rewrite map_map. apply map_ext. intros e. apply deriveColumns_twice.
Qed.

(* --------------------------------------------------------------------- *)
(** ** Payment channels                                                   *)
(* --------------------------------------------------------------------- *)

Inductive Channel := Cash | Card | Transfer.

(** The channel a source name selects: the card marker is looked for
    first, then the account marker. *)
Definition channel (source : jstring) : Channel :=
  if includes source (js "카드") then Card
  else if includes source (js "계좌") then Transfer
  else Cash.

(** A column is populated when it holds anything but the empty string. *)
Definition populated (v : value) : bool :=
  match v with
  | VStr [] | VUndef => false
  | _ => true
  end.

Definition cashGroup (e : Entry) : bool := populated (col_cash e).
Definition cardGroup (e : Entry) : bool :=
  populated (col_card e) || populated (col_card_detail e).
Definition transferGroup (e : Entry) : bool :=
  populated (col_transfer e) || populated (col_account e).

Definition numericAmount (e : Entry) : Prop := exists n, e_amount e = VNum n.

Lemma normalizeRows_numeric h uuid filename def i1 i2 i3 i4 i5 clean rows k :
  (forall v, exists n, clean v = VNum n) ->
  Forall numericAmount
         (Processor.normalizeRows h uuid filename def i1 i2 i3 i4 i5 clean rows k).
Proof.
  intros Hc. revert k. induction rows as [|row rest IH]; intros k; [constructor|].
  cbn [Processor.normalizeRows]. destruct row as [|c r]; [apply IH|].
  destruct (negb (truthy (at_ (c :: r) i1))); [apply IH|].
  constructor; [|apply IH]. apply Hc.
Qed.

(** What a returning call of the row-wise frame returns: the column
    helper has returned five times, and the rows have been walked with the
    indices it gave. *)
Lemma normalizeWith_ok h uuid clean k filename jsonData def headerRow headerIndex out :
  Processor.normalizeWith h uuid clean k filename jsonData def headerRow headerIndex
    = Ok out ->
  exists i1 i2 i3 i4 i5,
    Processor.getColIdx headerRow (date (mapping def)) = Ok i1
    /\ Processor.getColIdx headerRow (time (mapping def)) = Ok i2
    /\ Processor.getColIdx headerRow (raw_description (mapping def)) = Ok i3
    /\ Processor.getColIdx headerRow (amount (mapping def)) = Ok i4
    /\ Processor.getColIdx headerRow (amount_alt (mapping def)) = Ok i5
    /\ out = Processor.normalizeRows h uuid filename def i1 i2 i3 i4 i5 clean
                                     (skipn (headerIndex + 1) jsonData) k.
Proof.
  unfold Processor.normalizeWith.
  destruct (Processor.getColIdx headerRow (date _)) as [i1|]; [|discriminate].
  destruct (Processor.getColIdx headerRow (time _)) as [i2|]; [|discriminate].
  destruct (Processor.getColIdx headerRow (raw_description _)) as [i3|]; [|discriminate].
  destruct (Processor.getColIdx headerRow (amount _)) as [i4|]; [|discriminate].
  destruct (Processor.getColIdx headerRow (amount_alt _)) as [i5|]; [|discriminate].
  cbn [bind]. intros E. injection E as <-.
  exists i1, i2, i3, i4, i5. repeat split; reflexivity.
Qed.

Lemma normalizeData_numeric h uuid k filename jsonData def headerRow headerIndex out :
  Processor.normalizeData h uuid k filename jsonData def headerRow headerIndex = Ok out ->
  Forall numericAmount out.
Proof.
  intros E. destruct (normalizeWith_ok _ _ _ _ _ _ _ _ _ _ E)
    as (i1 & i2 & i3 & i4 & i5 & _ & _ & _ & _ & _ & ->).
  apply normalizeRows_numeric. intros v. eexists. reflexivity.
Qed.

(** What a returning call of the payroll-summary normalizer returns. *)
Lemma normalizeSalarySummary_ok h uuid now k filename jsonData def headerRow
      headerIndex out :
  Processor.normalizeSalarySummary h uuid now k filename jsonData def headerRow
                                   headerIndex = Ok out ->
  exists iNet iDed iName,
    Processor.getColIdxSalary headerRow (net_payment (mapping def)) = Ok iNet
    /\ Processor.getColIdxSalary headerRow (total_deduction (mapping def)) = Ok iDed
    /\ Processor.getColIdxSalary headerRow (employee_name (mapping def)) = Ok iName
    /\ out = match Processor.findTotalRow h (skipn (headerIndex + 1) jsonData) with
             | None => []
             | Some totalRow =>
               let net := Processor.extractKRW h (Processor.orNumZero (at_ totalRow iNet)) in
               let ded := Processor.extractKRW h (Processor.orNumZero (at_ totalRow iDed)) in
               let stdDate := Processor.formatDate h (VDate (Some now)) in
               [ Processor.mkEntry (uuid k) stdDate (VStr []) (VNum net)
                   (js "직원 인건비") (js "직원인건비") [] (js "직원인건비")
                   (js "MSO인정경비") (name def) filename;
                 Processor.mkEntry (uuid (S k)) stdDate (VStr []) (VNum ded)
                   (js "직원소득세") (js "직원소득세") [] (js "직원인건비")
                   (js "MSO인정경비") (name def) filename;
                 Processor.mkEntry (uuid (S (S k))) stdDate (VStr [])
                   (VNum (ndiv (nadd net ded) (ofZ 12)))
                   (js "직원 퇴직연금") (js "직원 퇴직연금") [] (js "직원인건비")
                   (js "MSO인정경비") (name def) filename ]
             end.
Proof.
  unfold Processor.normalizeSalarySummary.
  destruct (Processor.getColIdxSalary headerRow (net_payment _)) as [i1|]; [|discriminate].
  destruct (Processor.getColIdxSalary headerRow (total_deduction _)) as [i2|]; [|discriminate].
  destruct (Processor.getColIdxSalary headerRow (employee_name _)) as [i3|]; [|discriminate].
  cbn [bind]. intros E. exists i1, i2, i3. repeat split.
  destruct (Processor.findTotalRow h _); injection E as <-; reflexivity.
Qed.

Lemma normalizeSalarySummary_numeric h uuid now k filename jsonData def headerRow
      headerIndex out :
  Processor.normalizeSalarySummary h uuid now k filename jsonData def headerRow
                                   headerIndex = Ok out ->
  Forall numericAmount out.
Proof.
  intros E. destruct (normalizeSalarySummary_ok _ _ _ _ _ _ _ _ _ _ E)
    as (i1 & i2 & i3 & _ & _ & _ & ->).
  destruct (Processor.findTotalRow h _); [|constructor].
  repeat constructor; eexists; reflexivity.
Qed.

(** What the records of a successful run are made of: a normalized entry,
    the rules applied, the columns derived. *)
Lemma processFile_records h uuid definitions rules now filename wb records :
  Processor.processFile h uuid definitions rules now filename wb
    = Processor.Processed records ->
  exists def headerRow headerIndex sheetName jsonData normalized,
    Router.identifySource h definitions filename wb
      = Identified def headerRow headerIndex sheetName jsonData
    /\ (if jeqb (type def) (js "salary_summary")
        then Processor.normalizeSalarySummary h uuid now 0 filename jsonData def
                                              headerRow headerIndex
        else Processor.normalizeData h uuid 0 filename jsonData def headerRow
                                     headerIndex) = Ok normalized
    /\ records = Processor.classifyData h rules normalized.
Proof.
  unfold Processor.processFile.
  destruct (Router.identifySource h definitions filename wb)
    as [def headerRow headerIndex sheetName jsonData | probe] eqn:E; [|discriminate].
  match goal with
  | |- context [match ?x with Ok _ => _ | TypeError => _ end] =>
    destruct x as [nd|] eqn:N; [|discriminate]
  end.
  intros H. injection H as <-.
  exists def, headerRow, headerIndex, sheetName, jsonData, nd.
  split; [reflexivity|]. split; [exact N | reflexivity].
Qed.

Lemma includes_nonempty s t : t <> [] -> includes s t = true -> s <> [].
Proof.
  intros Ht H ->. destruct t; [congruence|]. discriminate.
Qed.

Lemma deriveColumns_channels e :
  numericAmount e ->
  let e' := Processor.deriveColumns e in
  match channel (raw_source e) with
  | Card =>
    col_card e' = e_amount e /\ col_card_detail e' = VStr (raw_source e)
    /\ col_cash e' = VStr [] /\ col_transfer e' = VStr [] /\ col_account e' = VStr []
  | Transfer =>
    col_transfer e' = e_amount e /\ col_account e' = VStr (raw_source e)
    /\ col_cash e' = VStr [] /\ col_card e' = VStr [] /\ col_card_detail e' = VStr []
  | Cash =>
    col_cash e' = e_amount e
    /\ col_card e' = VStr [] /\ col_card_detail e' = VStr []
    /\ col_transfer e' = VStr [] /\ col_account e' = VStr []
  end
  /\ (Nat.b2n (cashGroup e') + Nat.b2n (cardGroup e') + Nat.b2n (transferGroup e')
      = 1)%nat.
Proof.
  intros [n Hn] e'. subst e'.
  unfold channel, Processor.deriveColumns, cashGroup, cardGroup, transferGroup.
  destruct (includes (raw_source e) (js "카드")) eqn:C;
    [|destruct (includes (raw_source e) (js "계좌")) eqn:A];
    cbn; rewrite Hn; repeat split; reflexivity.
Qed.

(** C4: in every record the pipeline returns, the amount sits in exactly one
    channel group, chosen from the source name alone with the card marker
    tested before the account marker and cash as the remaining case. *)
Theorem channels_exclusive (h : Host) (uuid : nat -> jstring)
    (definitions : list SourceDefinition) (rules : option (list Rule)) (now : Z)
    (filename : jstring) (wb : Workbook) (records : list Entry) (e : Entry) :
  Processor.processFile h uuid definitions rules now filename wb = Processor.Processed records ->
  In e records ->
  match channel (raw_source e) with
  | Card =>
    col_card e = e_amount e /\ col_card_detail e = VStr (raw_source e)
    /\ col_cash e = VStr [] /\ col_transfer e = VStr [] /\ col_account e = VStr []
  | Transfer =>
    col_transfer e = e_amount e /\ col_account e = VStr (raw_source e)
    /\ col_cash e = VStr [] /\ col_card e = VStr [] /\ col_card_detail e = VStr []
  | Cash =>
    col_cash e = e_amount e
    /\ col_card e = VStr [] /\ col_card_detail e = VStr []
    /\ col_transfer e = VStr [] /\ col_account e = VStr []
  end
  /\ (Nat.b2n (cashGroup e) + Nat.b2n (cardGroup e) + Nat.b2n (transferGroup e)
      = 1)%nat
  /\ (includes (raw_source e) (js "카드") = true -> channel (raw_source e) = Card).
Proof.
  intros Hp Hin.
  assert (Hsrc : exists e0, numericAmount e0 /\ e = Processor.deriveColumns e0).
  { destruct (processFile_records _ _ _ _ _ _ _ _ Hp)
      as (def & headerRow & headerIndex & sheetName & jsonData & nd & _ & Hnd & ->).
    assert (Hnum : Forall numericAmount nd).
    { destruct (jeqb (type def) _);
        [eapply normalizeSalarySummary_numeric | eapply normalizeData_numeric];
        exact Hnd. }
    clear Hnd. unfold Processor.classifyData in Hin.
    apply in_map_iff in Hin as (e0 & <- & Hin0).
    exists e0. split; [|reflexivity].
    destruct rules as [rs|].
    - apply in_map_iff in Hin0 as (e1 & <- & Hin1).
      rewrite Forall_forall in Hnum. destruct (Hnum e1 Hin1) as [n Hn].
      exists n. pose proof (applyRules_own h rs e1) as Ho.
      unfold ownFields in Ho. congruence.
    - rewrite Forall_forall in Hnum. auto. }
  destruct Hsrc as (e0 & Hnum & ->).
  pose proof (deriveColumns_channels e0 Hnum) as [H1 H2]. cbv zeta in H1.
  pose proof (deriveColumns_own e0) as Ho. unfold ownFields in Ho.
  assert (Hs : raw_source (Processor.deriveColumns e0) = raw_source e0) by congruence.
  assert (Ha : e_amount (Processor.deriveColumns e0) = e_amount e0) by congruence.
  rewrite Hs, Ha. split; [exact H1|]. split; [exact H2|].
  intros Hc. unfold channel. rewrite Hc. reflexivity.
Qed.

(** The card statement of the end-to-end example. *)
Definition kbWorkbook : Workbook :=
  {| SheetNames := [js "Sheet1"];
     Sheets := fun _ =>
       [ [Some (VStr (js "이용일")); Some (VStr (js "이용시간"));
          Some (VStr (js "이용하신곳")); Some (VStr (js "이용금액(원)"))];
         [Some (VStr (js "2025-01-10")); Some (VStr (js "13:00"));
          Some (VStr (js "스타벅스")); Some (VNum (ofZ 4500))] ] |}.

Definition kbRecords : list Entry :=
  match Processor.processFile sampleHost sampleUUID Router.SOURCE_DEFINITIONS
                              None 0 (js "kb.xls") kbWorkbook with
  | Processor.Processed records => records
  | _ => []
  end.

Example kb_end_to_end :
  map (fun e => (e_date e, e_raw_description e, e_amount e,
                 col_card e, col_cash e, col_transfer e)) kbRecords
  = [(js "2025-01-10", js "스타벅스", VNum (ofZ 4500),
      VNum (ofZ 4500), VStr [], VStr [])].
Proof. reflexivity. Qed.

Example card_marker_first :
  channel (js "카드결제계좌") = Card /\ channel (js "씨티계좌") = Transfer
  /\ channel (js "현금영수증") = Cash.
Proof. repeat split; reflexivity. Qed.

Definition kbEntry : Entry := hd (sampleEntry EmptyString EmptyString 0) kbRecords.

Lemma channels_exclusive_witness :
  (col_card kbEntry = e_amount kbEntry
   /\ col_card_detail kbEntry = VStr (raw_source kbEntry)
   /\ col_cash kbEntry = VStr [] /\ col_transfer kbEntry = VStr []
   /\ col_account kbEntry = VStr [])
  /\ (Nat.b2n (cashGroup kbEntry) + Nat.b2n (cardGroup kbEntry)
      + Nat.b2n (transferGroup kbEntry) = 1)%nat.
Proof.
  pose proof (channels_exclusive sampleHost sampleUUID Router.SOURCE_DEFINITIONS
                None 0 (js "kb.xls") kbWorkbook kbRecords kbEntry eq_refl
                (or_introl eq_refl))
    as (H1 & H2 & _).
  split; [exact H1 | exact H2].
Defined.

(* --------------------------------------------------------------------- *)
(** ** The payroll-summary normalizer                                     *)
(* --------------------------------------------------------------------- *)

(** A payroll-summary definition.  The catalog entry of this type is not
    among the sources at hand; the type tag is the one [processFile] tests,
    the name is the one the normalizer's documentation gives, and the three
    header names are those its comments give for the mapped columns. *)
Definition salaryDef : SourceDefinition :=
  {| type := js "salary_summary"; name := js "급여총괄표";
     signatures := [js "성명"; js "차인지급액"; js "공제합계"];
     mapping := {| date := FUndef; time := FUndef; raw_description := FUndef;
                   amount := FUndef; amount_alt := FUndef;
                   net_payment := Some (js "차인지급액");
                   total_deduction := Some (js "공제합계");
                   employee_name := Some (js "성명") |} |}.

(** A payroll summary whose header has a blank cell, and a space inside
    the name of the net-payment column. *)
Definition salaryBlankHeader : Workbook :=
  {| SheetNames := [js "급여"];
     Sheets := fun _ =>
       [ [Some (VStr (js "성명")); None; Some (VStr (js "차인 지급액"));
          Some (VStr (js "공제합계"))];
         [Some (VStr (js "김철수")); None; Some (VNum (ofZ 1500000));
          Some (VNum (ofZ 200000))];
         [Some (VStr (js "합계")); None; Some (VNum (ofZ 3000000));
          Some (VNum (ofZ 400000))] ] |}.

(** The same sheet with an empty string where the header cell is blank. *)
Definition salaryFilledHeader : list Row :=
  [ [Some (VStr (js "성명")); Some (VStr []); Some (VStr (js "차인 지급액"));
     Some (VStr (js "공제합계"))];
    [Some (VStr (js "김철수")); None; Some (VNum (ofZ 1500000));
     Some (VNum (ofZ 200000))];
    [Some (VStr (js "합계")); None; Some (VNum (ofZ 3000000));
     Some (VNum (ofZ 400000))] ].

(** C2 at a payroll summary whose header row has a blank cell: the sheet is
    identified, with the hole in the header row handed on; the lookup of
    the net-payment column, whose header differs from the mapped name by a
    space, reaches the hole and throws, so no record is emitted where the
    specification has three, and the run is rejected; with the header cell filled
    the same sheet gives the three records. *)
Theorem salary_blank_header_cell :
  Router.identifySource sampleHost [salaryDef] (js "pay.xls") salaryBlankHeader
    = Identified salaryDef
                 [Some (js "성명"); None; Some (js "차인 지급액"); Some (js "공제합계")]
                 0 (js "급여") (Sheets salaryBlankHeader (js "급여"))
  /\ Processor.normalizeSalarySummary sampleHost sampleUUID 1736899200000 0
       (js "pay.xls") (Sheets salaryBlankHeader (js "급여")) salaryDef
       [Some (js "성명"); None; Some (js "차인 지급액"); Some (js "공제합계")] 0
     = TypeError
  /\ Processor.processFile sampleHost sampleUUID [salaryDef] None 1736899200000
                           (js "pay.xls") salaryBlankHeader
     = Processor.Rejected
  /\ rmap (map e_amount)
          (Processor.normalizeSalarySummary sampleHost sampleUUID 1736899200000 0
             (js "pay.xls") salaryFilledHeader salaryDef
             [Some (js "성명"); Some []; Some (js "차인 지급액"); Some (js "공제합계")] 0)
     = Ok [VNum (ofZ 3000000); VNum (ofZ 400000);
           VNum (S754_finite false 4867629602133333 (-34))].
Proof. repeat split; vm_compute; reflexivity. Qed.

(** The first cell of a header row that holds exactly [x] is cell [i]. *)
Definition firstAt (a : array jstring) (x : jstring) (i : nat) : Prop :=
  nth_error a i = Some (Some x)
  /\ forall j, (j < i)%nat -> nth_error a j <> Some (Some x).

Lemma indexOfFrom_first a x : forall i k,
  firstAt a x i -> indexOfFrom a x k = k + Z.of_nat i.
Proof.
  induction a as [|c r IH]; intros i k [Hi Hmin]; [destruct i; discriminate|].
  destruct i as [|i].
  - cbn in Hi. injection Hi as ->. cbn [indexOfFrom]. rewrite jeqb_refl. lia.
  - assert (Hc : c <> Some x).
    { intros ->. apply (Hmin O); [lia | reflexivity]. }
    assert (Hr : firstAt r x i).
    { split; [exact Hi|]. intros j Hj. apply (Hmin (S j)). lia. }
    cbn [indexOfFrom]. destruct c as [y|].
    + destruct (jeqb y x) eqn:J.
      * apply jeqb_eq in J. subst y. congruence.
      * rewrite (IH i (k + 1) Hr). lia.
    + rewrite (IH i (k + 1) Hr). lia.
Qed.

(** A name that stands in the header as it is written in the mapping is
    resolved to its first cell, holes or not. *)
Lemma getColIdxSalary_exact (a : array jstring) (x : jstring) i :
  x <> [] -> firstAt a x i -> Processor.getColIdxSalary a (Some x) = Ok (Z.of_nat i).
Proof.
  intros Hx Hf. unfold Processor.getColIdxSalary. destruct x as [|c x']; [congruence|].
  unfold indexOf. rewrite (indexOfFrom_first _ _ i 0 Hf).
  destruct (Z.eqb_spec (0 + Z.of_nat i) (-1)) as [E|_]; [lia|].
  cbn [negb]. reflexivity.
Qed.

Lemma at_nth (row : Row) i v : nth_error row i = Some (Some v) -> at_ row (Z.of_nat i) = v.
Proof.
  intros H. unfold at_. destruct (Z.ltb_spec (Z.of_nat i) 0) as [C|_]; [lia|].
  rewrite Nat2Z.id, H. reflexivity.
Qed.

(** A row with a totals cell: a cell that is present and truthy and whose
    text, trimmed and freed of white space, contains the marker. *)
Definition hasTotal (h : Host) (r : Row) : bool :=
  existsb (fun c => match c with
                    | Some v => truthy v
                                && includes (stripSpaces (trim (toString h v))) (js "합계")
                    | None => false
                    end) r.

Lemma includes_refl s : includes s s = true.
Proof.
  assert (H : forall t, startsWith t t = true).
  { induction t as [|c r IH]; [reflexivity|]. simpl. rewrite N.eqb_refl. exact IH. }
  destruct s; simpl; [reflexivity|]. rewrite N.eqb_refl, H. reflexivity.
Qed.

Lemma cellHasTotal_marker h cell :
  Processor.cellHasTotal h cell
  = truthy cell && includes (stripSpaces (trim (toString h cell))) (js "합계").
Proof.
  unfold Processor.cellHasTotal.
  destruct (truthy cell); cbn [negb andb]; [|reflexivity].
  destruct (includes _ (js "합계")) eqn:I; [reflexivity|].
  cbn [orb]. destruct (jeqb _ (js "합계")) eqn:J; [|reflexivity].
  apply jeqb_eq in J. rewrite J in I. rewrite includes_refl in I. discriminate.
Qed.

Lemma some_cellHasTotal h r : some (Processor.cellHasTotal h) r = hasTotal h r.
Proof.
  unfold some, hasTotal. induction r as [|c r IH]; [reflexivity|].
  cbn [existsb]. rewrite IH. destruct c as [v|]; [|reflexivity].
  rewrite cellHasTotal_marker. reflexivity.
Qed.

Lemma findTotalRow_find h rows :
  Processor.findTotalRow h rows = find (hasTotal h) rows.
Proof.
  induction rows as [|row rest IH]; [reflexivity|].
  cbn [Processor.findTotalRow find]. rewrite <- some_cellHasTotal.
  destruct row as [|c r]; [exact IH|].
  destruct (some (Processor.cellHasTotal h) (c :: r)); [reflexivity | exact IH].
Qed.

Lemma find_split {A} (p : A -> bool) before x after :
  Forall (fun y => p y = false) before -> p x = true ->
  find p (before ++ x :: after) = Some x.
Proof.
  intros Hb Hx. induction Hb as [|y r Hy _ IH]; cbn [app find].
  - rewrite Hx. reflexivity.
  - rewrite Hy. exact IH.
Qed.

Lemma find_absent {A} (p : A -> bool) l :
  Forall (fun y => p y = false) l -> find p l = None.
Proof.
  induction 1 as [|y r Hy _ IH]; [reflexivity|]. cbn [find]. rewrite Hy. exact IH.
Qed.

Lemma extractKRW_orNumZero_number h n :
  numTruthy n = true -> Processor.extractKRW h (Processor.orNumZero (VNum n)) = n.
Proof.
  intros H. unfold Processor.orNumZero. cbn [truthy]. rewrite H. reflexivity.
Qed.

(** The number twelve. *)
Lemma twelve : ofZ 12 = S754_finite false 6755399441055744 (-49).
Proof. vm_compute. reflexivity. Qed.

(** The payroll summary on the header rows on which the column helper returns: the two
    amount names stand in the header as the mapping writes them, in cells
    [iNet] and [iDed], and so does the employee name unless none is mapped.
    Then the normalizer returns nothing when no row below the header has a
    totals cell; otherwise it takes the first such row and returns three
    records, dated with the local calendar date of the run, whose amounts
    come from the cells [iNet] and [iDed] of that row: for numbers other
    than zero in these cells, the two numbers and the binary64 quotient by
    twelve of their binary64 sum. *)
Theorem salary_summary_spec (h : Host) (uuid : nat -> jstring) (now : Z) (k : nat)
    (filename : jstring) (jsonData : list Row) (def : SourceDefinition)
    (headerRow : array jstring) (headerIndex : nat)
    (netName dedName : jstring) (iNet iDed : nat) :
  net_payment (mapping def) = Some netName -> netName <> [] ->
  total_deduction (mapping def) = Some dedName -> dedName <> [] ->
  firstAt headerRow netName iNet -> firstAt headerRow dedName iDed ->
  (employee_name (mapping def) = None
   \/ exists who iWho, employee_name (mapping def) = Some who
                       /\ firstAt headerRow who iWho) ->
  let rows := skipn (headerIndex + 1) jsonData in
  let out := Processor.normalizeSalarySummary h uuid now k filename jsonData def
                                              headerRow headerIndex in
  (Forall (fun r => hasTotal h r = false) rows -> out = Ok [])
  /\ (forall before totalRow after,
        rows = before ++ totalRow :: after ->
        Forall (fun r => hasTotal h r = false) before ->
        hasTotal h totalRow = true ->
        exists e1 e2 e3,
          out = Ok [e1; e2; e3]
          /\ e_amount e1
             = VNum (Processor.extractKRW h
                       (Processor.orNumZero (at_ totalRow (Z.of_nat iNet))))
          /\ e_amount e2
             = VNum (Processor.extractKRW h
                       (Processor.orNumZero (at_ totalRow (Z.of_nat iDed))))
          /\ (forall net ded,
                nth_error totalRow iNet = Some (Some (VNum net)) ->
                numTruthy net = true ->
                nth_error totalRow iDed = Some (Some (VNum ded)) ->
                numTruthy ded = true ->
                map e_amount [e1; e2; e3]
                = [VNum net; VNum ded;
                   VNum (SFdiv 53 1024 (SFadd 53 1024 net ded)
                               (S754_finite false 6755399441055744 (-49)))])
          /\ map e_date [e1; e2; e3] = repeat (ymd h (Some now)) 3
          /\ map raw_source [e1; e2; e3] = repeat (name def) 3
          /\ map e_raw_description [e1; e2; e3]
             = [js "직원 인건비"; js "직원소득세"; js "직원 퇴직연금"]).
Proof.
  intros Hn Hn0 Hd Hd0 Fn Fd Hw rows out.
  assert (E : out =
              match find (hasTotal h) rows with
              | None => Ok []
              | Some totalRow =>
                let net := Processor.extractKRW h
                             (Processor.orNumZero (at_ totalRow (Z.of_nat iNet))) in
                let ded := Processor.extractKRW h
                             (Processor.orNumZero (at_ totalRow (Z.of_nat iDed))) in
                let stdDate := Processor.formatDate h (VDate (Some now)) in
                Ok [ Processor.mkEntry (uuid k) stdDate (VStr []) (VNum net)
                       (js "직원 인건비") (js "직원인건비") [] (js "직원인건비")
                       (js "MSO인정경비") (name def) filename;
                     Processor.mkEntry (uuid (S k)) stdDate (VStr []) (VNum ded)
                       (js "직원소득세") (js "직원소득세") [] (js "직원인건비")
                       (js "MSO인정경비") (name def) filename;
                     Processor.mkEntry (uuid (S (S k))) stdDate (VStr [])
                       (VNum (ndiv (nadd net ded) (ofZ 12)))
                       (js "직원 퇴직연금") (js "직원 퇴직연금") [] (js "직원인건비")
                       (js "MSO인정경비") (name def) filename ]
              end).
  { subst out. unfold Processor.normalizeSalarySummary. cbv zeta.
    rewrite Hn, Hd.
    rewrite (getColIdxSalary_exact _ _ _ Hn0 Fn),
      (getColIdxSalary_exact _ _ _ Hd0 Fd). cbn [bind].
    assert (W : exists iw, Processor.getColIdxSalary headerRow
                             (employee_name (mapping def)) = Ok iw).
    { destruct Hw as [->|(who & iWho & -> & Fw)]; [eexists; reflexivity|].
      destruct who as [|c w]; [eexists; reflexivity|].
      eexists. apply (getColIdxSalary_exact _ _ iWho); [discriminate | exact Fw]. }
    destruct W as [iw ->]. cbn [bind]. rewrite findTotalRow_find. fold rows.
    destruct (find (hasTotal h) rows); reflexivity. }
  split.
  - intros Hnone. rewrite E, (find_absent _ _ Hnone). reflexivity.
  - intros before totalRow after Hrows Hb Ht.
    rewrite E, Hrows, (find_split _ _ _ _ Hb Ht). cbv zeta.
    eexists _, _, _. split; [reflexivity|].
    split; [reflexivity|]. split; [reflexivity|].
    split; [|repeat split].
    intros net ded N1 T1 N2 T2. cbn [map Processor.mkEntry e_amount].
    rewrite (at_nth _ _ _ N1), (at_nth _ _ _ N2),
      (extractKRW_orNumZero_number h net T1),
      (extractKRW_orNumZero_number h ded T2), twelve.
    reflexivity.
Qed.

(** A payroll summary for the end-to-end example: the totals row is the
    first row with the marker, written with a space. *)
Definition salarySheet : list Row :=
  [ [Some (VStr (js "성명")); None; Some (VStr (js "공제합계"));
     Some (VStr (js "차인지급액"))];
    [Some (VStr (js "김철수")); None; Some (VNum (ofZ 200000));
     Some (VNum (ofZ 1500000))];
    [];
    [Some (VStr (js "합 계")); None; Some (VNum (ofZ 400000));
     Some (VNum (ofZ 3000000))];
    [Some (VStr (js "총합계")); None; Some (VNum (ofZ 1)); Some (VNum (ofZ 2))] ].

Lemma salary_summary_spec_witness :
  exists e1 e2 e3,
    Processor.normalizeSalarySummary sampleHost sampleUUID 1736899200000 0
      (js "pay.xls") salarySheet salaryDef
      [Some (js "성명"); None; Some (js "공제합계"); Some (js "차인지급액")] 0
    = Ok [e1; e2; e3]
    /\ map e_amount [e1; e2; e3]
       = [VNum (ofZ 3000000); VNum (ofZ 400000);
          VNum (SFdiv 53 1024 (SFadd 53 1024 (ofZ 3000000) (ofZ 400000))
                      (S754_finite false 6755399441055744 (-49)))]
    /\ map e_date [e1; e2; e3] = repeat (js "2025-01-15") 3.
Proof.
  destruct (salary_summary_spec sampleHost sampleUUID 1736899200000 0 (js "pay.xls")
              salarySheet salaryDef
              [Some (js "성명"); None; Some (js "공제합계"); Some (js "차인지급액")] 0
              (js "차인지급액") (js "공제합계") 3 2
              eq_refl ltac:(discriminate) eq_refl ltac:(discriminate))
    as [_ H].
  - split; [reflexivity|]. intros [|[|[|j]]] Hj; try lia; discriminate.
  - split; [reflexivity|]. intros [|[|j]] Hj; try lia; discriminate.
  - right. exists (js "성명"), 0%nat. split; [reflexivity|].
    split; [reflexivity|]. intros j Hj. lia.
  - destruct (H [ [Some (VStr (js "김철수")); None; Some (VNum (ofZ 200000));
                   Some (VNum (ofZ 1500000))]; [] ]
                [Some (VStr (js "합 계")); None; Some (VNum (ofZ 400000));
                 Some (VNum (ofZ 3000000))]
                [ [Some (VStr (js "총합계")); None; Some (VNum (ofZ 1));
                   Some (VNum (ofZ 2))] ]
                eq_refl ltac:(repeat constructor) eq_refl)
      as (e1 & e2 & e3 & Hout & _ & _ & Hnum & Hdate & _).
    exists e1, e2, e3. split; [exact Hout|]. split.
    + apply Hnum; reflexivity.
    + exact Hdate.
Defined.

(** The worked example of the specification: 3000000 and 400000 give the
    third amount 283333.33..., the binary64 number
    4867629602133333 / 2^34. *)
Example salary_end_to_end :
  rmap (map e_amount)
       (Processor.normalizeSalarySummary sampleHost sampleUUID 1736899200000 0
          (js "pay.xls") salarySheet salaryDef
          [Some (js "성명"); None; Some (js "공제합계"); Some (js "차인지급액")] 0)
  = Ok [VNum (ofZ 3000000); VNum (ofZ 400000);
        VNum (S754_finite false 4867629602133333 (-34))]
  /\ 283333 * 2 ^ 34 < 4867629602133333 < 283334 * 2 ^ 34.
Proof. split; [vm_compute; reflexivity | lia]. Qed.

(* --------------------------------------------------------------------- *)
(** ** The two revisions of the row-wise normalizer                       *)
(* --------------------------------------------------------------------- *)

Definition eraseId (e : Entry) : Entry :=
  {| id := []; e_date := e_date e; e_time := e_time e; e_amount := e_amount e;
     e_raw_description := e_raw_description e; item := item e;
     category_detail := category_detail e; category_main := category_main e;
     category_mso := category_mso e; raw_source := raw_source e;
     raw_filename := raw_filename e; display_date := display_date e;
     col_transfer := col_transfer e; col_account := col_account e;
     col_cash := col_cash e; col_card := col_card e;
     col_card_detail := col_card_detail e |}.

(** A numeric cell, or an empty one: a hole, undefined, null or the empty
    string. *)
Definition numericOrEmpty (v : value) : bool :=
  match v with
  | VNum _ | VUndef | VNull | VStr [] => true
  | _ => false
  end.

Lemma pickAmount_numeric row i j :
  numericOrEmpty (at_ row i) = true -> numericOrEmpty (at_ row j) = true ->
  exists n, Processor.pickAmount row i j = VNum n.
Proof.
  intros Hi Hj. unfold Processor.pickAmount.
  destruct (negb (i =? -1) && truthy (at_ row i)) eqn:E1.
  - apply andb_true_iff in E1 as [_ T].
    destruct (at_ row i) as [| |b|n|[|c s]|t]; try discriminate; eauto.
  - destruct (negb (j =? -1) && truthy (at_ row j)) eqn:E2; [|eauto].
    apply andb_true_iff in E2 as [_ T].
    destruct (at_ row j) as [| |b|n|[|c s]|t]; try discriminate; eauto.
Qed.

Lemma normalizeRows_agree h uuid1 uuid2 filename def i1 i2 i3 i4 i5 rows :
  (forall row, In row rows ->
     numericOrEmpty (at_ row i4) = true /\ numericOrEmpty (at_ row i5) = true) ->
  forall k1 k2,
    map eraseId (Processor.normalizeRows h uuid1 filename def i1 i2 i3 i4 i5
                   ProcessorV1.cleanAmount rows k1)
    = map eraseId (Processor.normalizeRows h uuid2 filename def i1 i2 i3 i4 i5
                     (fun v => VNum (Processor.extractKRW h v)) rows k2).
Proof.
  induction rows as [|row rest IH]; intros H k1 k2; [reflexivity|].
  assert (Hrest : forall r, In r rest ->
            numericOrEmpty (at_ r i4) = true /\ numericOrEmpty (at_ r i5) = true)
    by (intros r Hr; apply H; right; exact Hr).
  cbn [Processor.normalizeRows]. destruct row as [|c r]; [apply IH, Hrest|].
  destruct (negb (truthy (at_ (c :: r) i1))); [apply IH, Hrest|].
  destruct (H (c :: r) (or_introl eq_refl)) as [H4 H5].
  destruct (pickAmount_numeric (c :: r) i4 i5 H4 H5) as [n ->].
  cbn [map ProcessorV1.cleanAmount Processor.extractKRW].
  f_equal. apply IH, Hrest.
Qed.

(** Both revisions resolve the columns with the same helper, and so return
    or throw together; where they return, they walk the same rows with the
    same indices. *)
Lemma revisions_same_frame h uuid1 uuid2 k1 k2 filename jsonData def headerRow
      headerIndex :
  (forall i1 i2 i3 i4 i5,
     Processor.getColIdx headerRow (amount (mapping def)) = Ok i4 ->
     Processor.getColIdx headerRow (amount_alt (mapping def)) = Ok i5 ->
     map eraseId (Processor.normalizeRows h uuid1 filename def i1 i2 i3 i4 i5
                    ProcessorV1.cleanAmount (skipn (headerIndex + 1) jsonData) k1)
     = map eraseId (Processor.normalizeRows h uuid2 filename def i1 i2 i3 i4 i5
                      (fun v => VNum (Processor.extractKRW h v))
                      (skipn (headerIndex + 1) jsonData) k2)) ->
  rmap (map eraseId) (ProcessorV1.normalizeData h uuid1 k1 filename jsonData def
                                                headerRow headerIndex)
  = rmap (map eraseId) (Processor.normalizeData h uuid2 k2 filename jsonData def
                                                headerRow headerIndex).
Proof.
  intros H. unfold ProcessorV1.normalizeData, Processor.normalizeData,
              Processor.normalizeWith. cbv zeta.
  destruct (Processor.getColIdx headerRow (date _)) as [i1|]; [|reflexivity].
  destruct (Processor.getColIdx headerRow (time _)) as [i2|]; [|reflexivity].
  destruct (Processor.getColIdx headerRow (raw_description _)) as [i3|]; [|reflexivity].
  destruct (Processor.getColIdx headerRow (amount _)) as [i4|]; [|reflexivity].
  destruct (Processor.getColIdx headerRow (amount_alt _)) as [i5|]; [|reflexivity].
  cbn [bind rmap]. f_equal. apply H; reflexivity.
Qed.

(** C10: on an identified sheet whose amount cells, in the primary and the
    alternate column, are numbers or empty in every row below the header,
    the earlier and the current [normalizeData] return the same records
    field for field, the identifiers apart; and where the column helper
    throws, it throws in both. *)
Theorem normalizeData_revisions_agree (h : Host) (uuid1 uuid2 : nat -> jstring)
    (k1 k2 : nat) (filename : jstring) (jsonData : list Row)
    (def : SourceDefinition) (headerRow : array jstring) (headerIndex : nat) :
  (forall row iMain iAlt, In row (skipn (headerIndex + 1) jsonData) ->
     Processor.getColIdx headerRow (amount (mapping def)) = Ok iMain ->
     Processor.getColIdx headerRow (amount_alt (mapping def)) = Ok iAlt ->
     numericOrEmpty (at_ row iMain) = true /\ numericOrEmpty (at_ row iAlt) = true) ->
  rmap (map eraseId) (ProcessorV1.normalizeData h uuid1 k1 filename jsonData def
                                                headerRow headerIndex)
  = rmap (map eraseId) (Processor.normalizeData h uuid2 k2 filename jsonData def
                                                headerRow headerIndex).
Proof.
  intros H. apply revisions_same_frame. intros i1 i2 i3 i4 i5 E4 E5.
  apply normalizeRows_agree. intros row Hin. apply (H row i4 i5 Hin E4 E5).
Qed.


Lemma normalizeData_revisions_agree_witness :
  rmap (map eraseId)
       (ProcessorV1.normalizeData sampleHost sampleUUID 0 (js "kb.xls")
          (Sheets kbWorkbook (js "Sheet1")) kbDef
          (map Some [js "이용일"; js "이용시간"; js "이용하신곳"; js "이용금액(원)"]) 0)
  = rmap (map eraseId)
         (Processor.normalizeData sampleHost (fun _ => js "x") 7 (js "kb.xls")
            (Sheets kbWorkbook (js "Sheet1")) kbDef
            (map Some [js "이용일"; js "이용시간"; js "이용하신곳"; js "이용금액(원)"]) 0).
Proof.
  apply normalizeData_revisions_agree.
  intros row iMain iAlt [<-|[]] E4 E5.
  injection E4 as <-. injection E5 as <-. split; reflexivity.
Defined.

(** Outside that domain the revisions differ: the earlier one reads the
    digits of a foreign-currency annotation into the amount. *)
Example revisions_differ_on_text :
  ProcessorV1.cleanAmount (VStr (js "￦36,411<br/>[USD]25.72"))
    = VNum (ofQ 364112572 100)
  /\ Processor.extractKRW sampleHost (VStr (js "￦36,411<br/>[USD]25.72"))
    = ofZ 36411.
Proof. repeat split; vm_compute; reflexivity. Qed.

(* --------------------------------------------------------------------- *)
(** ** Texts without the won sign                                         *)
(* --------------------------------------------------------------------- *)

Lemma wonMatch_none s :
  Forall (fun c => (c =? 65510)%N = false) s -> Processor.wonMatch s = None.
Proof.
  induction 1 as [|c r Hc _ IH]; [reflexivity|]. cbn [Processor.wonMatch].
  rewrite Hc. exact IH.
Qed.

Lemma brAt_needs_lt c r : (c =? 60)%N = false -> Processor.brAt (c :: r) = false.
Proof.
  intros H. unfold Processor.brAt. destruct r as [|b [|r' rest]]; try reflexivity.
  rewrite H. reflexivity.
Qed.

Lemma beforeBr_whole a :
  Forall (fun c => (c =? 60)%N = false) a -> Processor.beforeBr a = a.
Proof.
  induction 1 as [|c r Hc _ IH]; [reflexivity|]. cbn [Processor.beforeBr].
  rewrite (brAt_needs_lt c _ Hc), IH. reflexivity.
Qed.

(** An amount cell on which both revisions of the row-wise normalizer
    agree: a number, an empty cell, or a text with neither a won sign nor
    a [<]. *)
Definition plainAmount (v : value) : bool :=
  match v with
  | VNum _ | VUndef | VNull => true
  | VStr s => forallb (fun c => negb (c =? 65510)%N && negb (c =? 60)%N) s
  | _ => false
  end.

Lemma cleanAmount_plain h v :
  plainAmount v = true -> (truthy v = true \/ v = VNum (ofZ 0)) ->
  ProcessorV1.cleanAmount v = VNum (Processor.extractKRW h v).
Proof.
  intros Hp Ht. destruct v as [| |b|n|s|t]; try discriminate.
  - destruct Ht as [Ht|Ht]; discriminate.
  - destruct Ht as [Ht|Ht]; discriminate.
  - reflexivity.
  - destruct Ht as [Ht|Ht]; [|discriminate].
    destruct s as [|c r]; [discriminate|].
    cbn [plainAmount] in Hp. rewrite forallb_forall in Hp.
    assert (Hw : Forall (fun c => (c =? 65510)%N = false) (c :: r)).
    { apply Forall_forall. intros x Hx. specialize (Hp x Hx).
      apply andb_true_iff in Hp as [H1 _]. apply negb_true_iff, H1. }
    assert (Hl : Forall (fun c => (c =? 60)%N = false) (c :: r)).
    { apply Forall_forall. intros x Hx. specialize (Hp x Hx).
      apply andb_true_iff in Hp as [_ H2]. apply negb_true_iff, H2. }
    unfold ProcessorV1.cleanAmount, Processor.extractKRW.
    cbn [truthy negb toString].
    rewrite (wonMatch_none _ Hw), (beforeBr_whole _ Hl). reflexivity.
Qed.

Lemma pickAmount_plain row i j :
  plainAmount (at_ row i) = true -> plainAmount (at_ row j) = true ->
  plainAmount (Processor.pickAmount row i j) = true
  /\ (truthy (Processor.pickAmount row i j) = true
      \/ Processor.pickAmount row i j = VNum (ofZ 0)).
Proof.
  intros Hi Hj. unfold Processor.pickAmount.
  destruct (negb (i =? -1) && truthy (at_ row i)) eqn:E1.
  - apply andb_true_iff in E1 as [_ T]. auto.
  - destruct (negb (j =? -1) && truthy (at_ row j)) eqn:E2; [|auto].
    apply andb_true_iff in E2 as [_ T]. auto.
Qed.

Lemma normalizeRows_agree_plain h uuid1 uuid2 filename def i1 i2 i3 i4 i5 rows :
  (forall row, In row rows ->
     plainAmount (at_ row i4) = true /\ plainAmount (at_ row i5) = true) ->
  forall k1 k2,
    map eraseId (Processor.normalizeRows h uuid1 filename def i1 i2 i3 i4 i5
                   ProcessorV1.cleanAmount rows k1)
    = map eraseId (Processor.normalizeRows h uuid2 filename def i1 i2 i3 i4 i5
                     (fun v => VNum (Processor.extractKRW h v)) rows k2).
Proof.
  induction rows as [|row rest IH]; intros H k1 k2; [reflexivity|].
  assert (Hrest : forall r, In r rest ->
            plainAmount (at_ r i4) = true /\ plainAmount (at_ r i5) = true)
    by (intros r Hr; apply H; right; exact Hr).
  cbn [Processor.normalizeRows]. destruct row as [|c r]; [apply IH, Hrest|].
  destruct (negb (truthy (at_ (c :: r) i1))); [apply IH, Hrest|].
  destruct (H (c :: r) (or_introl eq_refl)) as [H4 H5].
  destruct (pickAmount_plain (c :: r) i4 i5 H4 H5) as [P T].
  cbn [map]. rewrite (cleanAmount_plain h _ P T).
  f_equal. apply IH, Hrest.
Qed.

(** The two revisions of the row-wise normalizer return the same records,
    identifiers apart, also when amount cells hold text, as long as the text
    has neither a won sign nor a [<]: thousands separators, currency words
    and signs are cleaned the same way by both. *)
Theorem normalizeData_revisions_agree_on_text (h : Host) (uuid1 uuid2 : nat -> jstring)
    (k1 k2 : nat) (filename : jstring) (jsonData : list Row)
    (def : SourceDefinition) (headerRow : array jstring) (headerIndex : nat) :
  (forall row iMain iAlt, In row (skipn (headerIndex + 1) jsonData) ->
     Processor.getColIdx headerRow (amount (mapping def)) = Ok iMain ->
     Processor.getColIdx headerRow (amount_alt (mapping def)) = Ok iAlt ->
     plainAmount (at_ row iMain) = true /\ plainAmount (at_ row iAlt) = true) ->
  rmap (map eraseId) (ProcessorV1.normalizeData h uuid1 k1 filename jsonData def
                                                headerRow headerIndex)
  = rmap (map eraseId) (Processor.normalizeData h uuid2 k2 filename jsonData def
                                                headerRow headerIndex).
Proof.
  intros H. apply revisions_same_frame. intros i1 i2 i3 i4 i5 E4 E5.
  apply normalizeRows_agree_plain. intros row Hin. apply (H row i4 i5 Hin E4 E5).
Qed.

Definition textAmounts : list Row :=
  [ [Some (VStr (js "이용일")); Some (VStr (js "이용하신곳")); Some (VStr (js "이용금액"))];
    [Some (VStr (js "2025-01-10")); Some (VStr (js "스타벅스"));
     Some (VStr (js "4,500원"))];
    [Some (VStr (js "2025-01-11")); Some (VStr (js "환불"));
     Some (VStr (js "-1,200 KRW"))] ].

(** A generator whose [k]-th value has [k] code units. *)
Definition unaryUUID (k : nat) : jstring := repeat 97%N k.

Lemma normalizeData_revisions_agree_on_text_witness :
  rmap (map eraseId)
       (ProcessorV1.normalizeData sampleHost sampleUUID 0 (js "kb.xls")
          textAmounts kbDef (map Some [js "이용일"; js "이용하신곳"; js "이용금액"]) 0)
  = rmap (map eraseId)
         (Processor.normalizeData sampleHost unaryUUID 3 (js "kb.xls")
            textAmounts kbDef (map Some [js "이용일"; js "이용하신곳"; js "이용금액"]) 0).
Proof.
  apply normalizeData_revisions_agree_on_text.
  intros row iMain iAlt [<-|[<-|[]]] E4 E5;
    injection E4 as <-; injection E5 as <-; split; reflexivity.
Defined.

Example text_amounts_sample :
  rmap (map e_amount)
       (Processor.normalizeData sampleHost sampleUUID 0 (js "kb.xls")
          textAmounts kbDef (map Some [js "이용일"; js "이용하신곳"; js "이용금액"]) 0)
  = Ok [VNum (ofZ 4500); VNum (ofZ (-1200))].
Proof. vm_compute. reflexivity. Qed.

(* --------------------------------------------------------------------- *)
(** ** Source identification                                              *)
(* --------------------------------------------------------------------- *)

Section IdentifySpec.

Variable h : Host.
Variable definitions : list SourceDefinition.

(** The text of a cell as the matcher sees it: trimmed, then freed of all
    white space; a falsy cell is empty. *)
Definition cellText (c : value) : jstring :=
  stripSpaces (if truthy c then trim (toString h c) else []).

(** A row matches a definition: every signature keyword, freed of white
    space, occurs in the text of some cell that is present, and the row
    has at least as many columns, holes included, as the definition has
    keywords. *)
Definition rowMatches (def : SourceDefinition) (r : Row) : bool :=
  forallb (fun sig =>
             existsb (fun c => match c with
                               | Some v => includes (cellText v) (stripSpaces sig)
                               | None => false
                               end) r)
          (signatures def)
  && (List.length (signatures def) <=? List.length r)%nat.

(** Definition number [j] matches row [i] of sheet number [s], within the
    first 500 rows. *)
Definition hit (wb : Workbook) (s i j : nat) : Prop :=
  exists sheetName r def,
    nth_error (SheetNames wb) s = Some sheetName
    /\ nth_error (Sheets wb sheetName) i = Some r
    /\ (i < 500)%nat
    /\ nth_error definitions j = Some def
    /\ rowMatches def r = true.

(** Sheet order, then row order, then catalog order. *)
Definition precedes (a b : nat * nat * nat) : Prop :=
  let '(s, i, j) := a in
  let '(s', i', j') := b in
  (s < s' \/ (s = s' /\ (i < i' \/ (i = i' /\ j <= j'))))%nat.

Lemma some_amap {A B} (p : B -> bool) (f : A -> B) (a : array A) :
  some p (amap f a) = some (fun x => p (f x)) a.
Proof.
  unfold some, amap. induction a as [|c r IH]; [reflexivity|].
  cbn [map existsb]. rewrite IH. destruct c; reflexivity.
Qed.

Lemma forallb_pointwise {A} (p q : A -> bool) l :
  (forall x, p x = q x) -> forallb p l = forallb q l.
Proof.
  intros H. induction l as [|x r IH]; [reflexivity|]. simpl. rewrite H, IH. reflexivity.
Qed.

Lemma scanDefs_find defs r :
  Router.scanDefs defs (Router.trimmedRow h r)
                  (amap stripSpaces (Router.trimmedRow h r))
  = find (fun def => rowMatches def r) defs.
Proof.
  induction defs as [|def rest IH]; [reflexivity|].
  cbn [Router.scanDefs find].
  assert (E : Router.isMatch (amap stripSpaces (Router.trimmedRow h r)) def
              = forallb (fun sig =>
                           existsb (fun c => match c with
                                             | Some v => includes (cellText v)
                                                                  (stripSpaces sig)
                                             | None => false
                                             end) r)
                        (signatures def)).
  { unfold Router.isMatch. apply forallb_pointwise. intros sig.
    unfold Router.trimmedRow. rewrite !some_amap. reflexivity. }
  unfold rowMatches. rewrite E.
  destruct (forallb _ (signatures def)); cbn [andb]; [|exact IH].
  unfold Router.trimmedRow at 1. unfold amap. rewrite length_map.
  destruct (Nat.ltb_spec (List.length r) (List.length (signatures def)));
    destruct (Nat.leb_spec (List.length (signatures def)) (List.length r));
    try lia; [exact IH | reflexivity].
Qed.

Lemma find_first {A} (p : A -> bool) l x :
  find p l = Some x ->
  exists j, nth_error l j = Some x /\ p x = true
            /\ forall j' y, (j' < j)%nat -> nth_error l j' = Some y -> p y = false.
Proof.
  induction l as [|a r IH]; [discriminate|]. cbn [find].
  destruct (p a) eqn:Pa.
  - intros E. injection E as <-. exists O. repeat split; [exact Pa|]. lia.
  - intros E. destruct (IH E) as (j & Hj & Hp & Hmin).
    exists (S j). repeat split; [exact Hj | exact Hp |].
    intros [|j'] y Hlt Hy; [injection Hy as <-; exact Pa|].
    apply (Hmin j' y); [lia | exact Hy].
Qed.

(** The row loop, started at index [i] on the rows from [i] on. *)
Lemma scanRows_some rows i def row i' :
  Router.scanRows h definitions rows i = Some (def, row, i') ->
  exists r j,
    (i <= i' < Router.MAX_SEARCH_ROWS)%nat
    /\ nth_error rows (i' - i) = Some r
    /\ row = Router.trimmedRow h r
    /\ nth_error definitions j = Some def
    /\ rowMatches def r = true
    /\ (forall j' d, (j' < j)%nat -> nth_error definitions j' = Some d ->
                     rowMatches d r = false)
    /\ (forall m r' d, (m < i' - i)%nat -> nth_error rows m = Some r' ->
                       In d definitions -> rowMatches d r' = false).
Proof.
  revert i. induction rows as [|r0 rest IH]; intros i; [discriminate|].
  cbn [Router.scanRows].
  destruct (Nat.ltb_spec i Router.MAX_SEARCH_ROWS) as [Hlt|]; [|discriminate].
  rewrite scanDefs_find.
  destruct (find (fun d => rowMatches d r0) definitions) as [d0|] eqn:F.
  - intros E. injection E as <- <- <-.
    destruct (find_first _ _ _ F) as (j & Hj & Hp & Hmin).
    exists r0, j. rewrite Nat.sub_diag. repeat split; auto; try lia.
  - intros E. destruct (IH (S i) E) as (r & j & Hr & Hn & Hrow & Hj & Hp & Hmin & Hbefore).
    exists r, j. replace (i' - i)%nat with (S (i' - S i)) by lia.
    repeat split; auto; try lia.
    intros [|m] r' d Hm Hnth Hd.
    + injection Hnth as <-. exact (find_none _ _ F d Hd).
    + apply (Hbefore m r' d); [lia | exact Hnth | exact Hd].
Qed.

Lemma scanRows_none rows i :
  Router.scanRows h definitions rows i = None ->
  forall m r d, nth_error rows m = Some r -> (i + m < Router.MAX_SEARCH_ROWS)%nat ->
                In d definitions -> rowMatches d r = false.
Proof.
  revert i. induction rows as [|r0 rest IH]; intros i E m r d Hn Hlt Hd.
  - destruct m; discriminate.
  - cbn [Router.scanRows] in E.
    destruct (Nat.ltb_spec i Router.MAX_SEARCH_ROWS) as [Hi|Hi]; [|lia].
    rewrite scanDefs_find in E.
    destruct (find (fun d => rowMatches d r0) definitions) as [d0|] eqn:F;
      [discriminate|].
    destruct m as [|m].
    + injection Hn as <-. exact (find_none _ _ F d Hd).
    + apply (IH (S i) E m r d Hn); [lia | exact Hd].
Qed.

(** A sheet without a hit. *)
Definition noHit (jsonData : list Row) : Prop :=
  forall m r d, nth_error jsonData m = Some r -> (m < Router.MAX_SEARCH_ROWS)%nat ->
                In d definitions -> rowMatches d r = false.

Lemma scanSheets_some wb names info :
  Router.scanSheets h definitions wb names = Some info ->
  exists s def r i j sheetName,
    info = Identified def (Router.trimmedRow h r) i sheetName (Sheets wb sheetName)
    /\ nth_error names s = Some sheetName
    /\ nth_error (Sheets wb sheetName) i = Some r
    /\ (i < Router.MAX_SEARCH_ROWS)%nat
    /\ nth_error definitions j = Some def
    /\ rowMatches def r = true
    /\ (forall j' d, (j' < j)%nat -> nth_error definitions j' = Some d ->
                     rowMatches d r = false)
    /\ (forall m r' d, (m < i)%nat -> nth_error (Sheets wb sheetName) m = Some r' ->
                       In d definitions -> rowMatches d r' = false)
    /\ (forall s' n', (s' < s)%nat -> nth_error names s' = Some n' ->
                      noHit (Sheets wb n')).
Proof.
  induction names as [|n rest IH]; [discriminate|].
  cbn [Router.scanSheets].
  assert (Hskip : Router.scanSheets h definitions wb rest = Some info ->
                  noHit (Sheets wb n) ->
                  exists s def r i j sheetName,
    info = Identified def (Router.trimmedRow h r) i sheetName (Sheets wb sheetName)
    /\ nth_error (n :: rest) s = Some sheetName
    /\ nth_error (Sheets wb sheetName) i = Some r
    /\ (i < Router.MAX_SEARCH_ROWS)%nat
    /\ nth_error definitions j = Some def
    /\ rowMatches def r = true
    /\ (forall j' d, (j' < j)%nat -> nth_error definitions j' = Some d ->
                     rowMatches d r = false)
    /\ (forall m r' d, (m < i)%nat -> nth_error (Sheets wb sheetName) m = Some r' ->
                       In d definitions -> rowMatches d r' = false)
    /\ (forall s' n', (s' < s)%nat -> nth_error (n :: rest) s' = Some n' ->
                      noHit (Sheets wb n'))).
  { intros E Hno.
    destruct (IH E) as (s & def & r & i & j & nm & H1 & H2 & H3 & H4 & H5 & H6 & H7 & H8 & H9).
    exists (S s), def, r, i, j, nm. repeat split; auto.
    intros [|s'] n' Hlt Hn'.
    - injection Hn' as <-. exact Hno.
    - apply (H9 s' n'); [lia | exact Hn']. }
  destruct (Sheets wb n) as [|r0 data] eqn:D.
  - intros E. apply Hskip; [exact E|]. intros [|m] r d Hn; discriminate.
  - destruct (Router.scanRows h definitions (r0 :: data) 0)
      as [[[def row] i]|] eqn:R.
    + intros E. injection E as <-.
      destruct (scanRows_some _ _ _ _ _ R)
        as (r & j & Hr & Hn & Hrow & Hj & Hp & Hmin & Hbefore).
      rewrite Nat.sub_0_r in *.
      exists O, def, r, i, j, n. rewrite D. subst row.
      repeat split; auto; try lia.
    + intros E. apply Hskip; [exact E|].
      intros m r d Hn Hlt Hd.
      apply (scanRows_none _ _ R m r d Hn); [lia | exact Hd].
Qed.

Lemma scanSheets_none wb names :
  Router.scanSheets h definitions wb names = None ->
  forall n, In n names -> noHit (Sheets wb n).
Proof.
  induction names as [|n0 rest IH]; intros E n Hin; [destruct Hin|].
  cbn [Router.scanSheets] in E.
  destruct (Sheets wb n0) as [|r0 data] eqn:D.
  - destruct Hin as [<-|Hin]; [|exact (IH E n Hin)].
    rewrite D. intros [|m] r d Hn; discriminate.
  - destruct (Router.scanRows h definitions (r0 :: data) 0)
      as [[[def row] i]|] eqn:R; [discriminate|].
    destruct Hin as [<-|Hin]; [|exact (IH E n Hin)].
    rewrite D. intros m r d Hn Hlt Hd.
    apply (scanRows_none _ _ R m r d Hn); [lia | exact Hd].
Qed.

End IdentifySpec.

(** C1: a successful identification returns the definition and header row
    of the first hit in sheet order, then row order within the first 500
    rows, then catalog order, a hit being a row that holds every signature
    keyword of the definition (both sides freed of white space, case kept)
    and has no fewer columns than the definition has keywords; and the
    identification succeeds exactly when there is a hit. *)
Theorem identify_first_match (h : Host) (definitions : list SourceDefinition)
    (filename : jstring) (wb : Workbook) :
  (forall def row i sheetName jsonData,
     Router.identifySource h definitions filename wb
       = Identified def row i sheetName jsonData ->
     exists s j r,
       nth_error (SheetNames wb) s = Some sheetName
       /\ jsonData = Sheets wb sheetName
       /\ nth_error jsonData i = Some r
       /\ row = Router.trimmedRow h r
       /\ nth_error definitions j = Some def
       /\ hit h definitions wb s i j
       /\ forall s' i' j', hit h definitions wb s' i' j' ->
                           precedes (s, i, j) (s', i', j'))
  /\ ((exists s i j, hit h definitions wb s i j) <->
      (exists def row i sheetName jsonData,
          Router.identifySource h definitions filename wb
            = Identified def row i sheetName jsonData)).
Proof.
  assert (Hsound : forall def row i sheetName jsonData,
     Router.identifySource h definitions filename wb
       = Identified def row i sheetName jsonData ->
     exists s j r,
       nth_error (SheetNames wb) s = Some sheetName
       /\ jsonData = Sheets wb sheetName
       /\ nth_error jsonData i = Some r
       /\ row = Router.trimmedRow h r
       /\ nth_error definitions j = Some def
       /\ hit h definitions wb s i j
       /\ forall s' i' j', hit h definitions wb s' i' j' ->
                           precedes (s, i, j) (s', i', j')).
  { intros def row i sheetName jsonData E. unfold Router.identifySource in E.
    destruct (Router.scanSheets h definitions wb (SheetNames wb)) as [info|] eqn:S;
      [|discriminate].
    subst info.
    destruct (scanSheets_some _ _ _ _ _ S)
      as (s & def0 & r & i0 & j & nm & H1 & H2 & H3 & H4 & H5 & H6 & H7 & H8 & H9).
    injection H1 as -> -> -> -> ->.
    change Router.MAX_SEARCH_ROWS with 500%nat in H4.
    exists s, j, r. repeat split; auto.
    - exists nm, r, def0. auto.
    - intros s' i' j' (nm' & r' & def' & G1 & G2 & G3 & G4 & G5).
      pose proof (nth_error_In _ _ G4) as Hin.
      unfold precedes.
      destruct (Nat.lt_trichotomy s' s) as [Hs|[Hs|Hs]]; [|subst s'|lia].
      + exfalso. pose proof (H9 s' nm' Hs G1 i' r' def' G2 G3 Hin) as C.
        congruence.
      + right. split; [reflexivity|].
        assert (nm' = nm) by congruence. subst nm'.
        destruct (Nat.lt_trichotomy i' i0) as [Hi|[Hi|Hi]]; [|subst i'|lia].
        * exfalso. pose proof (H8 i' r' def' Hi G2 Hin) as C. congruence.
        * right. split; [reflexivity|].
          assert (r' = r) by congruence. subst r'.
          destruct (Nat.le_gt_cases j j') as [Hj|Hj]; [exact Hj|].
          exfalso. pose proof (H7 j' def' Hj G4) as C. congruence. }
  split; [exact Hsound|]. split.
  - intros (s & i & j & nm & r & def & G1 & G2 & G3 & G4 & G5).
    unfold Router.identifySource.
    destruct (Router.scanSheets h definitions wb (SheetNames wb)) as [info|] eqn:S.
    + destruct (scanSheets_some _ _ _ _ _ S)
        as (s0 & def0 & r0 & i0 & j0 & nm0 & H1 & _).
      subst info. eauto 6.
    + exfalso.
      pose proof (scanSheets_none _ _ _ _ S nm (nth_error_In _ _ G1) i r def G2 G3
                                  (nth_error_In _ _ G4)) as C.
      congruence.
  - intros (def & row & i & nm & data & E).
    destruct (Hsound _ _ _ _ _ E) as (s & j & r & _ & _ & _ & _ & _ & Hh & _).
    eauto.
Qed.

(** A workbook with two sheets.  The first has no header.  In the second,
    below a title and a row without cells, row 2 is the header of a BC
    card statement, with a hole and spaces in its cells; it also holds the
    keywords of the definition that follows in the catalog; row 3 is the
    header of a KB card statement, first in the catalog. *)
Definition bcHeader : Row :=
  [ Some (VStr (js "승인일시")); None; Some (VStr (js "가맹점명"));
    Some (VStr (js " 승인 금액 ")); Some (VStr (js "거래일")) ].

Definition twoSheets : Workbook :=
  {| SheetNames := [js "요약"; js "내역"];
     Sheets := fun n =>
       if jeqb n (js "내역")
       then [ [Some (VStr (js "비씨카드 이용내역"))];
              [];
              bcHeader;
              [Some (VStr (js "이용일")); Some (VStr (js "이용하신곳"));
               Some (VStr (js "이용금액"))] ]
       else [ [Some (VStr (js "메모"))];
              [Some (VStr (js "가맹점명 금액"))] ] |}.

Definition bcDef : SourceDefinition := nth 1 Router.SOURCE_DEFINITIONS salaryDef.

Lemma identify_first_match_witness :
  exists s j r,
    nth_error (SheetNames twoSheets) s = Some (js "내역")
    /\ Sheets twoSheets (js "내역") = Sheets twoSheets (js "내역")
    /\ nth_error (Sheets twoSheets (js "내역")) 2 = Some r
    /\ [Some (js "승인일시"); None; Some (js "가맹점명"); Some (js "승인 금액");
        Some (js "거래일")]
       = Router.trimmedRow sampleHost r
    /\ nth_error Router.SOURCE_DEFINITIONS j = Some bcDef
    /\ hit sampleHost Router.SOURCE_DEFINITIONS twoSheets s 2 j
    /\ forall s' i' j', hit sampleHost Router.SOURCE_DEFINITIONS twoSheets s' i' j' ->
                        precedes (s, 2%nat, j) (s', i', j').
Proof.
  exact (proj1 (identify_first_match sampleHost Router.SOURCE_DEFINITIONS
                  (js "bc.xls") twoSheets)
               bcDef
               [Some (js "승인일시"); None; Some (js "가맹점명"); Some (js "승인 금액");
                Some (js "거래일")]
               2%nat (js "내역") (Sheets twoSheets (js "내역")) eq_refl).
Defined.

(** In that workbook the header found is a hit for the second and for the
    third definition of the catalog, and the row below it is a hit for the
    first: the row comes before the catalog. *)
Example two_sheets_hits :
  rowMatches sampleHost bcDef bcHeader = true
  /\ rowMatches sampleHost (nth 2 Router.SOURCE_DEFINITIONS salaryDef) bcHeader = true
  /\ rowMatches sampleHost kbDef
       [Some (VStr (js "이용일")); Some (VStr (js "이용하신곳"));
        Some (VStr (js "이용금액"))] = true.
Proof. repeat split; reflexivity. Qed.

(** A sheet with [n] rows without cells above a KB card header. *)
Definition deepSheet (n : nat) : Workbook :=
  {| SheetNames := [js "S"];
     Sheets := fun _ =>
       repeat [] n
       ++ [ [Some (VStr (js "이용일")); Some (VStr (js "이용하신곳"));
             Some (VStr (js "이용금액"))] ] |}.

(** The header is found as row 499, the last of the first 500 rows, and no
    longer as row 500. *)
Example search_depth :
  Router.identifySource sampleHost Router.SOURCE_DEFINITIONS (js "deep.xls")
                        (deepSheet 499)
    = Identified kbDef [Some (js "이용일"); Some (js "이용하신곳"); Some (js "이용금액")]
                 499 (js "S") (Sheets (deepSheet 499) (js "S"))
  /\ Router.identifySource sampleHost Router.SOURCE_DEFINITIONS (js "deep.xls")
                           (deepSheet 500)
    = Unidentified [].
Proof. split; vm_compute; reflexivity. Qed.

(** A two-column row that holds the three keywords of the first definition
    in one cell is passed over for that definition only: the scan goes on
    with the next definition on the same row. *)
Definition threeWords : SourceDefinition :=
  {| type := js "a"; name := js "A";
     signatures := [js "이용일"; js "이용하신곳"; js "이용금액"];
     mapping := Router.cardMapping FUndef FUndef FUndef FUndef FUndef |}.

Definition oneWord : SourceDefinition :=
  {| type := js "b"; name := js "B"; signatures := [js "이용 금액"];
     mapping := Router.cardMapping FUndef FUndef FUndef FUndef FUndef |}.

Example short_row_next_definition :
  Router.scanDefs [threeWords; oneWord]
                  [Some (js "이용일 이용하신곳 이용금액"); None]
                  [Some (js "이용일이용하신곳이용금액"); None]
  = Some oneWord.
Proof. reflexivity. Qed.

(* --------------------------------------------------------------------- *)
(** ** The failure path                                                   *)
(* --------------------------------------------------------------------- *)

(** A workbook whose only sheet starts with a row without cells. *)
Definition blankFirstRow : Workbook :=
  {| SheetNames := [js "Sheet1"];
     Sheets := fun _ => [ []; [Some (VStr (js "메모")); Some (VStr (js "비고"))] ] |}.

(** An unidentified workbook never reaches a normalizer: the outcome is the
    failure entry carrying the probe. *)
Lemma processFile_unidentified h uuid definitions rules now filename wb probe :
  Router.identifySource h definitions filename wb = Unidentified probe ->
  Processor.processFile h uuid definitions rules now filename wb
  = Processor.Failed filename (js "식별 실패. 헤더: [" ++ probe ++ js "]").
Proof. intros E. unfold Processor.processFile. rewrite E. reflexivity. Qed.

(** C8 at a workbook whose first row has no cells: no signature matches,
    and the probe is the empty string, not the marker. *)
Theorem debugProbe_blank_first_row :
  Router.identifySource sampleHost Router.SOURCE_DEFINITIONS (js "memo.xls")
                        blankFirstRow
    = Unidentified []
  /\ Processor.processFile sampleHost sampleUUID Router.SOURCE_DEFINITIONS None 0
                           (js "memo.xls") blankFirstRow
    = Processor.Failed (js "memo.xls") (js "식별 실패. 헤더: []")
  /\ Router.debugProbe sampleHost
       {| SheetNames := []; Sheets := fun _ => [] |} = js "EMPTY".
Proof. repeat split; reflexivity. Qed.

(* --------------------------------------------------------------------- *)
(** ** Workbooks without data                                             *)
(* --------------------------------------------------------------------- *)

Lemma scanSheets_empty h definitions wb names :
  (forall n, In n names -> Sheets wb n = []) ->
  Router.scanSheets h definitions wb names = None.
Proof.
  induction names as [|n rest IH]; intros H; [reflexivity|].
  cbn [Router.scanSheets]. rewrite (H n (or_introl eq_refl)).
  apply IH. intros m Hm. apply H. right. exact Hm.
Qed.

(** A workbook without sheets, or whose sheets all have no rows, is never
    identified, whatever the catalog: the run ends with the failure entry
    whose probe is the marker. *)
Theorem empty_workbook_fails (h : Host) (uuid : nat -> jstring)
    (definitions : list SourceDefinition) (rules : option (list Rule)) (now : Z)
    (filename : jstring) (wb : Workbook) :
  (forall n, In n (SheetNames wb) -> Sheets wb n = []) ->
  Router.identifySource h definitions filename wb = Unidentified (js "EMPTY")
  /\ Processor.processFile h uuid definitions rules now filename wb
     = Processor.Failed filename (js "식별 실패. 헤더: [EMPTY]").
Proof.
  intros H.
  assert (E : Router.identifySource h definitions filename wb
              = Unidentified (js "EMPTY")).
  { unfold Router.identifySource. rewrite (scanSheets_empty _ _ _ _ H).
    unfold Router.debugProbe. destruct (SheetNames wb) as [|n rest]; [reflexivity|].
    rewrite (H n (or_introl eq_refl)). reflexivity. }
  split; [exact E|]. unfold Processor.processFile. rewrite E. reflexivity.
Qed.

Lemma empty_workbook_fails_witness :
  Router.identifySource sampleHost Router.SOURCE_DEFINITIONS (js "x.xls")
    {| SheetNames := [js "A"; js "B"]; Sheets := fun _ => [] |}
    = Unidentified (js "EMPTY")
  /\ Processor.processFile sampleHost sampleUUID Router.SOURCE_DEFINITIONS None 0
       (js "x.xls") {| SheetNames := [js "A"; js "B"]; Sheets := fun _ => [] |}
     = Processor.Failed (js "x.xls") (js "식별 실패. 헤더: [EMPTY]").
Proof.
  apply empty_workbook_fails. intros n _. reflexivity.
Defined.

(* --------------------------------------------------------------------- *)
(** ** Matching does not depend on spacing or on further columns          *)
(* --------------------------------------------------------------------- *)

Lemma filter_dropWhile {A} (p q : A -> bool) l :
  (forall x, q x = true -> p x = false) -> filter p (dropWhile q l) = filter p l.
Proof.
  intros H. induction l as [|x r IH]; [reflexivity|]. cbn.
  destruct (q x) eqn:Q; [rewrite (H x Q); exact IH | reflexivity].
Qed.

Lemma filter_rev_comm {A} (p : A -> bool) l : filter p (rev l) = rev (filter p l).
Proof.
  induction l as [|x r IH]; [reflexivity|]. cbn. rewrite filter_app, IH. cbn.
  destruct (p x); [reflexivity | rewrite app_nil_r; reflexivity].
Qed.

(** Trimming only removes white space. *)
Lemma stripSpaces_trim s : stripSpaces (trim s) = stripSpaces s.
Proof.
  unfold stripSpaces, trim.
  assert (H : forall x, isSpace x = true -> negb (isSpace x) = false)
    by (intros x ->; reflexivity).
  rewrite filter_rev_comm, (filter_dropWhile _ isSpace _ H), filter_rev_comm,
    rev_involutive.
  apply (filter_dropWhile _ isSpace _ H).
Qed.

(** A row of text cells. *)
Definition textRow (s : list jstring) : Row := map (fun x => Some (VStr x)) s.

Lemma rowMatches_spacing h def s s' :
  Forall2 (fun a b => stripSpaces a = stripSpaces b) s s' ->
  rowMatches h def (textRow s) = rowMatches h def (textRow s').
Proof.
  intros H.
  assert (Ht : forall x, cellText h (VStr x) = stripSpaces x).
  { intros x. unfold cellText. destruct x as [|c x]; [reflexivity|].
    cbn [truthy toString]. apply stripSpaces_trim. }
  unfold rowMatches. f_equal.
  - apply forallb_pointwise. intros sig.
    induction H as [|a b s s' Hab _ IH]; [reflexivity|].
    cbn [textRow map existsb]. rewrite !Ht, Hab. f_equal. exact IH.
  - f_equal. unfold textRow. rewrite !length_map. apply (Forall2_length H).
Qed.

Lemma rowMatches_columns h def r before after :
  rowMatches h def r = true -> rowMatches h def (before ++ r ++ after) = true.
Proof.
  unfold rowMatches. intros H. apply andb_true_iff in H as [H1 H2].
  apply andb_true_iff. split.
  - rewrite forallb_forall in *. intros sig Hs. specialize (H1 sig Hs).
    rewrite !existsb_app, H1, orb_true_r. reflexivity.
  - apply Nat.leb_le in H2. apply Nat.leb_le. rewrite !length_app. lia.
Qed.

(** The loop over the definitions, on a raw row as the row loop calls it. *)
Definition matchRow (h : Host) (defs : list SourceDefinition) (r : Row)
  : option SourceDefinition :=
  Router.scanDefs defs (Router.trimmedRow h r)
                  (amap stripSpaces (Router.trimmedRow h r)).

(** The definition found for a row of text cells depends on the cells only
    through their content freed of white space; and a row for which a
    definition is found still gets one, the same or an earlier one, when
    columns, blank or filled, are added on either side. *)
Theorem matchRow_spacing_columns (h : Host) (defs : list SourceDefinition)
    (r before after : Row) (s s' : list jstring) :
  (Forall2 (fun a b => stripSpaces a = stripSpaces b) s s' ->
   matchRow h defs (textRow s) = matchRow h defs (textRow s'))
  /\ (forall d, matchRow h defs r = Some d ->
        exists d' j j',
          matchRow h defs (before ++ r ++ after) = Some d'
          /\ nth_error defs j = Some d /\ nth_error defs j' = Some d'
          /\ (j' <= j)%nat).
Proof.
  unfold matchRow. rewrite !scanDefs_find. split.
  - intros H. apply find_pointwise. intros def. apply rowMatches_spacing, H.
  - intros d Hd.
    destruct (find_first _ _ _ Hd) as (j & Hj & Hp & _).
    pose proof (rowMatches_columns h d r before after Hp) as Hp'.
    destruct (find (fun def => rowMatches h def (before ++ r ++ after)) defs)
      as [d'|] eqn:F.
    + destruct (find_first _ _ _ F) as (j' & Hj' & _ & Hmin).
      exists d', j, j'. repeat split; try assumption.
      destruct (Nat.le_gt_cases j' j) as [L|L]; [exact L|].
      pose proof (Hmin j d L Hj) as C. cbv beta in C. congruence.
    + pose proof (find_none _ _ F d (nth_error_In _ _ Hj)) as C. cbv beta in C.
      congruence.
Qed.

Lemma matchRow_spacing_columns_witness :
  matchRow sampleHost Router.SOURCE_DEFINITIONS
           (textRow [js " 이용 일"; js "이용하신곳"; js "이용금액(원)"])
  = matchRow sampleHost Router.SOURCE_DEFINITIONS
             (textRow [js "이용일"; js "이용 하신 곳"; js "이용금액 (원)"])
  /\ exists d' j j',
       matchRow sampleHost Router.SOURCE_DEFINITIONS
                ([Some (VNum (ofZ 1)); None]
                   ++ textRow [js "거래일"; js "가맹점명"; js "금액"] ++ [Some VUndef])
         = Some d'
       /\ nth_error Router.SOURCE_DEFINITIONS j
          = Some (nth 2 Router.SOURCE_DEFINITIONS salaryDef)
       /\ nth_error Router.SOURCE_DEFINITIONS j' = Some d'
       /\ (j' <= j)%nat.
Proof.
  destruct (matchRow_spacing_columns sampleHost Router.SOURCE_DEFINITIONS
              (textRow [js "거래일"; js "가맹점명"; js "금액"])
              [Some (VNum (ofZ 1)); None] [Some VUndef]
              [js " 이용 일"; js "이용하신곳"; js "이용금액(원)"]
              [js "이용일"; js "이용 하신 곳"; js "이용금액 (원)"]) as [H1 H2].
  split; [apply H1; repeat constructor | apply H2; reflexivity].
Defined.

(* --------------------------------------------------------------------- *)
(** ** The catalog of router.js                                           *)
(* --------------------------------------------------------------------- *)

(** No definition of the catalog is shadowed by an earlier one: a sheet
    whose first row consists of the signature keywords of a definition is
    identified as that definition, with that row as header, whatever rows
    follow, although keywords of one definition occur inside keywords of
    others. *)
Theorem catalog_reachable (h : Host) (d : SourceDefinition) (filename sheetName : jstring)
    (rest : list Row) :
  In d Router.SOURCE_DEFINITIONS ->
  Router.identifySource h Router.SOURCE_DEFINITIONS filename
    {| SheetNames := [sheetName];
       Sheets := fun _ => textRow (signatures d) :: rest |}
  = Identified d (map Some (signatures d)) 0 sheetName
               (textRow (signatures d) :: rest).
Proof.
  intros Hin. cbn [Router.SOURCE_DEFINITIONS In] in Hin.
  repeat (destruct Hin as [<-|Hin]; [reflexivity|]). destruct Hin.
Qed.

Lemma catalog_reachable_witness :
  Router.identifySource sampleHost Router.SOURCE_DEFINITIONS (js "c.xls")
    {| SheetNames := [js "S"];
       Sheets := fun _ =>
         textRow (signatures (nth 5 Router.SOURCE_DEFINITIONS salaryDef)) :: [] |}
  = Identified (nth 5 Router.SOURCE_DEFINITIONS salaryDef)
               (map Some (signatures (nth 5 Router.SOURCE_DEFINITIONS salaryDef)))
               0 (js "S")
               (textRow (signatures (nth 5 Router.SOURCE_DEFINITIONS salaryDef)) :: []).
Proof.
  apply catalog_reachable. do 5 right. left. reflexivity.
Defined.
(* --------------------------------------------------------------------- *)
(** ** Termination of the HTML repair loop                                *)
(* --------------------------------------------------------------------- *)

Local Open Scope nat_scope.

Lemma replaceAll_cons stop c r :
  replaceAll stop (c :: r) =
  match matchAt stop (c :: r) with
  | Some n => firstn n (c :: r) ++ js "</td>"
                ++ firstn (List.length stop) (skipn n (c :: r))
                ++ replaceAll stop (skipn (n + List.length stop) (c :: r))
  | None => c :: replaceAll stop r
  end.
Proof.
  rewrite replaceAll_equation_2.
  destruct (inspect (matchAt stop (c :: r))) as [o e].
  destruct o; cbn [replaceAll_unfold_clause_2]; rewrite e; reflexivity.
Qed.

(** A scanner over the code units of a text.  Its mode records whether an
    opening [<td] is pending with no [>] met yet ([MOpen]), or was closed by
    a [>] with no [<] met since ([MClosed]); [live] counts the [<td] read in
    mode [MClosed], which are the places where the pattern of the loop can
    still insert a closing tag. *)

Inductive Mode := MNone | MOpen | MClosed.

Record Scan := { mode : Mode; pending : option (Mode * bool); live : nat }.

Definition afterLt (m : Mode) : Mode := match m with MClosed => MNone | _ => m end.
Definition afterGt (m : Mode) : Mode := match m with MOpen => MClosed | _ => m end.
Definition isT (c : N) : bool := (canon c =? 84)%N.
Definition isD (c : N) : bool := (canon c =? 68)%N.

Definition plain (st : Scan) (c : N) : Scan :=
  if isLt c then
    {| mode := afterLt (mode st); pending := Some (mode st, false); live := live st |}
  else if isGt c then
    {| mode := afterGt (mode st); pending := None; live := live st |}
  else {| mode := mode st; pending := None; live := live st |}.

Definition step (st : Scan) (c : N) : Scan :=
  match pending st with
  | Some (m, false) =>
    if isT c then {| mode := mode st; pending := Some (m, true); live := live st |}
    else plain st c
  | Some (m, true) =>
    if isD c then
      {| mode := MOpen; pending := None;
         live := live st + match m with MClosed => 1 | _ => 0 end |}
    else plain st c
  | None => plain st c
  end.

Definition run (st : Scan) (s : jstring) : Scan := fold_left step s st.

Definition start : Scan := {| mode := MNone; pending := None; live := 0 |}.

Definition openCells (s : jstring) : nat := live (run start s).

Definition bump (k : nat) (st : Scan) : Scan :=
  {| mode := mode st; pending := pending st; live := live st + k |}.

Lemma step_bump k st c : step (bump k st) c = bump k (step st c).
Proof.
  destruct st as [m p l]. unfold step, plain, bump. cbn.
  destruct p as [[m0 [|]]|]; cbn.
  - destruct (isD c); cbn; [f_equal; lia|].
    destruct (isLt c); [reflexivity|]. destruct (isGt c); reflexivity.
  - destruct (isT c); cbn; [reflexivity|].
    destruct (isLt c); [reflexivity|]. destruct (isGt c); reflexivity.
  - destruct (isLt c); [reflexivity|]. destruct (isGt c); reflexivity.
Qed.

Lemma run_bump k s : forall st, run (bump k st) s = bump k (run st s).
Proof.
  induction s as [|c r IH]; intros st; [reflexivity|].
  cbn [run fold_left]. rewrite step_bump. apply IH.
Qed.

Lemma run_app st s t : run st (s ++ t) = run (run st s) t.
Proof. apply fold_left_app. Qed.

Lemma canon_ascii c p :
  (p < 97)%N -> (p < 65 \/ 90 < p)%N -> (canon c =? canon p)%N = true -> c = p.
Proof.
  intros Hp Hq. unfold canon.
  destruct ((97 <=? p) && (p <=? 122))%N eqn:E.
  { apply andb_true_iff in E as [E _]. apply N.leb_le in E. lia. }
  destruct ((97 <=? c) && (c <=? 122))%N eqn:F; intros H; apply N.eqb_eq in H.
  - apply andb_true_iff in F as [F1 F2]. apply N.leb_le in F1, F2. lia.
  - exact H.
Qed.

(** The opening tag, in any letter case. *)
Definition isTd (x : jstring) : Prop :=
  exists c2 c3, x = [60%N; c2; c3] /\ isT c2 = true /\ isD c3 = true.

Lemma startsWithCI_td s :
  startsWithCI s (js "<td") = true -> isTd (firstn 3 s) /\ s = firstn 3 s ++ skipn 3 s
                                      /\ List.length (firstn 3 s) = 3.
Proof.
  destruct s as [|c1 [|c2 [|c3 r]]]; cbn [startsWithCI js]; try discriminate.
  - cbn. rewrite andb_false_r. discriminate.
  - cbn. rewrite !andb_false_r. discriminate.
  - intros H. cbn in H. apply andb_true_iff in H as [H1 H].
    apply andb_true_iff in H as [H2 H]. apply andb_true_iff in H as [H3 _].
    apply (canon_ascii c1 60) in H1; [|lia|lia]. subst c1.
    repeat split. exists c2, c3. repeat split; assumption.
Qed.

Lemma run_td st x :
  isTd x ->
  run st x = {| mode := MOpen; pending := None;
                live := live st + match mode st with MClosed => 1 | _ => 0 end |}.
Proof.
  intros (c2 & c3 & -> & H2 & H3). destruct st as [m p l].
  cbn [run fold_left].
  assert (E1 : step {| mode := m; pending := p; live := l |} 60
               = {| mode := afterLt m; pending := Some (m, false); live := l |}).
  { unfold step. cbn. destruct p as [[m0 [|]]|]; reflexivity. }
  rewrite E1. unfold step at 2. cbn. rewrite H2. unfold step. cbn. rewrite H3.
  reflexivity.
Qed.

Definition openInv (st : Scan) : Prop :=
  mode st = MOpen /\ match pending st with
                     | None => True
                     | Some (m, _) => m = MOpen
                     end.

Lemma step_open st c :
  openInv st -> isGt c = false ->
  openInv (step st c) /\ live (step st c) = live st.
Proof.
  destruct st as [m p l]. intros [Hm Hp] Hc. cbn in Hm, Hp. subst m.
  unfold step, plain. cbn. rewrite Hc.
  destruct p as [[m0 [|]]|]; cbn; subst;
    repeat match goal with
           | |- context [if ?b then _ else _] => destruct b; cbn
           end;
    unfold openInv; cbn; repeat split; auto; lia.
Qed.

Lemma run_open a : forall st,
  openInv st -> Forall (fun c => isGt c = false) a ->
  openInv (run st a) /\ live (run st a) = live st.
Proof.
  induction a as [|c r IH]; intros st Hi Ha; [split; [exact Hi | reflexivity]|].
  inversion Ha as [|? ? Hc Hr]; subst.
  destruct (step_open st c Hi Hc) as [Hi' Hl'].
  cbn [run fold_left]. destruct (IH (step st c) Hi' Hr) as [H1 H2].
  split; [exact H1 | fold (run (step st c) r); unfold run in H2 |- *; congruence].
Qed.

Lemma step_gt st :
  openInv st -> step st 62 = {| mode := MClosed; pending := None; live := live st |}.
Proof.
  destruct st as [m p l]. intros [Hm Hp]. cbn in Hm, Hp. subst m.
  unfold step. cbn. destruct p as [[m0 [|]]|]; reflexivity.
Qed.

Lemma run_closed b : forall l,
  Forall (fun c => isLt c = false) b ->
  run {| mode := MClosed; pending := None; live := l |} b
  = {| mode := MClosed; pending := None; live := l |}.
Proof.
  induction b as [|c r IH]; intros l Hb; [reflexivity|].
  inversion Hb as [|? ? Hc Hr]; subst. cbn [run fold_left].
  assert (E : step {| mode := MClosed; pending := None; live := l |} c
              = {| mode := MClosed; pending := None; live := l |}).
  { unfold step, plain. cbn. rewrite Hc. destruct (isGt c); reflexivity. }
  rewrite E. apply IH. exact Hr.
Qed.

Lemma run_close_tag l :
  run {| mode := MClosed; pending := None; live := l |} (js "</td>")
  = {| mode := MNone; pending := None; live := l |}.
Proof. reflexivity. Qed.

Lemma indexWhere_split p s a :
  indexWhere p s = Some a ->
  exists c, s = firstn a s ++ c :: skipn (S a) s /\ p c = true
            /\ Forall (fun c => p c = false) (firstn a s)
            /\ List.length (firstn a s) = a.
Proof.
  revert a. induction s as [|c r IH]; intros a; [discriminate|].
  cbn [indexWhere]. destruct (p c) eqn:Pc.
  - intros E. injection E as <-. exists c. repeat split; [exact Pc | constructor].
  - destruct (indexWhere p r) as [a0|]; [|discriminate].
    intros E. injection E as <-.
    destruct (IH a0 eq_refl) as (c' & H1 & H2 & H3 & H4).
    exists c'. cbn [firstn skipn app List.length].
    repeat split; [f_equal; exact H1 | exact H2 | constructor; assumption | f_equal; exact H4].
Qed.

Lemma firstn_exact {A} (p r : list A) : firstn (List.length p) (p ++ r) = p.
Proof. induction p as [|x p IH]; [reflexivity|]. cbn. f_equal. exact IH. Qed.

Lemma skipn_exact {A} (p r : list A) : skipn (List.length p) (p ++ r) = r.
Proof. induction p as [|x p IH]; [reflexivity|]. cbn. exact IH. Qed.

Lemma isGt_eq c : isGt c = true -> c = 62%N.
Proof. apply N.eqb_eq. Qed.

Lemma matchAt_split stop s n :
  matchAt stop s = Some n ->
  exists x a b rest,
    s = (x ++ a ++ [62%N] ++ b) ++ rest
    /\ n = List.length (x ++ a ++ [62%N] ++ b)
    /\ isTd x
    /\ Forall (fun c => isGt c = false) a
    /\ Forall (fun c => isLt c = false) b
    /\ startsWithCI rest stop = true.
Proof.
  unfold matchAt. destruct (startsWithCI s (js "<td")) eqn:Td; [|discriminate].
  destruct (startsWithCI_td s Td) as (Hx & Hs & Hlx).
  destruct (indexWhere isGt (skipn 3 s)) as [a0|] eqn:Ia; [|discriminate].
  destruct (indexWhere_split _ _ _ Ia) as (c & Ha & Hc & HA & HlA).
  apply isGt_eq in Hc. subst c.
  replace (3 + a0 + 1)%nat with (S a0 + 3)%nat by lia.
  rewrite <- skipn_skipn.
  set (r1 := skipn (S a0) (skipn 3 s)) in *.
  destruct (indexWhere isLt r1) as [b0|] eqn:Ib; [|discriminate].
  destruct (indexWhere_split _ _ _ Ib) as (c' & _ & _ & HB & HlB).
  rewrite Nat.add_comm, <- skipn_skipn.
  replace (skipn (S a0 + 3) s) with r1 by (subst r1; apply skipn_skipn).
  destruct (startsWithCI (skipn b0 r1) stop) eqn:St; [|discriminate].
  intros E. injection E as <-.
  exists (firstn 3 s), (firstn a0 (skipn 3 s)), (firstn b0 r1), (skipn b0 r1).
  repeat split; try assumption.
  - rewrite <- !app_assoc. rewrite (firstn_skipn b0 r1).
    cbn [app]. rewrite <- Ha. exact Hs.
  - rewrite !length_app, Hlx, HlA, HlB. cbn [List.length]. lia.
Qed.

Lemma run_prefix st x a b :
  isTd x -> Forall (fun c => isGt c = false) a -> Forall (fun c => isLt c = false) b ->
  exists l, run st (x ++ a ++ [62%N] ++ b)
            = {| mode := MClosed; pending := None; live := l |}.
Proof.
  intros Hx Ha Hb. rewrite !run_app, (run_td st x Hx).
  set (st1 := {| mode := MOpen; pending := None; live := _ |}).
  assert (Hi : openInv st1) by (split; [reflexivity | exact I]).
  destruct (run_open a st1 Hi Ha) as [Hi2 _].
  change (run (run st1 a) [62%N]) with (step (run st1 a) 62).
  rewrite (step_gt _ Hi2). eexists. apply run_closed. exact Hb.
Qed.

(** One pass leaves the scanner in the same control state and trades each
    inserted closing tag for one open cell. *)
Lemma tdPass_scan len : forall s, (List.length s <= len)%nat -> forall st,
  mode (run st (tdPass s)) = mode (run st s)
  /\ pending (run st (tdPass s)) = pending (run st s)
  /\ (live (run st (tdPass s)) <= live (run st s))%nat
  /\ (5 * live (run st s) + List.length s
      = 5 * live (run st (tdPass s)) + List.length (tdPass s))%nat.
Proof.
  induction len as [|len IH]; intros s Hlen st.
  { destruct s; [|cbn in Hlen; lia]. unfold tdPass. rewrite replaceAll_equation_1.
    repeat split; lia. }
  destruct s as [|c r].
  { unfold tdPass. rewrite replaceAll_equation_1. repeat split; lia. }
  unfold tdPass. rewrite replaceAll_cons. fold tdPass.
  destruct (matchAt (js "<td") (c :: r)) as [n|] eqn:M.
  - destruct (matchAt_split _ _ _ M) as (x & a & b & rest & Hs & Hn & Hx & Ha & Hb & Hr).
    destruct (startsWithCI_td rest Hr) as (Hy & Hrest & Hly).
    set (P := x ++ a ++ [62%N] ++ b) in *.
    set (y := firstn 3 rest) in *. set (rest' := skipn 3 rest) in *.
    assert (E1 : firstn n (c :: r) = P) by (rewrite Hs, Hn; apply firstn_exact).
    assert (E2 : skipn n (c :: r) = rest) by (rewrite Hs, Hn; apply skipn_exact).
    assert (E3 : skipn (n + List.length (js "<td")) (c :: r) = rest').
    { rewrite Nat.add_comm, <- skipn_skipn, E2. reflexivity. }
    rewrite E1, E2, E3. change (firstn (List.length (js "<td")) rest) with y.
    assert (Hlr : (List.length rest' <= len)%nat).
    { assert (L : List.length (c :: r) = (List.length P + (3 + List.length rest'))%nat).
      { rewrite Hs, Hrest at 1. rewrite !length_app. fold y rest'. rewrite Hly. reflexivity. }
      lia. }
    destruct (run_prefix st x a b Hx Ha Hb) as [l0 HP]. fold P in HP.
    assert (Eo : run st (c :: r)
                 = bump 1 (run {| mode := MOpen; pending := None; live := l0 + 0 |} rest')).
    { rewrite Hs, Hrest. fold y rest'. rewrite !run_app, HP, (run_td _ y Hy).
      cbn [mode live]. replace (l0 + 1)%nat with (l0 + 0 + 1)%nat by lia.
      apply (run_bump 1 rest' {| mode := MOpen; pending := None; live := l0 + 0 |}). }
    assert (En : run st (P ++ js "</td>" ++ y ++ tdPass rest')
                 = run {| mode := MOpen; pending := None; live := l0 + 0 |} (tdPass rest')).
    { rewrite !run_app, HP, run_close_tag, (run_td _ y Hy). reflexivity. }
    rewrite Eo, En.
    destruct (IH rest' Hlr {| mode := MOpen; pending := None; live := l0 + 0 |})
      as (I1 & I2 & I3 & I4).
    unfold bump. cbn [mode pending live].
    repeat split; try assumption; try lia.
    assert (L : List.length (c :: r) = (List.length P + (3 + List.length rest'))%nat).
    { rewrite Hs, Hrest at 1. rewrite !length_app. fold y rest'. rewrite Hly. reflexivity. }
    rewrite L, !length_app. fold y. rewrite Hly.
    change (List.length (js "</td>")) with 5%nat. lia.
  - cbn [run fold_left]. cbn in Hlen.
    destruct (IH r ltac:(lia) (step st c)) as (I1 & I2 & I3 & I4).
    unfold run in *. repeat split; try assumption. cbn [List.length]. lia.
Qed.

Lemma tdPass_length s :
  (5 * openCells s + List.length s
   = 5 * openCells (tdPass s) + List.length (tdPass s))%nat
  /\ (openCells (tdPass s) <= openCells s)%nat.
Proof.
  destruct (tdPass_scan (List.length s) s (le_n _) start) as (_ & _ & H3 & H4).
  split; [exact H4 | exact H3].
Qed.

(** A pass that keeps the length has replaced nothing. *)
Lemma tdPass_fixed len : forall s, (List.length s <= len)%nat ->
  List.length (tdPass s) = List.length s -> tdPass s = s.
Proof.
  induction len as [|len IH]; intros s Hlen.
  { destruct s; [|cbn in Hlen; lia]. intros _. apply replaceAll_equation_1. }
  destruct s as [|c r]; [intros _; apply replaceAll_equation_1|].
  unfold tdPass. rewrite replaceAll_cons. fold tdPass.
  destruct (matchAt (js "<td") (c :: r)) as [n|] eqn:M.
  - intros E. exfalso. rewrite !length_app in E.
    change (List.length (js "</td>")) with 5%nat in E.
    pose proof (proj1 (tdPass_length (skipn (n + List.length (js "<td")) (c :: r)))) as L1.
    pose proof (proj2 (tdPass_length (skipn (n + List.length (js "<td")) (c :: r)))) as L2.
    assert (L3 : List.length (c :: r)
                 = (List.length (firstn n (c :: r))
                    + (List.length (firstn (List.length (js "<td")) (skipn n (c :: r)))
                       + List.length (skipn (n + List.length (js "<td")) (c :: r))))%nat).
    { rewrite <- (firstn_skipn n (c :: r)) at 1. rewrite length_app. f_equal.
      rewrite <- (firstn_skipn (List.length (js "<td")) (skipn n (c :: r))) at 1.
      rewrite length_app, skipn_skipn. f_equal. f_equal. f_equal. lia. }
    lia.
  - intros E. cbn [List.length] in E, Hlen. f_equal. apply IH; lia.
Qed.

Lemma tdLoop_from m : forall s, (openCells s <= m)%nat ->
  exists r, tdPass r = r /\
            forall fuel, (S m <= fuel)%nat ->
                         tdLoop fuel (List.length s) (tdPass s) = Some r.
Proof.
  induction m as [|m IH]; intros s Hm.
  - destruct (tdPass_length s) as [L1 L2].
    assert (E : List.length (tdPass s) = List.length s) by lia.
    pose proof (tdPass_fixed _ s (le_n _) E) as F.
    exists (tdPass s). split; [rewrite F at 1 2; exact F|].
    intros [|f] Hf; [lia|]. cbn [tdLoop]. rewrite E, Nat.eqb_refl. reflexivity.
  - destruct (Nat.eq_dec (List.length (tdPass s)) (List.length s)) as [E|E].
    + pose proof (tdPass_fixed _ s (le_n _) E) as F.
      exists (tdPass s). split; [rewrite F at 1 2; exact F|].
      intros [|f] Hf; [lia|]. cbn [tdLoop]. rewrite E, Nat.eqb_refl. reflexivity.
    + destruct (tdPass_length s) as [L1 L2].
      destruct (IH (tdPass s) ltac:(lia)) as (r & Hr & Hloop).
      exists r. split; [exact Hr|].
      intros [|f] Hf; [lia|]. cbn [tdLoop].
      apply Nat.eqb_neq in E. rewrite E. apply Hloop. lia.
Qed.

(** C9: the loop of the repair filter is left after at most
    [openCells fullText + 2] tests of its condition, whatever the text, with
    a text that a further pass leaves unchanged; so the filter returns a
    byte sequence for every byte sequence it is given. *)
Theorem tdLoop_terminates (fullText : jstring) :
  exists fixed,
    tdPass fixed = fixed
    /\ forall fuel, (openCells fullText + 2 <= fuel)%nat ->
         tdLoop fuel 0 fullText = Some fixed
         /\ forall data filename, utf8Decode data = fullText ->
              preprocessHtmlIfNeeded fuel data filename <> None.
Proof.
  assert (H : exists fixed, tdPass fixed = fixed
              /\ forall fuel, (openCells fullText + 2 <= fuel)%nat ->
                              tdLoop fuel 0 fullText = Some fixed).
  { destruct fullText as [|c r].
    - exists []. split; [apply replaceAll_equation_1|].
      intros [|f] Hf; [lia | reflexivity].
    - destruct (tdLoop_from (openCells (c :: r)) (c :: r) (le_n _)) as (x & Hx & Hloop).
      exists x. split; [exact Hx|].
      intros [|f] Hf; [lia|]. cbn [tdLoop List.length Nat.eqb]. apply Hloop. lia. }
  destruct H as (fixed & Hfix & Hloop). exists fixed. split; [exact Hfix|].
  intros fuel Hf. split; [apply Hloop, Hf|].
  intros data filename Hd. unfold preprocessHtmlIfNeeded.
  destruct (negb _ && negb _); [discriminate|].
  rewrite Hd, (Hloop fuel Hf). discriminate.
Qed.

(** The bytes of an ASCII text. *)
Definition bytesOf (s : string) : list byte := map byte_of_ascii (list_ascii_of_string s).

Lemma tdLoop_terminates_witness :
  exists fixed,
    tdLoop 4 0 (js "<td>a<td>b<TD>c</tr>") = Some fixed /\ tdPass fixed = fixed
    /\ preprocessHtmlIfNeeded 4 (bytesOf "<td>a<td>b<TD>c</tr>") [] <> None.
Proof.
  destruct (tdLoop_terminates (js "<td>a<td>b<TD>c</tr>")) as (fixed & Hfix & Hloop).
  exists fixed.
  destruct (Hloop 4%nat ltac:(vm_compute; lia)) as [H1 H2].
  split; [exact H1|]. split; [exact Hfix|].
  apply H2. reflexivity.
Defined.

Example repair_sample :
  preprocessHtmlIfNeeded 4 (bytesOf "<table><td>a<td>b<TD>c</tr>") []
  = Some (bytesOf "<table><td>a</td><td>b</td><TD>c</td></tr>")
  /\ preprocessHtmlIfNeeded 4 (bytesOf "a,b<td>c<td>") [] = Some (bytesOf "a,b<td>c<td>").
Proof. split; reflexivity. Qed.

(** What the decoder and the encoder do to the bytes on the way: a byte
    order mark is dropped, a byte that is not UTF-8 comes back as the three
    bytes of U+FFFD, and so does a sequence cut short by the end. *)
Example decode_encode_sample :
  utf8Encode (utf8Decode [xef; xbb; xbf; x41; xff; xe3; x81])
  = [x41; xef; xbf; xbd; xef; xbf; xbd]
  /\ utf8Decode (utf8Encode (js "합계 𝄞")) = js "합계 𝄞".
Proof. split; reflexivity. Qed.

(* --------------------------------------------------------------------- *)
(** ** The repair filter only inserts closing tags                        *)
(* --------------------------------------------------------------------- *)

(** [Inserted tag s t]: [t] is [s] with finitely many copies of [tag] put
    in; no element of [s] is removed, changed or moved. *)
Inductive Inserted {A} (tag : list A) : list A -> list A -> Prop :=
| Inserted_refl s : Inserted tag s s
| Inserted_step s p q : Inserted tag s (p ++ q) -> Inserted tag s (p ++ tag ++ q).

Lemma Inserted_trans {A} (tag : list A) a b c :
  Inserted tag a b -> Inserted tag b c -> Inserted tag a c.
Proof. intros Hab Hbc. induction Hbc; [exact Hab | constructor; auto]. Qed.

Lemma Inserted_prefix {A} (tag : list A) x s t :
  Inserted tag s t -> Inserted tag (x ++ s) (x ++ t).
Proof.
  induction 1 as [s|s p q _ IH]; [constructor|].
  rewrite app_assoc. constructor. rewrite <- app_assoc. exact IH.
Qed.

Lemma Inserted_length {A} (tag : list A) s t :
  Inserted tag s t ->
  exists k, List.length t = (List.length s + List.length tag * k)%nat.
Proof.
  induction 1 as [s|s p q _ [k IH]]; [exists O; lia|].
  exists (S k). rewrite !length_app in *. lia.
Qed.

Lemma Inserted_map {A B} (f : A -> B) (tag : list A) s t :
  Inserted tag s t -> Inserted (map f tag) (map f s) (map f t).
Proof.
  induction 1 as [s|s p q _ IH]; [constructor|].
  rewrite !map_app. constructor. rewrite <- map_app. exact IH.
Qed.

Lemma Inserted_Forall {A} (P : A -> Prop) (tag : list A) s t :
  Forall P tag -> Inserted tag s t -> Forall P s -> Forall P t.
Proof.
  intros Ht. induction 1 as [s|s p q _ IH]; intros Hs; [exact Hs|].
  specialize (IH Hs). apply Forall_app in IH as [Hp Hq].
  apply Forall_app. split; [exact Hp|]. apply Forall_app. split; assumption.
Qed.

Lemma replaceAll_inserted stop len : forall s,
  (List.length s <= len)%nat -> Inserted (js "</td>") s (replaceAll stop s).
Proof.
  induction len as [|len IH]; intros s Hlen.
  { destruct s; [|cbn in Hlen; lia]. rewrite replaceAll_equation_1. constructor. }
  destruct s as [|c r]; [rewrite replaceAll_equation_1; constructor|].
  rewrite replaceAll_cons.
  destruct (matchAt stop (c :: r)) as [n|] eqn:M.
  - pose proof (matchAt_pos _ _ _ M) as Hn.
    set (k := List.length stop).
    assert (E : c :: r = firstn n (c :: r) ++ firstn k (skipn n (c :: r))
                          ++ skipn (n + k) (c :: r)).
    { rewrite <- (firstn_skipn n (c :: r)) at 1. f_equal.
      rewrite <- (firstn_skipn k (skipn n (c :: r))) at 1. f_equal.
      rewrite skipn_skipn. f_equal. lia. }
    assert (L : (List.length (skipn (n + k) (c :: r)) <= len)%nat).
    { rewrite length_skipn. cbn [List.length] in *. lia. }
    rewrite E at 1. apply Inserted_prefix.
    apply (Inserted_step _ _ [] _). cbn [app]. apply Inserted_prefix. apply IH, L.
  - apply (Inserted_prefix _ [c]). apply IH. cbn in Hlen. lia.
Qed.

Lemma tdLoop_inserted fuel : forall prev s r,
  tdLoop fuel prev s = Some r -> Inserted (js "</td>") s r.
Proof.
  induction fuel as [|f IH]; intros prev s r; [discriminate|].
  cbn [tdLoop]. destruct (List.length s =? prev)%nat.
  - intros E. injection E as <-. constructor.
  - intros E. apply (Inserted_trans _ _ (tdPass s)).
    + apply (replaceAll_inserted _ (List.length s)), le_n.
    + apply (IH _ _ _ E).
Qed.

(** A byte below 128. *)
Definition asciiByte (b : byte) : Prop := (Byte.to_N b < 128)%N.

Lemma decodeFrom_ascii bs :
  Forall asciiByte bs -> decodeFrom idle bs = map Byte.to_N bs.
Proof.
  induction 1 as [|b r Hb _ IH]; [reflexivity|].
  cbn [decodeFrom map]. unfold feed. cbn [due idle]. unfold lead.
  destruct (N.leb_spec (Byte.to_N b) 127) as [_|C]; [|unfold asciiByte in Hb; lia].
  cbn [app]. rewrite IH. reflexivity.
Qed.

Lemma flat_map_units s :
  Forall (fun c => (c < 128)%N) s -> flat_map units s = s.
Proof.
  induction 1 as [|c r Hc _ IH]; [reflexivity|].
  cbn [flat_map]. rewrite IH. unfold units.
  destruct (N.ltb_spec c 65536) as [_|C]; [|lia]. reflexivity.
Qed.

(** ASCII bytes decode to themselves. *)
Lemma utf8Decode_ascii bs :
  Forall asciiByte bs -> utf8Decode bs = map Byte.to_N bs.
Proof.
  intros H. unfold utf8Decode. rewrite (decodeFrom_ascii bs H).
  assert (Hs : Forall (fun c => (c < 128)%N) (map Byte.to_N bs)).
  { apply Forall_map. exact H. }
  destruct (map Byte.to_N bs) as [|c r] eqn:E; [reflexivity|].
  assert (Hc : (c < 128)%N) by (inversion Hs; assumption).
  destruct (N.eq_dec c 65279) as [->|Hne]; [lia|].
  assert (M : match c :: r with
              | (65279%N :: r0) => r0
              | _ => c :: r
              end = c :: r).
  { clear -Hc. destruct c as [|p]; [reflexivity|].
    do 8 (destruct p as [p|p|]; try reflexivity; try (exfalso; lia)). }
  rewrite M. apply flat_map_units, Hs.
Qed.

Lemma scalars_ascii s :
  Forall (fun c => (c < 128)%N) s -> scalars s = s.
Proof.
  induction 1 as [|c r Hc _ IH]; [reflexivity|].
  cbn [scalars].
  destruct (N.leb_spec 55296 c) as [C|_]; [lia|]. cbn [andb].
  destruct (N.leb_spec 56320 c) as [C|_]; [lia|]. cbn [andb].
  rewrite IH. reflexivity.
Qed.

Lemma utf8Bytes_ascii s :
  Forall (fun c => (c < 128)%N) s -> flat_map utf8Bytes s = s.
Proof.
  induction 1 as [|c r Hc _ IH]; [reflexivity|].
  cbn [flat_map]. rewrite IH. unfold utf8Bytes.
  destruct (N.ltb_spec c 128) as [_|C]; [|lia]. reflexivity.
Qed.

(** ASCII code units encode to themselves. *)
Lemma utf8Encode_ascii s :
  Forall (fun c => (c < 128)%N) s -> utf8Encode s = map toByte s.
Proof.
  intros H. unfold utf8Encode. rewrite (scalars_ascii s H), (utf8Bytes_ascii s H).
  reflexivity.
Qed.

Lemma toByte_to_N b : toByte (Byte.to_N b) = b.
Proof. unfold toByte. rewrite Byte.of_to_N. reflexivity. Qed.

(** Whatever the filter returns is the given bytes themselves, or the
    encoding of the decoded text with copies of the closing cell tag put
    in and nothing else removed, altered or moved; for a pure ASCII file
    that is said of the bytes: the result is the file with copies of the
    five bytes of the tag put in. *)
Theorem repair_only_inserts (fuel : nat) (data out : list byte) (filename : jstring) :
  preprocessHtmlIfNeeded fuel data filename = Some out ->
  out = data
  \/ (exists text,
        Inserted (js "</td>") (utf8Decode data) text /\ out = utf8Encode text)
     /\ (Forall asciiByte data ->
         Inserted (bytesOf "</td>") data out
         /\ exists k, List.length out = (List.length data + 5 * k)%nat).
Proof.
  unfold preprocessHtmlIfNeeded.
  destruct (negb _ && negb _); [intros E; injection E as <-; left; reflexivity|].
  destruct (tdLoop fuel 0 (utf8Decode data)) as [fixed|] eqn:L; [|discriminate].
  intros E. injection E as <-. right.
  assert (I : Inserted (js "</td>") (utf8Decode data) (trPass fixed)).
  { apply (Inserted_trans _ _ fixed); [apply (tdLoop_inserted _ _ _ _ L)|].
    apply (replaceAll_inserted _ (List.length fixed)), le_n. }
  split; [exists (trPass fixed); split; [exact I | reflexivity]|].
  intros Ha. rewrite (utf8Decode_ascii data Ha) in I.
  assert (Hs : Forall (fun c => (c < 128)%N) (map Byte.to_N data)).
  { apply Forall_map. exact Ha. }
  assert (Ht : Forall (fun c => (c < 128)%N) (trPass fixed)).
  { apply (Inserted_Forall _ (js "</td>") (map Byte.to_N data)); try assumption.
    repeat constructor. }
  rewrite (utf8Encode_ascii _ Ht).
  pose proof (Inserted_map toByte _ _ _ I) as J.
  rewrite map_map in J.
  rewrite (map_ext _ (fun b => b) toByte_to_N), map_id in J.
  change (map toByte (js "</td>")) with (bytesOf "</td>") in J.
  split; [exact J|].
  destruct (Inserted_length _ _ _ J) as [k Hk]. exists k. exact Hk.
Qed.

Lemma repair_only_inserts_witness :
  bytesOf "<table><td>a</td><td>b</td><TD>c</td></tr>" = bytesOf "<table><td>a<td>b<TD>c</tr>"
  \/ (exists text,
        Inserted (js "</td>") (utf8Decode (bytesOf "<table><td>a<td>b<TD>c</tr>")) text
        /\ bytesOf "<table><td>a</td><td>b</td><TD>c</td></tr>" = utf8Encode text)
     /\ (Forall asciiByte (bytesOf "<table><td>a<td>b<TD>c</tr>") ->
         Inserted (bytesOf "</td>") (bytesOf "<table><td>a<td>b<TD>c</tr>")
                  (bytesOf "<table><td>a</td><td>b</td><TD>c</td></tr>")
         /\ exists k, List.length (bytesOf "<table><td>a</td><td>b</td><TD>c</td></tr>")
                      = (List.length (bytesOf "<table><td>a<td>b<TD>c</tr>") + 5 * k)%nat).
Proof.
  exact (repair_only_inserts 4 (bytesOf "<table><td>a<td>b<TD>c</tr>")
           (bytesOf "<table><td>a</td><td>b</td><TD>c</td></tr>") [] eq_refl).
Defined.

(** Whether an opening cell tag occurs anywhere in a text, in any case. *)
Fixpoint hasCell (s : jstring) : bool :=
  startsWithCI s (js "<td") ||
  match s with
  | [] => false
  | _ :: r => hasCell r
  end.

Lemma replaceAll_no_cell stop s : hasCell s = false -> replaceAll stop s = s.
Proof.
  induction s as [|c r IH]; intros H; [apply replaceAll_equation_1|].
  cbn [hasCell] in H. apply orb_false_iff in H as [H1 H2].
  rewrite replaceAll_cons. unfold matchAt. rewrite H1. f_equal. apply IH, H2.
Qed.

(** A text without an opening cell tag passes through both repair steps
    unchanged, and the loop is left at its second test at the latest; the
    filter then returns the bytes as they came, or the decoded text encoded
    again. *)
Theorem repair_without_cells (fuel : nat) (fullText : jstring) :
  hasCell fullText = false -> (2 <= fuel)%nat ->
  tdPass fullText = fullText /\ trPass fullText = fullText
  /\ tdLoop fuel 0 fullText = Some fullText
  /\ forall data filename, utf8Decode data = fullText ->
       preprocessHtmlIfNeeded fuel data filename = Some data
       \/ preprocessHtmlIfNeeded fuel data filename = Some (utf8Encode fullText).
Proof.
  intros H Hf.
  pose proof (replaceAll_no_cell (js "<td") fullText H) as Etd.
  pose proof (replaceAll_no_cell (js "</tr>") fullText H) as Etr.
  fold (tdPass fullText) in Etd. fold (trPass fullText) in Etr.
  assert (L : tdLoop fuel 0 fullText = Some fullText).
  { destruct fuel as [|[|f]]; try lia. cbn [tdLoop].
    destruct (List.length fullText =? 0)%nat; [reflexivity|].
    rewrite Etd, Nat.eqb_refl. reflexivity. }
  split; [exact Etd|]. split; [exact Etr|]. split; [exact L|].
  intros data filename Hd. unfold preprocessHtmlIfNeeded.
  destruct (negb _ && negb _); [left; reflexivity|]. right.
  rewrite Hd, L, Etr. reflexivity.
Qed.

Lemma repair_without_cells_witness :
  tdPass (js "<table><tr><th>x</th></tr>") = js "<table><tr><th>x</th></tr>"
  /\ trPass (js "<table><tr><th>x</th></tr>") = js "<table><tr><th>x</th></tr>"
  /\ tdLoop 2 0 (js "<table><tr><th>x</th></tr>") = Some (js "<table><tr><th>x</th></tr>")
  /\ forall data filename, utf8Decode data = js "<table><tr><th>x</th></tr>" ->
       preprocessHtmlIfNeeded 2 data filename = Some data
       \/ preprocessHtmlIfNeeded 2 data filename
          = Some (utf8Encode (js "<table><tr><th>x</th></tr>")).
Proof.
  apply repair_without_cells; [reflexivity | apply le_n].
Defined.

Local Close Scope nat_scope.
Local Open Scope Z_scope.

(* --------------------------------------------------------------------- *)
(** ** Amounts written with the won sign                                  *)
(* --------------------------------------------------------------------- *)

Lemma digitOrComma_not_space c : Processor.isDigitOrComma c = true -> isSpace c = false.
Proof.
  unfold Processor.isDigitOrComma, isDigit. intros H.
  assert (E : (c = 44 \/ c = 48 \/ c = 49 \/ c = 50 \/ c = 51 \/ c = 52 \/ c = 53
               \/ c = 54 \/ c = 55 \/ c = 56 \/ c = 57)%N).
  { apply orb_true_iff in H as [H|H].
    - apply andb_true_iff in H as [H1 H2]. apply N.leb_le in H1, H2. lia.
    - apply N.eqb_eq in H. lia. }
  repeat (destruct E as [->|E]; [reflexivity|]). subst c. reflexivity.
Qed.

Lemma dropWhile_app_all {A} (p : A -> bool) l r :
  Forall (fun x => p x = true) l -> dropWhile p (l ++ r) = dropWhile p r.
Proof. induction 1 as [|x t Hx _ IH]; [reflexivity|]. cbn. rewrite Hx. exact IH. Qed.

Lemma takeWhile_app_stop {A} (p : A -> bool) l r :
  Forall (fun x => p x = true) l ->
  match r with [] => True | x :: _ => p x = false end ->
  takeWhile p (l ++ r) = l.
Proof.
  intros Hl Hr. induction Hl as [|x t Hx _ IH]; cbn.
  - destruct r as [|y r]; [reflexivity|]. cbn. rewrite Hr. reflexivity.
  - rewrite Hx, IH. reflexivity.
Qed.

Lemma wonMatch_found pre sp cap rest :
  Forall (fun c => (c =? 65510)%N = false) pre ->
  Forall (fun c => isSpace c = true) sp ->
  Forall (fun c => Processor.isDigitOrComma c = true) cap -> cap <> [] ->
  match rest with [] => True | x :: _ => Processor.isDigitOrComma x = false end ->
  Processor.wonMatch (pre ++ [65510%N] ++ sp ++ cap ++ rest) = Some cap.
Proof.
  intros Hpre Hsp Hcap Hne Hrest.
  induction Hpre as [|c t Hc _ IH]; cbn [app Processor.wonMatch].
  - rewrite N.eqb_refl, (dropWhile_app_all isSpace sp _ Hsp).
    assert (D : dropWhile isSpace (cap ++ rest) = cap ++ rest).
    { destruct cap as [|d cap']; [congruence|]. cbn.
      inversion Hcap; subst. rewrite digitOrComma_not_space by assumption.
      reflexivity. }
    rewrite D, (takeWhile_app_stop _ cap rest Hcap Hrest).
    destruct cap; [congruence | reflexivity].
  - rewrite Hc. exact IH.
Qed.

Lemma ofZ_of_N n : ofZ (Z.of_N n) = ofQ n 1.
Proof. destruct n; reflexivity. Qed.

(** A run of digits is read as the number nearest to the integer it
    spells. *)
Lemma parseFloat_digits ds :
  Forall (fun c => isDigit c = true) ds -> ds <> [] ->
  parseFloat ds = ofQ (digitsToN ds) 1.
Proof.
  intros Hd Hne. unfold parseFloat.
  destruct ds as [|c r]; [congruence|]. inversion Hd as [|? ? Hc Hr]; subst.
  assert (Hrange : (48 <= c <= 57)%N).
  { unfold isDigit in Hc. apply andb_true_iff in Hc as [H1 H2].
    apply N.leb_le in H1, H2. lia. }
  assert (Hsp : dropWhile isSpace (c :: r) = c :: r).
  { cbn. rewrite digitOrComma_not_space; [reflexivity|].
    unfold Processor.isDigitOrComma. rewrite Hc. reflexivity. }
  rewrite Hsp. unfold splitSign.
  destruct (N.eqb_spec c 45) as [E|_]; [lia|].
  destruct (N.eqb_spec c 43) as [E|_]; [lia|].
  unfold parseUnsigned.
  rewrite (takeWhile_all isDigit (c :: r) Hd).
  assert (Hdrop : dropWhile isDigit (c :: r) = []).
  { rewrite <- (app_nil_r (c :: r)). rewrite (dropWhile_app_all isDigit _ [] Hd).
    reflexivity. }
  rewrite Hdrop, app_nil_r. reflexivity.
Qed.

(** In a text that holds a won sign followed, after optional white space,
    by digits and commas, the amount is the number nearest to the integer
    those digits spell, whatever stands before the sign and after the run:
    a foreign-currency annotation behind it never reaches the amount. *)
Theorem extractKRW_won_amount (h : Host) (pre sp cap rest : jstring) :
  Forall (fun c => (c =? 65510)%N = false) pre ->
  Forall (fun c => isSpace c = true) sp ->
  Forall (fun c => Processor.isDigitOrComma c = true) cap -> cap <> [] ->
  match rest with [] => True | x :: _ => Processor.isDigitOrComma x = false end ->
  Processor.extractKRW h (VStr (pre ++ [65510%N] ++ sp ++ cap ++ rest))
  = ofZ (Z.of_N (digitsToN (filter (fun c => negb (c =? 44)%N) cap))).
Proof.
  intros Hpre Hsp Hcap Hne Hrest. unfold Processor.extractKRW.
  assert (T : truthy (VStr (pre ++ [65510%N] ++ sp ++ cap ++ rest)) = true).
  { destruct pre; reflexivity. }
  rewrite T. cbn [negb toString].
  rewrite (wonMatch_found pre sp cap rest Hpre Hsp Hcap Hne Hrest).
  set (ds := filter (fun c => negb (c =? 44)%N) cap).
  assert (Hds : Forall (fun c => isDigit c = true) ds).
  { subst ds. apply Forall_forall. intros c Hc. apply filter_In in Hc as [Hin Hn].
    rewrite Forall_forall in Hcap. specialize (Hcap c Hin).
    unfold Processor.isDigitOrComma in Hcap. apply negb_true_iff in Hn.
    rewrite Hn, orb_false_r in Hcap. exact Hcap. }
  rewrite ofZ_of_N.
  destruct ds as [|d ds'] eqn:E; [reflexivity|].
  rewrite parseFloat_digits by (assumption || discriminate).
  apply orZero_ofQ.
Qed.

Lemma extractKRW_won_amount_witness :
  Processor.extractKRW sampleHost
    (VStr (js "해외 " ++ [65510%N] ++ js " " ++ js "36,411" ++ js "<br/>[USD]25.72"))
  = ofZ (Z.of_N (digitsToN (filter (fun c => negb (c =? 44)%N) (js "36,411")))).
Proof.
  apply (extractKRW_won_amount sampleHost (js "해외 ") (js " ") (js "36,411")
                               (js "<br/>[USD]25.72")).
  - repeat constructor.
  - repeat constructor.
  - repeat constructor.
  - discriminate.
  - reflexivity.
Defined.

(** Number values of integers: a whole number of ordinary size is itself;
    twenty digits are rounded to the nearest number, 53 bits wide; a tie is
    rounded to the even neighbour; four hundred digits overflow. *)
Example integer_samples :
  ofZ 36411 = S754_finite false (36411 * 2 ^ 37) (-37)
  /\ ofZ 12345678901234567890 = S754_finite false 6028163525993441 11
  /\ 6028163525993441 * 2 ^ 11 = 12345678901234567168
  /\ ofZ (2 ^ 53 + 1) = ofZ (2 ^ 53)
  /\ ofZ (2 ^ 53 + 3) = ofZ (2 ^ 53 + 4)
  /\ ofZ (10 ^ 400) = S754_infinity false
  /\ Processor.extractKRW sampleHost (VStr ([65510%N] ++ js "12345678901234567890"))
     = S754_finite false 6028163525993441 11.
Proof. repeat split; vm_compute; reflexivity. Qed.

(* --------------------------------------------------------------------- *)
(** ** Texts with a line-break tag                                        *)
(* --------------------------------------------------------------------- *)

(** A line-break tag: [<], the letters b and r in either case, any white
    space, an optional slash, [>]. *)
Definition isBrTag (t : jstring) : Prop :=
  exists b r sp sl,
    t = [60%N; b; r] ++ sp ++ sl ++ [62%N]
    /\ (b = 98 \/ b = 66)%N /\ (r = 114 \/ r = 82)%N
    /\ Forall (fun c => isSpace c = true) sp
    /\ (sl = [] \/ sl = [47%N]).

(** No line-break tag lies inside a text. *)
Definition noBrTag (a : jstring) : Prop :=
  forall p t q, a = p ++ t ++ q -> ~ isBrTag t.

Lemma lower_letter c k :
  (97 <= k <= 122)%N -> (Processor.lower c =? k)%N = true <-> (c = k \/ c = k - 32)%N.
Proof.
  intros Hk. unfold Processor.lower.
  destruct ((65 <=? c) && (c <=? 90))%N eqn:E.
  - apply andb_true_iff in E as [E1 E2]. apply N.leb_le in E1, E2.
    rewrite N.eqb_eq. lia.
  - rewrite N.eqb_eq. split; [auto|]. intros [H|H]; [exact H|].
    apply andb_false_iff in E as [E|E]; apply N.leb_gt in E; lia.
Qed.

Lemma takeWhile_dropWhile {A} (p : A -> bool) l : takeWhile p l ++ dropWhile p l = l.
Proof.
  induction l as [|x r IH]; [reflexivity|]. cbn. destruct (p x); [|reflexivity].
  cbn. rewrite IH. reflexivity.
Qed.

Lemma takeWhile_Forall {A} (p : A -> bool) l : Forall (fun x => p x = true) (takeWhile p l).
Proof.
  induction l as [|x r IH]; [constructor|]. cbn. destruct (p x) eqn:E; [|constructor].
  constructor; assumption.
Qed.

(** The pattern matches at the head of a text exactly when the text
    starts with a line-break tag. *)
Lemma brAt_tag s :
  Processor.brAt s = true <-> exists t q, s = t ++ q /\ isBrTag t.
Proof.
  split.
  - destruct s as [|c [|b [|r rest]]]; try discriminate.
    unfold Processor.brAt. intros H.
    apply andb_true_iff in H as [H H4]. apply andb_true_iff in H as [H H3].
    apply andb_true_iff in H as [H1 H2].
    apply N.eqb_eq in H1. subst c.
    apply (lower_letter b 98) in H2; [|lia]. apply (lower_letter r 114) in H3; [|lia].
    pose proof (takeWhile_dropWhile isSpace rest) as Hsplit.
    pose proof (takeWhile_Forall isSpace rest) as Hsp.
    destruct (dropWhile isSpace rest) as [|x t] eqn:D; [discriminate|].
    apply orb_true_iff in H4 as [H4|H4].
    + apply N.eqb_eq in H4. subst x.
      exists ([60%N; b; r] ++ takeWhile isSpace rest ++ [] ++ [62%N]), t.
      split.
      * cbn [app]. rewrite <- Hsplit at 1. rewrite <- app_assoc. reflexivity.
      * exists b, r, (takeWhile isSpace rest), []. repeat split; auto; lia.
    + apply andb_true_iff in H4 as [H4 H5]. apply N.eqb_eq in H4. subst x.
      destruct t as [|y t']; [discriminate|]. apply N.eqb_eq in H5. subst y.
      exists ([60%N; b; r] ++ takeWhile isSpace rest ++ [47%N] ++ [62%N]), t'.
      split.
      * cbn [app]. rewrite <- Hsplit at 1. rewrite <- !app_assoc. reflexivity.
      * exists b, r, (takeWhile isSpace rest), [47%N]. repeat split; auto; lia.
  - intros (t & q & -> & b & r & sp & sl & -> & Hb & Hr & Hsp & Hsl).
    cbn [app Processor.brAt]. rewrite N.eqb_refl.
    rewrite (proj2 (lower_letter b 98 ltac:(lia))) by lia.
    rewrite (proj2 (lower_letter r 114 ltac:(lia))) by lia.
    cbn [andb]. rewrite <- !app_assoc, (dropWhile_app_all isSpace sp _ Hsp).
    destruct Hsl as [->| ->]; reflexivity.
Qed.

(** Behind its first code unit a line-break tag has no [<]. *)
Lemma brTag_shape t :
  isBrTag t -> exists tl, t = 60%N :: tl /\ Forall (fun c => c <> 60%N) tl.
Proof.
  intros (b & r & sp & sl & -> & Hb & Hr & Hsp & Hsl).
  eexists. split; [reflexivity|].
  constructor; [lia|]. constructor; [lia|].
  apply Forall_app. split.
  - eapply Forall_impl; [|exact Hsp]. intros c Hc ->. discriminate.
  - destruct Hsl as [->| ->]; repeat constructor; lia.
Qed.

(** In front of a [<], a tag that starts inside [s] ends inside [s]. *)
Lemma brAt_inside s x :
  s <> [] -> Processor.brAt (s ++ 60%N :: x) = true ->
  exists t q, s = t ++ q /\ isBrTag t.
Proof.
  intros Hs H. apply brAt_tag in H as (t & q & E & Ht).
  destruct (brTag_shape t Ht) as (tl & -> & Htl).
  apply app_eq_app in E as [l [[E1 E2]|[E1 E2]]].
  - exists (60%N :: tl), l. split; [exact E1 | exact Ht].
  - destruct l as [|c l'].
    + rewrite app_nil_r in E1. exists (60%N :: tl), [].
      rewrite app_nil_r. split; [symmetry; exact E1 | exact Ht].
    + exfalso. cbn [app] in E2. injection E2 as <- _.
      destruct s as [|c0 s']; [congruence|].
      cbn [app] in E1. injection E1 as _ E1. subst tl.
      apply Forall_app in Htl as [_ Htl]. inversion Htl; congruence.
Qed.

Lemma beforeBr_first_tag a tag rest :
  noBrTag a -> isBrTag tag -> Processor.beforeBr (a ++ tag ++ rest) = a.
Proof.
  intros Ha Ht. destruct (brTag_shape tag Ht) as (tl & Etag & _).
  induction a as [|c r IH].
  - cbn [app]. assert (B : Processor.brAt (tag ++ rest) = true).
    { apply brAt_tag. exists tag, rest. split; [reflexivity | exact Ht]. }
    destruct (tag ++ rest) as [|x y] eqn:E; [reflexivity|].
    cbn [Processor.beforeBr]. rewrite B. reflexivity.
  - cbn [app Processor.beforeBr].
    destruct (Processor.brAt (c :: r ++ tag ++ rest)) eqn:B.
    + exfalso. rewrite Etag in B.
      change (c :: r ++ (60%N :: tl) ++ rest)
        with ((c :: r) ++ 60%N :: (tl ++ rest)) in B.
      destruct (brAt_inside (c :: r) _ ltac:(discriminate) B) as (t & q & E & Hbr).
      apply (Ha [] t q); [exact E | exact Hbr].
    + f_equal. apply IH. intros p t q E. apply (Ha (c :: p) t q). rewrite E. reflexivity.
Qed.

Lemma beforeBr_no_tag a : noBrTag a -> Processor.beforeBr a = a.
Proof.
  intros Ha. induction a as [|c r IH]; [reflexivity|].
  cbn [Processor.beforeBr].
  destruct (Processor.brAt (c :: r)) eqn:B.
  - exfalso. apply brAt_tag in B as (t & q & E & Ht). apply (Ha [] t q E Ht).
  - f_equal. apply IH. intros p t q E. apply (Ha (c :: p) t q). rewrite E. reflexivity.
Qed.

(** Without a won sign, a text is read up to its first line-break tag
    only: what follows the tag, digits included, does not reach the amount,
    while everything before it does, other tags included. *)
Theorem extractKRW_before_break (h : Host) (a tag rest : jstring) :
  Forall (fun c => (c =? 65510)%N = false) (a ++ tag ++ rest) ->
  noBrTag a -> isBrTag tag ->
  Processor.extractKRW h (VStr (a ++ tag ++ rest))
  = orZero (parseFloat (filter Processor.isNumeric a))
  /\ Processor.extractKRW h (VStr (a ++ tag ++ rest)) = Processor.extractKRW h (VStr a).
Proof.
  intros Hw Ha Ht.
  assert (E1 : Processor.extractKRW h (VStr (a ++ tag ++ rest))
               = orZero (parseFloat (filter Processor.isNumeric a))).
  { unfold Processor.extractKRW.
    assert (T : truthy (VStr (a ++ tag ++ rest)) = true).
    { destruct (brTag_shape tag Ht) as (tl & -> & _). destruct a; reflexivity. }
    rewrite T. cbn [negb toString].
    rewrite (wonMatch_none _ Hw), (beforeBr_first_tag a tag rest Ha Ht). reflexivity. }
  split; [exact E1|]. rewrite E1.
  destruct a as [|c r]; [reflexivity|].
  unfold Processor.extractKRW. cbn [truthy negb toString].
  apply Forall_app in Hw as [Hwa _].
  rewrite (wonMatch_none _ Hwa), (beforeBr_no_tag _ Ha). reflexivity.
Qed.

(** A text none of whose suffixes starts with a match has no tag inside. *)
Fixpoint noBrAt (a : jstring) : bool :=
  negb (Processor.brAt a) && match a with
                             | [] => true
                             | _ :: r => noBrAt r
                             end.

Lemma noBrAt_noBrTag a : noBrAt a = true -> noBrTag a.
Proof.
  intros H p. revert a H. induction p as [|c p IH]; intros a H t q E Ht.
  - cbn [app] in E. subst a.
    assert (B : Processor.brAt (t ++ q) = true)
      by (apply brAt_tag; exists t, q; split; [reflexivity | exact Ht]).
    destruct (t ++ q); cbn [noBrAt] in H; rewrite B in H; discriminate.
  - subst a. cbn [app noBrAt] in H. apply andb_true_iff in H as [_ H].
    exact (IH _ H t q eq_refl Ht).
Qed.

Lemma extractKRW_before_break_witness :
  Processor.extractKRW sampleHost
    (VStr (js "<b>1,200</b> KRW" ++ js "<BR />" ++ js "[USD]0.90<br>"))
  = orZero (parseFloat (filter Processor.isNumeric (js "<b>1,200</b> KRW")))
  /\ Processor.extractKRW sampleHost
       (VStr (js "<b>1,200</b> KRW" ++ js "<BR />" ++ js "[USD]0.90<br>"))
     = Processor.extractKRW sampleHost (VStr (js "<b>1,200</b> KRW")).
Proof.
  apply extractKRW_before_break.
  - repeat constructor.
  - apply noBrAt_noBrTag. reflexivity.
  - exists 66%N, 82%N, [32%N], [47%N]. repeat split; auto.
Defined.

Example before_break_sample :
  Processor.extractKRW sampleHost (VStr (js "<b>1,200</b> KRW<BR />[USD]0.90<br>"))
    = ofZ 1200
  /\ Processor.extractKRW sampleHost (VStr (js "3<b>4")) = ofZ 34
  /\ Processor.extractKRW sampleHost (VStr (js "3<br4")) = ofZ 34
  /\ Processor.extractKRW sampleHost (VStr (js "3<br  >4")) = ofZ 3.
Proof. repeat split; vm_compute; reflexivity. Qed.

(* --------------------------------------------------------------------- *)
(** ** Amounts are numbers                                                *)
(* --------------------------------------------------------------------- *)

Lemma truthy_not_NaN v : truthy v = true -> v <> VNum S754_nan.
Proof. intros H ->. discriminate. Qed.

(** Only the number NaN itself comes back as NaN. *)
Lemma extractKRW_not_nan h v :
  v <> VNum S754_nan -> Processor.extractKRW h v <> S754_nan.
Proof.
  intros Hv. destruct v as [| |b|n|s|t];
    try (rewrite extractKRW_text by (intros n0; discriminate);
         destruct (truthy _); [apply orZero_not_nan | discriminate]).
  cbn. congruence.
Qed.

Lemma pickAmount_not_NaN row i j : Processor.pickAmount row i j <> VNum S754_nan.
Proof.
  unfold Processor.pickAmount.
  destruct (negb (i =? -1) && truthy (at_ row i)) eqn:E1.
  - apply andb_true_iff in E1 as [_ T]. apply truthy_not_NaN, T.
  - destruct (negb (j =? -1) && truthy (at_ row j)) eqn:E2; [|discriminate].
    apply andb_true_iff in E2 as [_ T]. apply truthy_not_NaN, T.
Qed.

Lemma orNumZero_not_NaN v : Processor.orNumZero v <> VNum S754_nan.
Proof.
  unfold Processor.orNumZero. destruct (truthy v) eqn:T;
    [apply truthy_not_NaN, T | discriminate].
Qed.

Definition notNaN (e : Entry) : Prop := e_amount e <> VNum S754_nan.

Lemma normalizeRows_not_nan h uuid filename def i1 i2 i3 i4 i5 rows k :
  Forall notNaN
         (Processor.normalizeRows h uuid filename def i1 i2 i3 i4 i5
            (fun v => VNum (Processor.extractKRW h v)) rows k).
Proof.
  revert k. induction rows as [|row rest IH]; intros k; [constructor|].
  cbn [Processor.normalizeRows]. destruct row as [|c r]; [apply IH|].
  destruct (negb (truthy (at_ (c :: r) i1))); [apply IH|].
  constructor; [|apply IH]. unfold notNaN. cbn [Processor.mkEntry e_amount].
  intros E. injection E as E.
  exact (extractKRW_not_nan h _ (pickAmount_not_NaN (c :: r) i4 i5) E).
Qed.

Lemma classifyData_own h rules data :
  map ownFields (Processor.classifyData h rules data) = map ownFields data.
Proof.
  unfold Processor.classifyData. rewrite map_map.
  destruct rules as [rs|].
  - rewrite map_map. apply map_ext. intros e.
    rewrite deriveColumns_own. apply applyRules_own.
  - apply map_ext. intros e. apply deriveColumns_own.
Qed.

Lemma classifyData_amounts h rules data :
  map e_amount (Processor.classifyData h rules data) = map e_amount data.
Proof.
  pose proof (classifyData_own h rules data) as H.
  assert (E : forall x, map e_amount x
                        = map (fun o => snd (fst (fst (fst o)))) (map ownFields x)).
  { intros x. rewrite map_map. apply map_ext. reflexivity. }
  rewrite !E, H. reflexivity.
Qed.

Lemma Forall_map_eq {A B} (f : A -> B) (P : B -> Prop) l l' :
  map f l' = map f l -> Forall (fun e => P (f e)) l -> Forall (fun e => P (f e)) l'.
Proof.
  intros E H. apply Forall_map. rewrite E. apply Forall_map. exact H.
Qed.

(** The amount of every record a run returns is a number.  In a run of
    the row-wise normalizer it is never NaN: a cell reaches the extractor
    only when it is truthy, and the extractor turns every text into a
    number or zero.  In a run of the payroll-summary normalizer the first
    two amounts are never NaN, and the third, their sum divided by twelve,
    is NaN exactly when they are infinities of opposite sign. *)
Theorem processFile_amounts (h : Host) (uuid : nat -> jstring)
    (definitions : list SourceDefinition) (rules : option (list Rule)) (now : Z)
    (filename : jstring) (wb : Workbook) (records : list Entry)
    (def : SourceDefinition) (headerRow : array jstring) (headerIndex : nat)
    (sheetName : jstring) (jsonData : list Row) :
  Router.identifySource h definitions filename wb
    = Identified def headerRow headerIndex sheetName jsonData ->
  Processor.processFile h uuid definitions rules now filename wb
    = Processor.Processed records ->
  Forall (fun e => exists n, e_amount e = VNum n) records
  /\ (jeqb (type def) (js "salary_summary") = false ->
      Forall (fun e => e_amount e <> VNum S754_nan) records)
  /\ (jeqb (type def) (js "salary_summary") = true ->
      records = []
      \/ exists n1 n2 n3,
           map e_amount records = [VNum n1; VNum n2; VNum n3]
           /\ n1 <> S754_nan /\ n2 <> S754_nan
           /\ n3 = SFdiv 53 1024 (SFadd 53 1024 n1 n2)
                         (S754_finite false 6755399441055744 (-49))
           /\ (n3 = S754_nan <->
               exists s, n1 = S754_infinity s /\ n2 = S754_infinity (negb s))).
Proof.
  intros Hid Hp.
  destruct (processFile_records _ _ _ _ _ _ _ _ Hp)
    as (def' & hr & hi & sn & jd & nd & Hid' & Hnd & ->).
  rewrite Hid in Hid'. injection Hid' as <- <- <- <- <-.
  split; [|split].
  - apply (Forall_map_eq e_amount (fun a => exists n, a = VNum n) nd);
      [apply classifyData_amounts|].
    destruct (jeqb (type def) _);
      [eapply normalizeSalarySummary_numeric | eapply normalizeData_numeric];
      exact Hnd.
  - intros Ht. rewrite Ht in Hnd.
    apply (Forall_map_eq e_amount (fun a => a <> VNum S754_nan) nd);
      [apply classifyData_amounts|].
    destruct (normalizeWith_ok _ _ _ _ _ _ _ _ _ _ Hnd)
      as (i1 & i2 & i3 & i4 & i5 & _ & _ & _ & _ & _ & ->).
    apply normalizeRows_not_nan.
  - intros Ht. rewrite Ht in Hnd.
    destruct (normalizeSalarySummary_ok _ _ _ _ _ _ _ _ _ _ Hnd)
      as (iNet & iDed & iName & _ & _ & _ & ->).
    destruct (Processor.findTotalRow h _) as [totalRow|];
      [right | left; destruct rules; reflexivity].
    cbv zeta. rewrite classifyData_amounts.
    set (n1 := Processor.extractKRW h (Processor.orNumZero (at_ totalRow iNet))).
    set (n2 := Processor.extractKRW h (Processor.orNumZero (at_ totalRow iDed))).
    assert (H1 : n1 <> S754_nan) by apply extractKRW_not_nan, orNumZero_not_NaN.
    assert (H2 : n2 <> S754_nan) by apply extractKRW_not_nan, orNumZero_not_NaN.
    exists n1, n2, (ndiv (nadd n1 n2) (ofZ 12)).
    split; [reflexivity|]. split; [exact H1|]. split; [exact H2|].
    rewrite twelve. split; [reflexivity|].
    rewrite ndiv_finite_nan, nadd_nan. split.
    + intros [E|[E|E]]; [contradiction | contradiction | exact E].
    + intros E. right. right. exact E.
Qed.

Lemma processFile_amounts_witness :
  Forall (fun e => exists n, e_amount e = VNum n) kbRecords
  /\ Forall (fun e => e_amount e <> VNum S754_nan) kbRecords.
Proof.
  destruct (processFile_amounts sampleHost sampleUUID Router.SOURCE_DEFINITIONS
              None 0 (js "kb.xls") kbWorkbook kbRecords kbDef
              (map Some [js "이용일"; js "이용시간"; js "이용하신곳"; js "이용금액(원)"])
              0 (js "Sheet1") (Sheets kbWorkbook (js "Sheet1")) eq_refl eq_refl)
    as (H1 & H2 & _).
  split; [exact H1 | apply H2; reflexivity].
Defined.

(** A payroll summary whose totals are infinities of opposite sign: the
    third amount is NaN; and a text of four hundred digits is an infinite
    amount. *)
Example amounts_not_finite :
  rmap (map e_amount)
       (Processor.normalizeSalarySummary sampleHost sampleUUID 0 0 (js "pay.xls")
          [ [Some (VStr (js "차인지급액")); Some (VStr (js "공제합계"))];
            [Some (VNum (S754_infinity false)); Some (VNum (S754_infinity true));
             Some (VStr (js "합계"))] ]
          salaryDef [Some (js "차인지급액"); Some (js "공제합계")] 0)
  = Ok [VNum (S754_infinity false); VNum (S754_infinity true); VNum S754_nan]
  /\ Processor.extractKRW sampleHost (VStr (repeat 57%N 400)) = S754_infinity false.
Proof. split; vm_compute; reflexivity. Qed.

(* --------------------------------------------------------------------- *)
(** ** One record per dated row                                           *)
(* --------------------------------------------------------------------- *)

(** A row the row-wise normalizer keeps: it has cells, and its date cell is
    truthy. *)
Definition dated (idxDate : Z) (row : Row) : bool :=
  match row with
  | [] => false
  | _ => truthy (at_ row idxDate)
  end.

(** The fields of a record that the row loop fills without looking at the
    amount, the time or the description. *)
Definition frame (e : Entry) :=
  (e_date e, raw_source e, raw_filename e, classFields e,
   (display_date e, col_transfer e, col_account e, col_cash e, col_card e,
    col_card_detail e)).

Lemma normalizeRows_frame h uuid filename def i1 i2 i3 i4 i5 clean rows :
  forall k,
    map frame (Processor.normalizeRows h uuid filename def i1 i2 i3 i4 i5 clean rows k)
    = map (fun row => (Processor.formatDate h (at_ row i1), name def, filename,
                       ([], [], [], []),
                       (VUndef, VUndef, VUndef, VUndef, VUndef, VUndef)))
          (filter (dated i1) rows)
    /\ map id (Processor.normalizeRows h uuid filename def i1 i2 i3 i4 i5 clean rows k)
       = map uuid (seq k (List.length (filter (dated i1) rows))).
Proof.
  induction rows as [|row rest IH]; intros k; [split; reflexivity|].
  cbn [Processor.normalizeRows filter]. destruct row as [|c r]; [apply IH|].
  cbn [dated]. destruct (truthy (at_ (c :: r) i1)); cbn [negb]; [|apply IH].
  destruct (IH (S k)) as [H1 H2]. cbn [map List.length seq].
  split; [rewrite H1 | rewrite H2]; reflexivity.
Qed.

(** The five mapping entries the row-wise normalizer resolves. *)
Definition rowFields (m : Mapping) : list field :=
  [date m; time m; raw_description m; amount m; amount_alt m].

(** The row-wise normalizer throws only when the column helper throws on
    one of the five mapping entries, which it never does on a header
    without holes.  When it returns, it returns one record per row below
    the header that has cells and a truthy date cell, in row order, with
    the normalized date, the provenance fields set and the classification
    fields blank; the records carry the identifiers drawn in order; and
    without a date column there is no record at all. *)
Theorem normalizeData_one_per_dated_row (h : Host) (uuid : nat -> jstring)
    (k : nat) (filename : jstring) (jsonData : list Row)
    (def : SourceDefinition) (headerRow : array jstring) (headerIndex : nat) :
  match Processor.normalizeData h uuid k filename jsonData def headerRow headerIndex with
  | TypeError =>
    exists f, In f (rowFields (mapping def))
              /\ Processor.getColIdx headerRow f = TypeError
  | Ok out =>
    exists idxDate,
      Processor.getColIdx headerRow (date (mapping def)) = Ok idxDate
      /\ let kept := filter (dated idxDate) (skipn (headerIndex + 1) jsonData) in
         map frame out
         = map (fun row => (Processor.formatDate h (at_ row idxDate), name def, filename,
                            ([], [], [], []),
                            (VUndef, VUndef, VUndef, VUndef, VUndef, VUndef))) kept
         /\ map id out = map uuid (seq k (List.length kept))
         /\ (List.length out <= List.length jsonData - (headerIndex + 1))%nat
         /\ (idxDate = -1 -> out = [])
  end
  /\ (forall headers, headerRow = map Some headers ->
        Processor.normalizeData h uuid k filename jsonData def headerRow headerIndex
        <> TypeError).
Proof.
  split.
  - destruct (Processor.normalizeData h uuid k filename jsonData def headerRow
                                      headerIndex) as [out|] eqn:E.
    + destruct (normalizeWith_ok _ _ _ _ _ _ _ _ _ _ E)
        as (i1 & i2 & i3 & i4 & i5 & E1 & _ & _ & _ & _ & ->).
      exists i1. split; [exact E1|]. cbv zeta.
      destruct (normalizeRows_frame h uuid filename def i1 i2 i3 i4 i5
                  (fun v => VNum (Processor.extractKRW h v))
                  (skipn (headerIndex + 1) jsonData) k) as [H1 H2].
      set (out := Processor.normalizeRows _ _ _ _ _ _ _ _ _ _ _ _) in *.
      set (kept := filter (dated i1) (skipn (headerIndex + 1) jsonData)) in *.
      assert (L : List.length out = List.length kept).
      { rewrite <- (length_map frame out), H1, length_map. reflexivity. }
      split; [exact H1|]. split; [exact H2|]. split.
      * rewrite L. subst kept. rewrite <- length_skipn. apply filter_length_le.
      * intros Ei. assert (K : kept = []).
        { subst kept. rewrite Ei. clear.
          induction (skipn (headerIndex + 1) jsonData) as [|row rest IH]; [reflexivity|].
          cbn [filter]. destruct row; exact IH. }
        rewrite K in L. destruct out; [reflexivity | discriminate].
    + unfold Processor.normalizeData, Processor.normalizeWith in E. cbv zeta in E.
      unfold rowFields.
      destruct (Processor.getColIdx headerRow (date _)) as [i1|] eqn:E1;
        [|eexists; split; [|exact E1]; cbn; auto].
      destruct (Processor.getColIdx headerRow (time _)) as [i2|] eqn:E2;
        [|eexists; split; [|exact E2]; cbn; auto].
      destruct (Processor.getColIdx headerRow (raw_description _)) as [i3|] eqn:E3;
        [|eexists; split; [|exact E3]; cbn; auto].
      destruct (Processor.getColIdx headerRow (amount _)) as [i4|] eqn:E4;
        [|eexists; split; [|exact E4]; cbn; auto].
      destruct (Processor.getColIdx headerRow (amount_alt _)) as [i5|] eqn:E5;
        [|eexists; split; [|exact E5]; cbn; auto 6].
      discriminate.
  - intros headers ->. unfold Processor.normalizeData, Processor.normalizeWith.
    cbv zeta.
    rewrite !getColIdx_candidates.
    repeat match goal with
           | |- context [match candidates ?f with _ => _ end] =>
             destruct (candidates f); [|rewrite getColIdxLoop_dense]
           end; discriminate.
Qed.

Example one_per_dated_row_sample :
  rmap (map (fun e => (id e, e_date e, e_raw_description e)))
       (Processor.normalizeData sampleHost sampleUUID 5 (js "kb.xls")
          [ [Some (VStr (js "이용일")); None; Some (VStr (js "이용하신곳"))];
            [Some (VStr (js "2025.01.10")); None; Some (VStr (js " 스타벅스 "))];
            [];
            [None; None; Some (VStr (js "소계"))];
            [Some (VNum (ofZ 45672))] ]
          kbDef [Some (js "이용일"); None; Some (js "이용하신곳")] 0)
  = TypeError
  /\ rmap (map (fun e => (id e, e_date e, e_raw_description e)))
       (Processor.normalizeData sampleHost sampleUUID 5 (js "kb.xls")
          [ [Some (VStr (js "이용일")); Some (VStr (js "이용시간"));
             Some (VStr (js "이용하신곳"))];
            [Some (VStr (js "2025.01.10")); None; Some (VStr (js " 스타벅스 "))];
            [];
            [None; None; Some (VStr (js "소계"))];
            [Some (VNum (ofZ 45672))] ]
          kbDef [Some (js "이용일"); Some (js "이용시간"); Some (js "이용하신곳")] 0)
  = Ok [ (js "uuid-5", js "2025-01-10", js "스타벅스");
         (js "uuid-6", js "2025-01-15", []) ].
Proof. split; vm_compute; reflexivity. Qed.

(* --------------------------------------------------------------------- *)
(** ** The export of a run                                                *)
(* --------------------------------------------------------------------- *)

(** In an exported row the total is a number that stands in exactly one of
    the transfer, cash and card columns, and the other two hold the empty
    string. *)
Definition totalInOneChannel (r : list value) : Prop :=
  exists n,
    nth 3 r VUndef = VNum n
    /\ ((nth 4 r VUndef = VNum n /\ nth 6 r VUndef = VStr []
         /\ nth 7 r VUndef = VStr [])
        \/ (nth 4 r VUndef = VStr [] /\ nth 6 r VUndef = VNum n
            /\ nth 7 r VUndef = VStr [])
        \/ (nth 4 r VUndef = VStr [] /\ nth 6 r VUndef = VStr []
            /\ nth 7 r VUndef = VNum n)).

Lemma classifyData_members h rules nd e :
  In e (Processor.classifyData h rules nd) ->
  exists e0 e1, In e0 nd /\ ownFields e1 = ownFields e0
                /\ e = Processor.deriveColumns e1.
Proof.
  unfold Processor.classifyData. intros Hin.
  apply in_map_iff in Hin as (e1 & <- & Hin1).
  destruct rules as [rs|].
  - apply in_map_iff in Hin1 as (e0 & <- & Hin0).
    exists e0, (Processor.applyRules h rs e0).
    split; [exact Hin0|]. split; [apply applyRules_own | reflexivity].
  - exists e1, e1. auto.
Qed.

(** The export writes nothing exactly when there is no record.  For the
    records of a run it otherwise writes, under the given file name or the
    default one, one sheet with the header row and one row per record, in
    order, every row as wide as the list of column widths, and in every
    record row the total stands in exactly one of the three channel amount
    columns. *)
Theorem export_of_run (h : Host) (uuid : nat -> jstring)
    (definitions : list SourceDefinition) (rules : option (list Rule)) (now : Z)
    (filename : jstring) (wb : Workbook) (records : list Entry)
    (target : option jstring) :
  Processor.processFile h uuid definitions rules now filename wb
    = Processor.Processed records ->
  (Exporter.exportToExcel records target = None <-> records = [])
  /\ (forall w, Exporter.exportToExcel records target = Some w ->
        Exporter.file w = match target with
                          | Some f => f
                          | None => js "지출내역_완료.xlsx"
                          end
        /\ Exporter.wsData w = Exporter.headerCells :: map Exporter.rowCells records
        /\ Forall (fun r => List.length r = List.length (Exporter.cols w))
                  (Exporter.wsData w)
        /\ List.length (Exporter.cols w) = 11%nat
        /\ Forall totalInOneChannel (map Exporter.rowCells records)).
Proof.
  intros Hp. split.
  - unfold Exporter.exportToExcel. destruct records; split; congruence.
  - intros w Hw.
    destruct (processFile_records _ _ _ _ _ _ _ _ Hp)
      as (def & headerRow & headerIndex & sheetName & jsonData & nd & _ & Hnd & Hr).
    assert (Hnum : Forall numericAmount nd).
    { destruct (jeqb (type def) (js "salary_summary"));
        [eapply normalizeSalarySummary_numeric | eapply normalizeData_numeric];
        exact Hnd. }
    assert (Hch : Forall totalInOneChannel (map Exporter.rowCells records)).
    { apply Forall_forall. intros r Hin.
      apply in_map_iff in Hin as (e & <- & Hin). subst records.
      destruct (classifyData_members _ _ _ _ Hin) as (e0 & e1 & Hin0 & Ho & ->).
      rewrite Forall_forall in Hnum. destruct (Hnum e0 Hin0) as [n Hn].
      assert (Hn1 : e_amount e1 = VNum n)
        by (unfold ownFields in Ho; congruence).
      exists n. unfold Exporter.rowCells, Processor.deriveColumns.
      destruct (includes (raw_source e1) (js "카드"));
        [|destruct (includes (raw_source e1) (js "계좌"))];
        cbn [nth e_amount col_transfer col_cash col_card]; rewrite Hn1; auto 6. }
    unfold Exporter.exportToExcel in Hw. destruct records as [|e rest]; [discriminate|].
    injection Hw as <-. cbn [Exporter.file Exporter.wsData Exporter.cols].
    split; [reflexivity|]. split; [reflexivity|]. split; [|split; [reflexivity | exact Hch]].
    constructor; [reflexivity|].
    change (Exporter.rowCells e :: map Exporter.rowCells rest)
      with (map Exporter.rowCells (e :: rest)).
    apply Forall_map, Forall_forall. intros x _. reflexivity.
Qed.

Lemma export_of_run_witness :
  (Exporter.exportToExcel kbRecords None = None <-> kbRecords = [])
  /\ (forall w, Exporter.exportToExcel kbRecords None = Some w ->
        Exporter.file w = js "지출내역_완료.xlsx"
        /\ Exporter.wsData w = Exporter.headerCells :: map Exporter.rowCells kbRecords
        /\ Forall (fun r => List.length r = List.length (Exporter.cols w))
                  (Exporter.wsData w)
        /\ List.length (Exporter.cols w) = 11%nat
        /\ Forall totalInOneChannel (map Exporter.rowCells kbRecords)).
Proof.
  exact (export_of_run sampleHost sampleUUID Router.SOURCE_DEFINITIONS None 0
           (js "kb.xls") kbWorkbook kbRecords None eq_refl).
Defined.

Example export_nothing :
  Exporter.exportToExcel [] (Some (js "out.xlsx")) = None
  /\ option_map Exporter.wsData (Exporter.exportToExcel kbRecords None)
     = Some [ Exporter.headerCells;
              [VStr (js "2025-01-10"); VStr []; VStr (js "스타벅스"); VNum (ofZ 4500);
               VStr []; VStr []; VStr []; VNum (ofZ 4500); VStr (js "KB국민카드");
               VStr []; VStr []] ].
Proof. split; reflexivity. Qed.
